(** * The tag-detection core of apriltags2_ros

    A shallow embedding of [TagDetector] (src/common_functions.cpp):
    duplicate removal, the construction of object/image point
    correspondences, the per-frame detection pipeline with its broadcast of
    transforms, the loading of the standalone and tag-bundle descriptions,
    the construction and destruction of the detector and the drawing of the
    detections, together with the properties the design document states
    about them and further properties that the code has. *)

From Stdlib Require Import ZArith Lia Ring.
From stdpp Require Import base option list sorting gmap strings pretty.

(** ** Outcomes of a call

    A call either returns, or is stopped by a failed assertion, or, in the
    model only, runs out of the fuel given to an unbounded loop. A failed
    assertion, be it a [ROS_ASSERT] of the code or an assertion of a library
    (an index outside a zarray or a vector), ends the process where it
    fails: nothing is thrown, and no handler of the caller is entered. *)

Inductive outcome (A : Type) : Type :=
| Returned (a : A)
| AssertFailed
| OutOfFuel.
Arguments Returned {A} a.
Arguments AssertFailed {A}.
Arguments OutOfFuel {A}.

#[global] Instance outcome_ret : MRet outcome := λ A a, Returned a.
#[global] Instance outcome_bind : MBind outcome := λ A B k m,
  match m with
  | Returned a => k a
  | AssertFailed => AssertFailed
  | OutOfFuel => OutOfFuel
  end.

#[global] Instance outcome_fmap : FMap outcome := λ A B f m,
  match m with
  | Returned a => Returned (f a)
  | AssertFailed => AssertFailed
  | OutOfFuel => OutOfFuel
  end.

(** An asserted access: [None] is the failed assertion. *)
Definition asserted {A} (o : option A) : outcome A :=
  match o with Some a => Returned a | None => AssertFailed end.

(** ** zarray

    The detections live in a [zarray_t] of the AprilTag library
    (common/zarray.h): an array addressed by [int] indices, whose accessors
    assert that the index is within bounds, and whose [zarray_remove_index]
    with [shuffle = 0] closes the gap keeping the order of the rest. *)

Definition zarray_size {A} (za : list A) : Z := Z.of_nat (length za).

Definition zarray_get {A} (za : list A) (idx : Z) : option A :=
  if decide (0 ≤ idx)%Z then za !! Z.to_nat idx else None.

Definition zarray_remove_index {A} (za : list A) (idx : Z) : option (list A) :=
  if decide (0 ≤ idx < zarray_size za)%Z then Some (delete (Z.to_nat idx) za)
  else None.

(** Merge sort on "[compar] does not put [b] before [a]", for a comparison
    of the elements themselves. *)
Definition reference_sort {A} (compar : A → A → Z) : list A → list A :=
  @merge_sort A (λ a b, (compar a b ≤ 0)%Z) (λ a b, Z_le_dec (compar a b) 0).

Section TagDetector.
Set Default Proof Using "Type".
(** * The model *)

(** ** Duplicate removal

    [apriltag_detection_t] is declared by the AprilTag library; the code of
    [removeDuplicates] reads its field [id] only, through the pointers that
    [zarray_get] takes out of the array: [detection_id] is [detection->id]
    for such a pointer.

    [zarray_sort] is the library's sort, a call of [qsort] on the slots of
    the array, each of which holds a pointer to a detection. [qsort] hands
    the comparison the addresses of two slots as pointers to [const void],
    and [idComparison] casts each to a pointer to [apriltag_detection_t] and
    reads [id] through it, without first reading the pointer that the slot
    holds. [void_ptr] is the type of what the comparison is handed, [memory]
    the state of the memory when it is called, and [cast_id m p] the [int]
    that is read in [m] as the field [id] through [p] so cast. Nothing
    relates it to the ids of the detections that the slots point to, and
    nothing is assumed of the order in which [zarray_sort] leaves the
    array. *)
Context {apriltag_detection_t : Type}.
Variable detection_id : apriltag_detection_t → Z.
Context {memory void_ptr : Type}.
Variable cast_id : memory → void_ptr → Z.
Variable zarray_sort :
  (memory → void_ptr → void_ptr → Z) →
  list apriltag_detection_t → list apriltag_detection_t.

Definition idComparison (m : memory) (first second : void_ptr) : Z :=
  let id1 := cast_id m first in
  let id2 := cast_id m second in
  if decide (id1 < id2)%Z then (-1)%Z else if decide (id1 = id2) then 0%Z else 1%Z.

(** The variables of [removeDuplicates] that live across iterations of its
    [while (true)] loop. *)
Record scan_state : Type := ScanState {
  detections_ : list apriltag_detection_t;
  count : Z;
  duplicate_detected : bool
}.

(** What one iteration of the loop does. *)
Inductive iteration : Type :=
| Return_ (detections : list apriltag_detection_t)
| Continue_ (s : scan_state)
| Assert_.

Definition removeDuplicates_iteration (s : scan_state) : iteration :=
  let za := detections_ s in
  if decide (count s > zarray_size za - 1)%Z then Return_ za
  else
    match zarray_get za (count s) with
    | None => Assert_
    | Some detection =>
      let id_current := detection_id detection in
      let id_next :=
        if decide (count s < zarray_size za - 1)%Z
        then detection_id <$> zarray_get za (count s + 1)
        else Some (-1)%Z in
      match id_next with
      | None => Assert_
      | Some id_next =>
        if bool_decide (id_current = id_next)
           || (bool_decide (id_current ≠ id_next) && duplicate_detected s)
        then
          match zarray_remove_index za (count s) with
          | None => Assert_
          | Some za' =>
            Continue_ (ScanState za' (count s)
                         (if decide (id_current ≠ id_next) then false else true))
          end
        else Continue_ (ScanState za (count s + 1) (duplicate_detected s))
      end
    end.

Fixpoint removeDuplicates_loop (fuel : nat) (s : scan_state)
    : outcome (list apriltag_detection_t) :=
  match fuel with
  | O => OutOfFuel
  | S fuel =>
    match removeDuplicates_iteration s with
    | Return_ za => Returned za
    | Assert_ => AssertFailed
    | Continue_ s' => removeDuplicates_loop fuel s'
    end
  end.

(** The quantity that bounds the iterations still to come. *)
Definition scan_measure (s : scan_state) : Z :=
  (2 * zarray_size (detections_ s) - count s)%Z.

Definition removeDuplicates (detections : list apriltag_detection_t)
    : outcome (list apriltag_detection_t) :=
  let s := ScanState (zarray_sort idComparison detections) 0 false in
  removeDuplicates_loop (S (Z.to_nat (scan_measure s))) s.

(** *** The scan, seen from the cursor

    [scan dup rest] is what the loop leaves of the part [rest] of the array
    at and after the cursor. *)
Fixpoint scan (dup : bool) (rest : list apriltag_detection_t)
    : list apriltag_detection_t :=
  match rest with
  | [] => []
  | d :: rest' =>
    let id_next := match rest' with d' :: _ => detection_id d' | [] => (-1)%Z end in
    if decide (detection_id d = id_next) then scan true rest'
    else if dup then scan false rest'
    else d :: scan false rest'
  end.

(** ** Numbers, points and matrices

    The code computes in [double]. Its arithmetic is taken as an unspecified
    scalar type [F] with the operations the code uses; what a property needs
    of them is stated where it is used. [F_of_int] is the conversion of an
    [int] to a [double]. *)
Context {F : Type} `{!EqDecision F}.
Variables (F0 F1 : F) (Fadd Fsub Fmul Fdiv : F → F → F) (Fopp : F → F).
Variable F_of_int : Z → F.

Declare Scope F_scope.
Delimit Scope F_scope with F.
Local Notation "0" := F0 : F_scope.
Local Notation "1" := F1 : F_scope.
Local Notation "x + y" := (Fadd x y) : F_scope.
Local Notation "x - y" := (Fsub x y) : F_scope.
Local Notation "x * y" := (Fmul x y) : F_scope.
Local Notation "x / y" := (Fdiv x y) : F_scope.
Local Notation "- x" := (Fopp x) : F_scope.
Local Notation "- 1" := (Fopp F1) : F_scope.

(** [cv::Point2d] and [cv::Point3d]. *)
Record Point2d : Type := mkPoint2d { Point2d_x : F; Point2d_y : F }.
Record Point3d : Type := mkPoint3d { Point3d_x : F; Point3d_y : F; Point3d_z : F }.

(** [cv::Vec3d], [cv::Vec4d] and the row-major [cv::Matx]s built of them. *)
Definition Vec3d : Type := F * F * F.
Definition Vec4d : Type := F * F * F * F.
Definition Matx33d : Type := Vec3d * Vec3d * Vec3d.
Definition Matx34d : Type := Vec4d * Vec4d * Vec4d.
Definition Matx44d : Type := Vec4d * Vec4d * Vec4d * Vec4d.

Definition Matx44d_eye : Matx44d :=
  ((1, 0, 0, 0), (0, 1, 0, 0), (0, 0, 1, 0), (0, 0, 0, 1))%F.

(** [T.get_minor<3, 4>(0, 0)]: the first three rows. *)
Definition get_minor_3_4 (T : Matx44d) : Matx34d :=
  let '(r0, r1, r2, _) := T in (r0, r1, r2).

(** One entry of a matrix-vector product, summed from zero in index order as
    [cv::Matx]'s multiplication does. *)
Definition row_times (row v : Vec4d) : F :=
  let '(a0, a1, a2, a3) := row in
  let '(b0, b1, b2, b3) := v in
  (0 + a0 * b0 + a1 * b1 + a2 * b2 + a3 * b3)%F.

(** [cv::Matx34d * cv::Vec4d], read as a [cv::Point3d]. *)
Definition Matx34d_times (M : Matx34d) (v : Vec4d) : Point3d :=
  let '(r0, r1, r2) := M in
  mkPoint3d (row_times r0 v) (row_times r1 v) (row_times r2 v).

(** [std::vector::push_back]. *)
Definition push_back {A} (v : list A) (x : A) : list A := v ++ [x].

(** ** Correspondences *)

Definition addObjectPoints (s : F) (T_oi : Matx44d) (objectPoints : list Point3d)
    : list Point3d :=
  let objectPoints :=
    push_back objectPoints (Matx34d_times (get_minor_3_4 T_oi) (- s, - s, 0, 1)%F) in
  let objectPoints :=
    push_back objectPoints (Matx34d_times (get_minor_3_4 T_oi) (s, - s, 0, 1)%F) in
  let objectPoints :=
    push_back objectPoints (Matx34d_times (get_minor_3_4 T_oi) (s, s, 0, 1)%F) in
  push_back objectPoints (Matx34d_times (get_minor_3_4 T_oi) (- s, s, 0, 1)%F).

(** The homography [H] of a detection is a [matd_t] of the AprilTag library,
    and [homography_project] (common/homography.h) maps tag coordinates
    through it to pixel coordinates. *)
Context {matd_t : Type}.
Variable detection_H : apriltag_detection_t → matd_t.
Variable homography_project : matd_t → F → F → F * F.

Definition addImagePoints (detection : apriltag_detection_t)
    (imagePoints : list Point2d) : list Point2d :=
  let tag_x := [- 1; 1; 1; - 1]%F in
  let tag_y := [1; 1; - 1; - 1]%F in
  foldl (λ imagePoints '(x, y),
           let '(im_x, im_y) := homography_project (detection_H detection) x y in
           push_back imagePoints (mkPoint2d im_x im_y))
        imagePoints (zip tag_x tag_y).

(** What the design document says [addObjectPoints] computes: a point
    [(x, y, z)] taken through the rotation (the upper left 3x3 block) and the
    translation (the first three entries of the last column) of a
    transform. *)
Definition apply_transform (T : Matx44d) (x y z : F) : Point3d :=
  let '((r00, r01, r02, t0), (r10, r11, r12, t1), (r20, r21, r22, t2), _) := T in
  mkPoint3d (r00 * x + r01 * y + r02 * z + t0)%F
            (r10 * x + r11 * y + r12 * z + t1)%F
            (r20 * x + r21 * y + r22 * z + t2)%F.

(** The corners of the unit square, counterclockwise from the lower left, in
    the tag frame with y pointing up. *)
Definition winding : list (F * F) := [(- 1, - 1); (1, - 1); (1, 1); (- 1, 1)]%F.

(** The pixel that the homography of a detection gives to a point of its tag,
    in the decoder's tag frame (y pointing down). *)
Definition image_point (detection : apriltag_detection_t) (x y : F) : Point2d :=
  let '(im_x, im_y) := homography_project (detection_H detection) x y in
  mkPoint2d im_x im_y.

(** ** Pose estimation

    [cv::solvePnP], [cv::Rodrigues] and the conversions of Eigen are used as
    they come. *)
Record Quaterniond : Type := mkQuaterniond {
  Quaterniond_w : F; Quaterniond_x : F; Quaterniond_y : F; Quaterniond_z : F
}.
Variable solvePnP : list Point3d → list Point2d → Matx33d → Vec4d → Vec3d * Vec3d.
Variable Rodrigues : Vec3d → Matx33d.
Variable Quaterniond_of_rotation : Matx33d → Quaterniond.
Variable Quaterniond_normalize : Quaterniond → Quaterniond.
Variable Quaterniond_toRotationMatrix : Quaterniond → Matx33d.
Context {Header : Type}.

Definition getRelativeTransform (objectPoints : list Point3d)
    (imagePoints : list Point2d) (fx fy cx cy : F) : Matx44d :=
  let cameraMatrix : Matx33d := ((fx, 0, cx), (0, fy, cy), (0, 0, 1))%F in
  let distCoeffs : Vec4d := (0, 0, 0, 0)%F in
  let '(rvec, tvec) := solvePnP objectPoints imagePoints cameraMatrix distCoeffs in
  let '((R00, R01, R02), (R10, R11, R12), (R20, R21, R22)) := Rodrigues rvec in
  let '(t0, t1, t2) := tvec in
  ((R00, R01, R02, t0), (R10, R11, R12, t1), (R20, R21, R22, t2), (0, 0, 0, 1))%F.

(** [transform.block(0, 0, 3, 3)]. *)
Definition block_3_3 (T : Matx44d) : Matx33d :=
  let '((r00, r01, r02, _), (r10, r11, r12, _), (r20, r21, r22, _), _) := T in
  ((r00, r01, r02), (r10, r11, r12), (r20, r21, r22)).

(** [geometry_msgs::PoseWithCovarianceStamped], as far as it is filled in. *)
Record PoseWithCovarianceStamped : Type := mkPose {
  pose_header : Header;
  pose_position : Point3d;
  pose_orientation : Quaterniond
}.

Definition makeTagPose (transform : Matx44d) (rot_quaternion : Quaterniond)
    (header : Header) : PoseWithCovarianceStamped :=
  let '((_, _, _, t03), (_, _, _, t13), (_, _, _, t23), _) := transform in
  mkPose header (mkPoint3d t03 t13 t23)
    (mkQuaterniond (Quaterniond_w rot_quaternion) (Quaterniond_x rot_quaternion)
       (Quaterniond_y rot_quaternion) (Quaterniond_z rot_quaternion)).

(** ** Tag descriptions *)

(** Modelled from the spec: the class [StandaloneTagDescription] is declared
    in the header common_functions.h, which is not among the sources. Section 3
    of the design document gives it an id, a size and a frame name. *)
Record StandaloneTagDescription : Type := mkStandaloneTagDescription {
  standalone_id : Z;
  standalone_size : F;
  standalone_frame_name : string
}.

(** Modelled from the spec: a member of a bundle (header common_functions.h):
    id, size and the rigid offset from the member's frame to the bundle's. *)
Record TagPoseDescription : Type := mkTagPoseDescription {
  member_id : Z;
  member_size : F;
  member_T_oi : Matx44d
}.

(** Modelled from the spec: the class [TagBundleDescription] (header
    common_functions.h): a name, the ordered list of members, and the
    reverse index [id2idx_] from a member's id to its place in the list, which
    the code searches for membership. *)
Record TagBundleDescription : Type := mkTagBundleDescription {
  name_ : string;
  tags_ : list TagPoseDescription;
  id2idx_ : gmap Z nat
}.

(** Modelled from the spec: [TagBundleDescription::addMemberTag] appends the
    member and records its place under its id. *)
Definition addMemberTag (id : Z) (size : F) (T_oi : Matx44d)
    (bundle : TagBundleDescription) : TagBundleDescription :=
  mkTagBundleDescription (name_ bundle)
    (push_back (tags_ bundle) (mkTagPoseDescription id size T_oi))
    (<[id := length (tags_ bundle)]> (id2idx_ bundle)).

(** Modelled from the spec: the member that [TagBundleDescription] finds for
    an id is the one its reverse index leads to; an id it does not hold, or an
    index outside the list, is a failed access. *)
Definition bundle_member (bundle : TagBundleDescription) (tagID : Z)
    : option TagPoseDescription :=
  idx ← id2idx_ bundle !! tagID; tags_ bundle !! idx.

(** Modelled from the spec: [TagBundleDescription::memberSize], the size of
    the member of an id. *)
Definition memberSize (bundle : TagBundleDescription) (tagID : Z) : option F :=
  member_size <$> bundle_member bundle tagID.

(** Modelled from the spec: [TagBundleDescription::memberT_oi], the rigid
    offset of the member of an id. *)
Definition memberT_oi (bundle : TagBundleDescription) (tagID : Z) : option Matx44d :=
  member_T_oi <$> bundle_member bundle tagID.

(** Modelled from the spec: [TagBundleDescription::bundleIds], the ids of all
    members in the order of the layout ("full member list for bundle"). *)
Definition bundleIds (bundle : TagBundleDescription) : list Z :=
  member_id <$> tags_ bundle.

(** Modelled from the spec: [TagBundleDescription::bundleSizes], the sizes of
    all members, matching [bundleIds]. *)
Definition bundleSizes (bundle : TagBundleDescription) : list F :=
  member_size <$> tags_ bundle.

(** The members of [TagDetector] that hold the configuration. *)
Record TagDetector : Type := mkTagDetector {
  standalone_tag_descriptions_ : gmap Z StandaloneTagDescription;
  tag_bundle_descriptions_ : list TagBundleDescription
}.

(** The warning that [printWarning] asks for goes to the log, which is not
    part of the model. *)
Definition findStandaloneTagDescription (this : TagDetector) (id : Z)
    (printWarning : bool) : option StandaloneTagDescription :=
  standalone_tag_descriptions_ this !! id.

(** Every id of the reverse index leads to a member. *)
Definition bundle_indexed (bundle : TagBundleDescription) : Prop :=
  map_Forall (λ _ idx, is_Some (tags_ bundle !! idx)) (id2idx_ bundle).

#[global] Instance bundle_indexed_dec bundle : Decision (bundle_indexed bundle).
Proof. unfold bundle_indexed. apply _. Defined.

(** ** The detection pipeline *)

(** [apriltags2_ros::AprilTagDetection] and [AprilTagDetectionArray]. *)
Record AprilTagDetection : Type := mkAprilTagDetection {
  msg_pose : PoseWithCovarianceStamped;
  msg_id : list Z;
  msg_size : list F
}.
Record AprilTagDetectionArray : Type := mkAprilTagDetectionArray {
  msg_header : Header;
  msg_detections : list AprilTagDetection
}.

(** A [for] loop over a vector whose body may fail. *)
Fixpoint for_each {A B} (body : B → A → outcome B) (b : B) (l : list A)
    : outcome B :=
  match l with
  | [] => Returned b
  | a :: l => b' ← body b a; for_each body b' l
  end.

(** What [detectTags] builds up while it goes through the detections. *)
Record frame_state : Type := mkFrameState {
  tag_detection_array : list AprilTagDetection;
  detection_names : list string;
  bundleObjectPoints : gmap string (list Point3d);
  bundleImagePoints : gmap string (list Point2d)
}.

(** [m[key]] of a [std::map] of vectors: the vector under [key], empty when
    the key is new. *)
Definition at_key {A} (m : gmap string (list A)) (key : string) : list A :=
  default [] (m !! key).

(** The body of the loop over the registered bundles, for one detection. *)
Definition collect_bundle_points (detection : apriltag_detection_t)
    (acc : bool * gmap string (list Point3d) * gmap string (list Point2d))
    (bundle : TagBundleDescription)
    : outcome (bool * gmap string (list Point3d) * gmap string (list Point2d)) :=
  let '(is_part_of_bundle, bundleObjectPoints, bundleImagePoints) := acc in
  let tagID := detection_id detection in
  if decide (is_Some (id2idx_ bundle !! tagID)) then
    let bundleName := name_ bundle in
    size ← asserted (memberSize bundle tagID);
    T_oi ← asserted (memberT_oi bundle tagID);
    let s := (size / F_of_int 2)%F in
    Returned
      (true,
       <[bundleName := addObjectPoints s T_oi (at_key bundleObjectPoints bundleName)]>
         bundleObjectPoints,
       <[bundleName := addImagePoints detection (at_key bundleImagePoints bundleName)]>
         bundleImagePoints)
  else Returned acc.

(** The body of the loop over the detections. *)
Definition process_detection (this : TagDetector) (fx fy cx cy : F)
    (header : Header) (st : frame_state) (detection : apriltag_detection_t)
    : outcome frame_state :=
  let tagID := detection_id detection in
  '(is_part_of_bundle, objectPoints, imagePoints) ←
    for_each (collect_bundle_points detection)
      (false, bundleObjectPoints st, bundleImagePoints st)
      (tag_bundle_descriptions_ this);
  match findStandaloneTagDescription this tagID (negb is_part_of_bundle) with
  | None =>
    Returned (mkFrameState (tag_detection_array st) (detection_names st)
                objectPoints imagePoints)
  | Some standaloneDescription =>
    let tag_size := standalone_size standaloneDescription in
    let standaloneTagObjectPoints :=
      addObjectPoints (tag_size / F_of_int 2)%F Matx44d_eye [] in
    let standaloneTagImagePoints := addImagePoints detection [] in
    let transform :=
      getRelativeTransform standaloneTagObjectPoints standaloneTagImagePoints
        fx fy cx cy in
    let rot := block_3_3 transform in
    let rot_quaternion := Quaterniond_of_rotation rot in
    let tag_pose := makeTagPose transform rot_quaternion header in
    let tag_detection :=
      mkAprilTagDetection tag_pose [detection_id detection] [tag_size] in
    Returned
      (mkFrameState (push_back (tag_detection_array st) tag_detection)
         (push_back (detection_names st)
            (standalone_frame_name standaloneDescription))
         objectPoints imagePoints)
  end.

(** The body of the loop that estimates the pose of the bundles. *)
Definition estimate_bundle (fx fy cx cy : F) (header : Header)
    (st : frame_state) (bundle : TagBundleDescription) : frame_state :=
  let bundleName := name_ bundle in
  match bundleObjectPoints st !! bundleName with
  | None => st
  | Some _ =>
    let transform :=
      getRelativeTransform (at_key (bundleObjectPoints st) bundleName)
        (at_key (bundleImagePoints st) bundleName) fx fy cx cy in
    let rot := block_3_3 transform in
    let rot_quaternion := Quaterniond_of_rotation rot in
    let bundle_pose := makeTagPose transform rot_quaternion header in
    let tag_detection :=
      mkAprilTagDetection bundle_pose (bundleIds bundle) (bundleSizes bundle) in
    mkFrameState (push_back (tag_detection_array st) tag_detection)
      (push_back (detection_names st) (name_ bundle))
      (bundleObjectPoints st) (bundleImagePoints st)
  end.

(** [detectTags] after the decoder has run: [detections] is what
    [apriltag_detector_detect] returned for the image, [fx fy cx cy] the
    intrinsics read from the camera info and [header] the image's header. *)
Definition detect_frame (this : TagDetector) (fx fy cx cy : F) (header : Header)
    (detections : list apriltag_detection_t) : outcome frame_state :=
  st ← for_each (process_detection this fx fy cx cy header)
         (mkFrameState [] [] ∅ ∅) detections;
  Returned (foldl (estimate_bundle fx fy cx cy header) st
              (tag_bundle_descriptions_ this)).

Definition detectTags (this : TagDetector) (detections : list apriltag_detection_t)
    (fx fy cx cy : F) (header : Header) : outcome AprilTagDetectionArray :=
  detections ← removeDuplicates detections;
  st ← detect_frame this fx fy cx cy header detections;
  Returned (mkAprilTagDetectionArray header (tag_detection_array st)).

(** ** Loading the bundle descriptions

    The configuration arrives as an [XmlRpc::XmlRpcValue]; its constructors
    here bear the names of the value types that [getType] tells apart. *)
#[local] Set Warnings "-register-all".
Inductive XmlRpcValue : Type :=
| TypeInvalid
| TypeBoolean (b : bool)
| TypeInt (i : Z)
| TypeDouble (d : F)
| TypeString (s : string)
| TypeDateTime
| TypeBase64
| TypeArray (a : list XmlRpcValue)
| TypeStruct (m : gmap string XmlRpcValue).

Definition hasMember (v : XmlRpcValue) (name : string) : bool :=
  match v with
  | TypeStruct m => bool_decide (is_Some (m !! name))
  | _ => false
  end.

(** [v[name]] for a value that was asserted to be a struct: a name it does
    not have reads as an invalid value. *)
Definition struct_member (v : XmlRpcValue) (name : string) : XmlRpcValue :=
  match v with
  | TypeStruct m => default TypeInvalid (m !! name)
  | _ => TypeInvalid
  end.

(** [ROS_ASSERT] (ros/assert.h) is compiled in one of two ways. Where
    assertions are enabled, as they are unless the build defines NDEBUG, a
    condition that does not hold is logged and the process is stopped there;
    no exception is thrown. With NDEBUG the macro expands to nothing.
    [ROS_ASSERT_ENABLED] is that choice of the build, and the model is of the
    build with assertions: there the accesses that follow an assertion on
    the type of a value find the type they expect, which is why each such
    assertion is written together with its access, as a match on the type
    that ends in [AssertFailed]. What the loaders do in a build with NDEBUG
    is not part of the model. *)
Definition ROS_ASSERT_ENABLED : bool := true.

Definition ROS_ASSERT (cond : bool) : outcome () :=
  if ROS_ASSERT_ENABLED then (if cond then Returned () else AssertFailed)
  else Returned ().

Definition xmlRpcGetDoubleWithDefault (xmlValue : XmlRpcValue) (field : string)
    (defaultValue : F) : outcome F :=
  if hasMember xmlValue field then
    match struct_member xmlValue field with
    | TypeInt tmp => Returned (F_of_int tmp)
    | TypeDouble d => Returned d
    | _ => AssertFailed
    end
  else Returned defaultValue.

(** The body of the loop over the member tags of a bundle. *)
Definition parse_member_tag (this : TagDetector) (bundle_i : TagBundleDescription)
    (tag : XmlRpcValue) : outcome TagBundleDescription :=
  match tag with
  | TypeStruct _ =>
    match struct_member tag "id" with
    | TypeInt id =>
      match struct_member tag "size" with
      | TypeDouble size =>
        _ ← match findStandaloneTagDescription this id false with
            | Some standaloneDescription =>
              ROS_ASSERT (bool_decide (size = standalone_size standaloneDescription))
            | None => Returned ()
            end;
        x ← xmlRpcGetDoubleWithDefault tag "x" 0%F;
        y ← xmlRpcGetDoubleWithDefault tag "y" 0%F;
        z ← xmlRpcGetDoubleWithDefault tag "z" 0%F;
        qw ← xmlRpcGetDoubleWithDefault tag "qw" 1%F;
        qx ← xmlRpcGetDoubleWithDefault tag "qx" 0%F;
        qy ← xmlRpcGetDoubleWithDefault tag "qy" 0%F;
        qz ← xmlRpcGetDoubleWithDefault tag "qz" 0%F;
        let q_tag := Quaterniond_normalize (mkQuaterniond qw qx qy qz) in
        let '((R00, R01, R02), (R10, R11, R12), (R20, R21, R22)) :=
          Quaterniond_toRotationMatrix q_tag in
        let T_mj : Matx44d :=
          ((R00, R01, R02, x), (R10, R11, R12, y), (R20, R21, R22, z),
           (0, 0, 0, 1))%F in
        Returned (addMemberTag id size T_mj bundle_i)
      | _ => AssertFailed
      end
    | _ => AssertFailed
    end
  | _ => AssertFailed
  end.

(** The name of the bundle of index [i]: the one given, or "bundle_i". *)
Definition parse_bundle_name (i : Z) (bundle_description : XmlRpcValue)
    : outcome string :=
  if hasMember bundle_description "name" then
    match struct_member bundle_description "name" with
    | TypeString s => Returned s
    | _ => AssertFailed
    end
  else Returned ("bundle_" +:+ pretty i).

(** The body of the loop over the bundles: [i] is the index of the bundle. *)
Definition parse_bundle (this : TagDetector) (i : Z)
    (bundle_description : XmlRpcValue) : outcome TagBundleDescription :=
  match bundle_description with
  | TypeStruct _ =>
    bundleName ← parse_bundle_name i bundle_description;
    let bundle_i := mkTagBundleDescription bundleName [] ∅ in
    match struct_member bundle_description "layout" with
    | TypeArray member_tags => for_each (parse_member_tag this) bundle_i member_tags
    | _ => AssertFailed
    end
  | _ => AssertFailed
  end.

Fixpoint parse_bundles (this : TagDetector) (i : Z)
    (descriptions : list TagBundleDescription) (tag_bundles : list XmlRpcValue)
    : outcome (list TagBundleDescription) :=
  match tag_bundles with
  | [] => Returned descriptions
  | bundle_description :: tag_bundles =>
    bundle_i ← parse_bundle this i bundle_description;
    parse_bundles this (i + 1) (push_back descriptions bundle_i) tag_bundles
  end.

Definition parseTagBundles (this : TagDetector) (tag_bundles : XmlRpcValue)
    : outcome (list TagBundleDescription) :=
  match tag_bundles with
  | TypeArray a => parse_bundles this 0 [] a
  | _ => AssertFailed
  end.

(** The id and size that each member tag of a configuration declares, bundle
    after bundle. *)
Definition declared_member (tag : XmlRpcValue) : list (Z * F) :=
  match struct_member tag "id", struct_member tag "size" with
  | TypeInt id, TypeDouble size => [(id, size)]
  | _, _ => []
  end.

Definition declared_layout (bundle_description : XmlRpcValue) : list (Z * F) :=
  match struct_member bundle_description "layout" with
  | TypeArray member_tags => member_tags ≫= declared_member
  | _ => []
  end.

Definition declared_members (tag_bundles : XmlRpcValue) : list (Z * F) :=
  match tag_bundles with
  | TypeArray a => a ≫= declared_layout
  | _ => []
  end.

(** A member declared with a size other than that of the standalone
    description of its id. *)
Definition size_mismatch (this : TagDetector) (member : Z * F) : Prop :=
  ∃ standaloneDescription,
    standalone_tag_descriptions_ this !! member.1 = Some standaloneDescription
    ∧ member.2 ≠ standalone_size standaloneDescription.

#[global] Instance size_mismatch_dec this member : Decision (size_mismatch this member).
Proof using EqDecision0.
  unfold size_mismatch.
  destruct (standalone_tag_descriptions_ this !! member.1) as [d|].
  - destruct (decide (member.2 = standalone_size d)) as [Heq|Hne].
    + right. intros (d' & [= <-] & Hne). done.
    + left. eauto.
  - right. intros (d' & [=] & _).
Defined.

(** ** The frame, described

    What the loops of [detectTags] compute, told per detection and per
    bundle. *)

Definition is_member (bundle : TagBundleDescription) (tagID : Z) : Prop :=
  is_Some (id2idx_ bundle !! tagID).

#[global] Instance is_member_dec bundle tagID : Decision (is_member bundle tagID).
Proof. unfold is_member. apply _. Defined.

(** The points that one detection of a member adds to its bundle. *)
Definition member_object_points (bundle : TagBundleDescription)
    (detection : apriltag_detection_t) : list Point3d :=
  match bundle_member bundle (detection_id detection) with
  | Some member =>
    addObjectPoints (member_size member / F_of_int 2)%F (member_T_oi member) []
  | None => []
  end.

Definition member_image_points (detection : apriltag_detection_t) : list Point2d :=
  addImagePoints detection [].


(** The points that end up under the key [bundleName]: those of every
    detection, for every bundle of that name that it is a member of. *)
Definition contributed_object_points (bundles : list TagBundleDescription)
    (bundleName : string) (detection : apriltag_detection_t) : list Point3d :=
  bundle ← bundles;
  if decide (name_ bundle = bundleName ∧ is_member bundle (detection_id detection))
  then member_object_points bundle detection else [].

Definition contributed_image_points (bundles : list TagBundleDescription)
    (bundleName : string) (detection : apriltag_detection_t) : list Point2d :=
  bundle ← bundles;
  if decide (name_ bundle = bundleName ∧ is_member bundle (detection_id detection))
  then member_image_points detection else [].

Definition pooled_object_points (bundles : list TagBundleDescription)
    (bundleName : string) (detections : list apriltag_detection_t) : list Point3d :=
  detections ≫= contributed_object_points bundles bundleName.

Definition pooled_image_points (bundles : list TagBundleDescription)
    (bundleName : string) (detections : list apriltag_detection_t) : list Point2d :=
  detections ≫= contributed_image_points bundles bundleName.

(** A vector under a key after [l] was appended to it; nothing appended
    leaves the key as it was, absent or not. *)
Definition appended {A} (o : option (list A)) (l : list A) : option (list A) :=
  match l with
  | [] => o
  | _ => Some (default [] o ++ l)
  end.

(** The entry of the detection array made of a solved correspondence set. *)
Definition solved_detection (fx fy cx cy : F) (header : Header)
    (objectPoints : list Point3d) (imagePoints : list Point2d)
    (ids : list Z) (sizes : list F) : AprilTagDetection :=
  let transform := getRelativeTransform objectPoints imagePoints fx fy cx cy in
  mkAprilTagDetection
    (makeTagPose transform (Quaterniond_of_rotation (block_3_3 transform)) header)
    ids sizes.

(** The entry of a detection that has a standalone description, if any. *)
Definition standalone_detection (this : TagDetector) (fx fy cx cy : F)
    (header : Header) (detection : apriltag_detection_t) : list AprilTagDetection :=
  match standalone_tag_descriptions_ this !! detection_id detection with
  | Some standaloneDescription =>
    [solved_detection fx fy cx cy header
       (addObjectPoints (standalone_size standaloneDescription / F_of_int 2)%F
          Matx44d_eye [])
       (addImagePoints detection [])
       [detection_id detection] [standalone_size standaloneDescription]]
  | None => []
  end.

Definition standalone_name (this : TagDetector) (detection : apriltag_detection_t)
    : list string :=
  match standalone_tag_descriptions_ this !! detection_id detection with
  | Some standaloneDescription => [standalone_frame_name standaloneDescription]
  | None => []
  end.

(** The entry of a bundle, if points were pooled under its name. *)
Definition bundle_detection (fx fy cx cy : F) (header : Header)
    (objectPoints : list Point3d) (imagePoints : list Point2d)
    (bundle : TagBundleDescription) : list AprilTagDetection :=
  match objectPoints with
  | [] => []
  | _ =>
    [solved_detection fx fy cx cy header objectPoints imagePoints
       (bundleIds bundle) (bundleSizes bundle)]
  end.

(** The configuration without its standalone tags. *)
Definition without_standalone_tags (this : TagDetector) : TagDetector :=
  mkTagDetector ∅ (tag_bundle_descriptions_ this).

(** ** Loading the standalone descriptions *)

(** [std::map::insert]: a key that is already there keeps its value. *)
Definition std_map_insert (id : Z) (description : StandaloneTagDescription)
    (descriptions : gmap Z StandaloneTagDescription)
    : gmap Z StandaloneTagDescription :=
  match descriptions !! id with
  | Some _ => descriptions
  | None => <[id := description]> descriptions
  end.

(** The frame name of a standalone tag: the one given, or "tag_id". *)
Definition parse_frame_name (id : Z) (tag_description : XmlRpcValue)
    : outcome string :=
  if hasMember tag_description "name" then
    match struct_member tag_description "name" with
    | TypeString s => Returned s
    | _ => AssertFailed
    end
  else Returned ("tag_" +:+ pretty id).

(** The body of the loop over the standalone tags. *)
Definition parse_standalone_tag
    (descriptions : gmap Z StandaloneTagDescription)
    (tag_description : XmlRpcValue) : outcome (gmap Z StandaloneTagDescription) :=
  match tag_description with
  | TypeStruct _ =>
    match struct_member tag_description "id" with
    | TypeInt id =>
      match struct_member tag_description "size" with
      | TypeDouble size =>
        frame_name ← parse_frame_name id tag_description;
        let description := mkStandaloneTagDescription id size frame_name in
        Returned (std_map_insert id description descriptions)
      | _ => AssertFailed
      end
    | _ => AssertFailed
    end
  | _ => AssertFailed
  end.

Definition parseStandaloneTags (standalone_tags : XmlRpcValue)
    : outcome (gmap Z StandaloneTagDescription) :=
  match standalone_tags with
  | TypeArray a => for_each parse_standalone_tag ∅ a
  | _ => AssertFailed
  end.

(** A standalone tag that [parseStandaloneTags] can read: a struct with an
    [int] under "id", a [double] under "size" and, if it has a "name", a
    string under it. *)
Definition readable_standalone_tag (tag_description : XmlRpcValue) : bool :=
  match tag_description with
  | TypeStruct _ =>
    match struct_member tag_description "id",
          struct_member tag_description "size" with
    | TypeInt _, TypeDouble _ =>
      if hasMember tag_description "name" then
        match struct_member tag_description "name" with
        | TypeString _ => true
        | _ => false
        end
      else true
    | _, _ => false
    end
  | _ => false
  end.

(** The id that a standalone tag declares. *)
Definition declared_id (tag_description : XmlRpcValue) : option Z :=
  match struct_member tag_description "id" with
  | TypeInt id => Some id
  | _ => None
  end.

(** ** Construction

    The constructor reads its configuration from the parameter server, here
    the map from the names of the parameters that are set to their values.
    [family_] is the member that the initialiser list has set from the
    parameter "tag_family". Each loader is called in a [try] block whose
    handler waits for an [XmlRpc::XmlRpcException]. In the build modelled no
    loader throws one: a failed assertion stops the process and throws
    nothing, and where the assertions hold every access finds the type it
    expects. So the handlers are never entered: a section that is set is
    loaded in full or the process ends in its loader, and only a section
    that is not set is left empty. The loaders have no unbounded loop, so
    that they never run out of fuel. The settings of the decoder ([td_])
    are not part of the model. *)

(** The tag family created, named after the function that creates it. *)
Inductive apriltag_family_t : Type :=
| tag36h11_create
| tag36h10_create
| tag25h9_create
| tag25h7_create
| tag16h5_create.

(** How the constructor ends: with a detector, the family of its tags and
    the name of the frame of its camera; by leaving the process through
    [exit]; or stopped in a loader by a failed assertion. *)
Inductive construction : Type :=
| Constructed (this : TagDetector) (tf_ : apriltag_family_t)
    (camera_tf_frame_ : string)
| exit (status : Z)
| assertion_failed.

Definition TagDetector_constructor (pnh : gmap string XmlRpcValue)
    (family_ : string) : construction :=
  match
    standalone_tag_descriptions_ ←
      match pnh !! "standalone_tags" with
      | None => Returned ∅
      | Some standalone_tag_descriptions =>
        parseStandaloneTags standalone_tag_descriptions
      end;
    tag_bundle_descriptions_ ←
      match pnh !! "tag_bundles" with
      | None => Returned []
      | Some tag_bundle_descriptions =>
        parseTagBundles (mkTagDetector standalone_tag_descriptions_ [])
          tag_bundle_descriptions
      end;
    Returned (mkTagDetector standalone_tag_descriptions_ tag_bundle_descriptions_)
  with
  | Returned this =>
    let camera_tf_frame_ :=
      match pnh !! "camera_frame" with
      | Some (TypeString frame) => frame
      | _ => "camera"
      end in
    if decide (family_ = "tag36h11") then
      Constructed this tag36h11_create camera_tf_frame_
    else if decide (family_ = "tag36h10") then
      Constructed this tag36h10_create camera_tf_frame_
    else if decide (family_ = "tag25h9") then
      Constructed this tag25h9_create camera_tf_frame_
    else if decide (family_ = "tag25h7") then
      Constructed this tag25h7_create camera_tf_frame_
    else if decide (family_ = "tag16h5") then
      Constructed this tag16h5_create camera_tf_frame_
    else exit 1
  | _ => assertion_failed
  end.

(** A detector holds what the loaders returned: for a section that is set
    the result of its loader, the bundles being loaded against the
    standalone descriptions just loaded, and nothing for a section that is
    not set. *)
Definition loaded_sections (pnh : gmap string XmlRpcValue) (this : TagDetector)
    : Prop :=
  match pnh !! "standalone_tags" with
  | None => standalone_tag_descriptions_ this = ∅
  | Some standalone_tags =>
    parseStandaloneTags standalone_tags
    = Returned (standalone_tag_descriptions_ this)
  end
  ∧ match pnh !! "tag_bundles" with
    | None => tag_bundle_descriptions_ this = []
    | Some tag_bundles =>
      parseTagBundles (mkTagDetector (standalone_tag_descriptions_ this) [])
        tag_bundles
      = Returned (tag_bundle_descriptions_ this)
    end.

(** The destructor frees the decoder, the array of detections and the tag
    family, through the calls listed here in order; the family is freed by
    the function that the name in [family_] selects. *)
Inductive destruction : Type :=
| apriltag_detector_destroy
| zarray_destroy
| tag36h11_destroy
| tag36h10_destroy
| tag25h9_destroy
| tag25h7_destroy
| tag16h5_destroy.

Definition TagDetector_destructor (family_ : string) : list destruction :=
  let calls := [apriltag_detector_destroy; zarray_destroy] in
  if decide (family_ = "tag36h11") then push_back calls tag36h11_destroy
  else if decide (family_ = "tag36h10") then push_back calls tag36h10_destroy
  else if decide (family_ = "tag25h9") then push_back calls tag25h9_destroy
  else if decide (family_ = "tag25h7") then push_back calls tag25h7_destroy
  else if decide (family_ = "tag16h5") then push_back calls tag16h5_destroy
  else calls.

(** ** Broadcasting the transforms

    With [publish_tf_] set, [detectTags] ends by sending one transform per
    entry of the detection array, from the frame of the camera to the frame
    named in [detection_names] at the index of the entry. *)
Record StampedTransform : Type := mkStampedTransform {
  transform_pose : PoseWithCovarianceStamped;
  transform_frame_id : string;
  transform_child_frame_id : string
}.

Definition sendTransforms (camera_tf_frame_ : string) (st : frame_state)
    : outcome (list StampedTransform) :=
  for_each
    (λ sent i,
       tag_detection ← asserted (tag_detection_array st !! i);
       name ← asserted (detection_names st !! i);
       Returned (push_back sent
                   (mkStampedTransform (msg_pose tag_detection)
                      camera_tf_frame_ name)))
    [] (seq 0 (length (tag_detection_array st))).

(** The transforms that [detectTags] sends for a frame. *)
Definition detectTags_transforms (this : TagDetector) (publish_tf_ : bool)
    (camera_tf_frame_ : string) (detections : list apriltag_detection_t)
    (fx fy cx cy : F) (header : Header) : outcome (list StampedTransform) :=
  detections ← removeDuplicates detections;
  st ← detect_frame this fx fy cx cy header detections;
  if publish_tf_ then sendTransforms camera_tf_frame_ st else Returned [].

(** ** Drawing the detections

    The image is taken as the list of the drawing calls made on it.
    [detection_p] and [detection_c] are the corners [p] and the centre [c]
    of a detection, [F_to_int] the conversion of a [double] to an [int],
    [getTextSize] the width and height that [cv::getTextSize] gives, and
    [F_0_5] the [double] 0.5. *)
Variable detection_p : apriltag_detection_t → nat → nat → F.
Variable detection_c : apriltag_detection_t → nat → F.
Variable F_to_int : F → Z.
Variable getTextSize : string → Z → F → Z → Z * Z.
Variable F_0_5 : F.

(** [cv::Point] and [cv::Scalar(Blue, Green, Red)]. *)
Record Point : Type := mkPoint { Point_x : Z; Point_y : Z }.
Definition Scalar : Type := Z * Z * Z.

Inductive drawing : Type :=
| line (pt1 pt2 : Point) (color : Scalar)
| putText (text : string) (org : Point) (fontFace : Z) (fontScale : F)
    (color : Scalar) (thickness : Z).

Definition FONT_HERSHEY_SCRIPT_SIMPLEX : Z := 6.

(** The loop over the bundles, left at the first bundle that has the id. *)
Fixpoint is_part_of_bundle (tagID : Z) (bundles : list TagBundleDescription)
    : bool :=
  match bundles with
  | [] => false
  | bundle :: bundles =>
    if decide (is_Some (id2idx_ bundle !! tagID)) then true
    else is_part_of_bundle tagID bundles
  end.

(** The corner [i] of a detection as a [cv::Point]. *)
Definition corner (det : apriltag_detection_t) (i : nat) : Point :=
  mkPoint (F_to_int (detection_p det i 0%nat)) (F_to_int (detection_p det i 1%nat)).

(** The drawing calls for one detection: its outline, then its id. *)
Definition draw_detection (det : apriltag_detection_t) (image : list drawing)
    : list drawing :=
  let image := push_back image (line (corner det 0) (corner det 1) (0, 255, 0)%Z) in
  let image := push_back image (line (corner det 0) (corner det 3) (0, 0, 255)%Z) in
  let image := push_back image (line (corner det 1) (corner det 2) (255, 0, 0)%Z) in
  let image := push_back image (line (corner det 2) (corner det 3) (255, 0, 0)%Z) in
  let text := pretty (detection_id det) in
  let fontface := FONT_HERSHEY_SCRIPT_SIMPLEX in
  let fontscale := F_0_5 in
  let '(textsize_width, textsize_height) := getTextSize text fontface fontscale 2 in
  push_back image
    (putText text
       (mkPoint
          (F_to_int (detection_c det 0%nat - F_of_int (textsize_width ÷ 2))%F)
          (F_to_int (detection_c det 1%nat + F_of_int (textsize_height ÷ 2))%F))
       fontface fontscale (255, 153, 0)%Z 2).

(** The body of the loop over the detections. *)
Definition drawDetections_iteration (this : TagDetector) (image : list drawing)
    (det : apriltag_detection_t) : list drawing :=
  let tagID := detection_id det in
  let is_part_of_bundle :=
    is_part_of_bundle tagID (tag_bundle_descriptions_ this) in
  if negb is_part_of_bundle
     && negb (bool_decide (is_Some (findStandaloneTagDescription this tagID false)))
  then image
  else draw_detection det image.

Definition drawDetections (this : TagDetector)
    (detections_ : list apriltag_detection_t) (image : list drawing)
    : list drawing :=
  foldl (drawDetections_iteration this) image detections_.

(** A detection that the configuration describes: as a standalone tag or as
    a member of a bundle. *)
Definition described (this : TagDetector) (det : apriltag_detection_t) : Prop :=
  is_Some (standalone_tag_descriptions_ this !! detection_id det)
  ∨ Exists (λ bundle, is_member bundle (detection_id det))
      (tag_bundle_descriptions_ this).

#[global] Instance described_dec this det : Decision (described this det).
Proof. unfold described. apply _. Defined.

(** A description that says what a standalone tag of the configuration
    declares: its id, its size and its name, or "tag_id" for want of one. *)
Definition declares (tag_description : XmlRpcValue)
    (description : StandaloneTagDescription) : Prop :=
  struct_member tag_description "id" = TypeInt (standalone_id description)
  ∧ struct_member tag_description "size"
    = TypeDouble (standalone_size description)
  ∧ (if hasMember tag_description "name"
     then struct_member tag_description "name"
          = TypeString (standalone_frame_name description)
     else standalone_frame_name description
          = "tag_" +:+ pretty (standalone_id description)).

(** The names of the tag families that the constructor knows. *)
Definition tag_families : list string :=
  ["tag36h11"; "tag36h10"; "tag25h9"; "tag25h7"; "tag16h5"].

(** A member of a bundle has the size of the standalone description of its
    id, if there is one. *)
Definition size_agrees (this : TagDetector) (member : TagPoseDescription) : Prop :=
  ∀ description,
    standalone_tag_descriptions_ this !! member_id member = Some description →
    member_size member = standalone_size description.

Definition sizes_agree (this : TagDetector) : Prop :=
  Forall (λ bundle, Forall (size_agrees this) (tags_ bundle))
    (tag_bundle_descriptions_ this).

(** The name under which the entry of a bundle is broadcast, if points were
    pooled under its name. *)
Definition bundle_frame_name (objectPoints : list Point3d)
    (bundle : TagBundleDescription) : list string :=
  match objectPoints with
  | [] => []
  | _ => [name_ bundle]
  end.

(** The translation of a transform, and the sum of two points. *)
Definition translation (T : Matx44d) : Point3d :=
  let '((_, _, _, t0), (_, _, _, t1), (_, _, _, t2), _) := T in
  mkPoint3d t0 t1 t2.

Definition Point3d_plus (p q : Point3d) : Point3d :=
  mkPoint3d (Point3d_x p + Point3d_x q)%F (Point3d_y p + Point3d_y q)%F
    (Point3d_z p + Point3d_z q)%F.

(** A field of a member tag that [xmlRpcGetDoubleWithDefault] can read:
    absent, or an [int] or a [double]. *)
Definition readable_number (tag : XmlRpcValue) (field : string) : bool :=
  if hasMember tag field then
    match struct_member tag field with
    | TypeInt _ | TypeDouble _ => true
    | _ => false
    end
  else true.

(** The fields of a member tag that give its pose. *)
Definition pose_fields : list string := ["x"; "y"; "z"; "qw"; "qx"; "qy"; "qz"].

(** A member tag that [parseTagBundles] can read: a struct with an [int]
    under "id", a [double] under "size" and readable pose fields. *)
Definition readable_member_tag (tag : XmlRpcValue) : bool :=
  match tag with
  | TypeStruct _ =>
    match struct_member tag "id", struct_member tag "size" with
    | TypeInt _, TypeDouble _ => forallb (readable_number tag) pose_fields
    | _, _ => false
    end
  | _ => false
  end.

(** A bundle that [parseTagBundles] can read: a struct whose "name", if it
    has one, is a string, and whose "layout" is an array of readable member
    tags. *)
Definition readable_bundle (bundle_description : XmlRpcValue) : bool :=
  match bundle_description with
  | TypeStruct _ =>
    (if hasMember bundle_description "name" then
       match struct_member bundle_description "name" with
       | TypeString _ => true
       | _ => false
       end
     else true)
    && match struct_member bundle_description "layout" with
       | TypeArray member_tags => forallb readable_member_tag member_tags
       | _ => false
       end
  | _ => false
  end.

(** The function of the AprilTag library that frees a family made by a
    given function. *)
Definition destroys (tf_ : apriltag_family_t) : destruction :=
  match tf_ with
  | tag36h11_create => tag36h11_destroy
  | tag36h10_create => tag36h10_destroy
  | tag25h9_create => tag25h9_destroy
  | tag25h7_create => tag25h7_destroy
  | tag16h5_create => tag16h5_destroy
  end.

(** ** The scan, seen from each detection

    Each detection of an array with the id before it, if any, and the id
    after it, where -1 stands in after the last as in [removeDuplicates]. *)
Definition with_neighbours (za : list apriltag_detection_t)
    : list (option Z * apriltag_detection_t * Z) :=
  zip (zip (None :: (Some ∘ detection_id <$> za)) za)
      (tail (detection_id <$> za) ++ [(-1)%Z]).

Definition differs_from_neighbours
    (t : option Z * apriltag_detection_t * Z) : Prop :=
  t.1.1 ≠ Some (detection_id t.1.2) ∧ t.2 ≠ detection_id t.1.2.

#[global] Instance differs_from_neighbours_dec t :
  Decision (differs_from_neighbours t).
Proof. unfold differs_from_neighbours. apply _. Defined.

(** * Properties *)

(** Two facts about [filter] used throughout. *)
Lemma filter_all {A} (P : A → Prop) `{!∀ x, Decision (P x)} (l : list A) :
  Forall P l → filter P l = l.
Proof.
  induction 1 as [|x l Hx _ IH]; [done|]. by rewrite filter_cons_True, IH.
Qed.

Lemma filter_none {A} (P : A → Prop) `{!∀ x, Decision (P x)} (l : list A) :
  Forall (λ x, ¬ P x) l → filter P l = [].
Proof.
  induction 1 as [|x l Hx _ IH]; [done|]. by rewrite filter_cons_False.
Qed.

(** ** Duplicate removal: the loop and the scan *)

Lemma zarray_get_middle (kept rest : list apriltag_detection_t) d :
  zarray_get (kept ++ d :: rest) (Z.of_nat (length kept)) = Some d.
Proof.
  unfold zarray_get. rewrite decide_True by lia.
  rewrite Nat2Z.id. apply list_lookup_middle. done.
Qed.

Lemma zarray_get_next (kept rest : list apriltag_detection_t) d d' :
  zarray_get (kept ++ d :: d' :: rest) (Z.of_nat (length kept) + 1) = Some d'.
Proof.
  replace (Z.of_nat (length kept) + 1)%Z with (Z.of_nat (length (kept ++ [d])))
    by (rewrite length_app; simpl; lia).
  replace (kept ++ d :: d' :: rest) with ((kept ++ [d]) ++ d' :: rest)
    by (rewrite <- app_assoc; done).
  apply zarray_get_middle.
Qed.

Lemma zarray_remove_index_middle (kept rest : list apriltag_detection_t) d :
  zarray_remove_index (kept ++ d :: rest) (Z.of_nat (length kept))
  = Some (kept ++ rest).
Proof.
  unfold zarray_remove_index, zarray_size.
  rewrite decide_True by (rewrite length_app; simpl; lia).
  rewrite Nat2Z.id. by rewrite delete_middle.
Qed.

(** One iteration with the cursor at [d], in terms of what is left and right
    of the cursor. *)
Lemma removeDuplicates_iteration_at kept d rest dup :
  removeDuplicates_iteration
    (ScanState (kept ++ d :: rest) (Z.of_nat (length kept)) dup)
  = let id_next := match rest with d' :: _ => detection_id d' | [] => (-1)%Z end in
    if decide (detection_id d = id_next)
    then Continue_ (ScanState (kept ++ rest) (Z.of_nat (length kept)) true)
    else if dup
    then Continue_ (ScanState (kept ++ rest) (Z.of_nat (length kept)) false)
    else Continue_ (ScanState (kept ++ d :: rest) (Z.of_nat (length kept) + 1) false).
Proof.
  unfold removeDuplicates_iteration. cbn [detections_ count duplicate_detected].
  assert (Hsz : zarray_size (kept ++ d :: rest)
                = (Z.of_nat (length kept) + 1 + Z.of_nat (length rest))%Z).
  { unfold zarray_size. rewrite length_app. simpl. lia. }
  rewrite Hsz, decide_False by lia.
  rewrite zarray_get_middle, zarray_remove_index_middle.
  destruct rest as [|d' rest]; cbn [length].
  - rewrite decide_False by lia. cbn zeta.
    repeat (case_decide || case_bool_decide); cbn; try done; by destruct dup.
  - rewrite decide_True by lia. rewrite zarray_get_next.
    cbn [fmap option_fmap option_map]. cbn zeta.
    repeat (case_decide || case_bool_decide); cbn; try done; by destruct dup.
Qed.

Lemma removeDuplicates_iteration_end kept dup :
  removeDuplicates_iteration (ScanState kept (Z.of_nat (length kept)) dup)
  = Return_ kept.
Proof.
  unfold removeDuplicates_iteration, zarray_size. cbn [detections_ count].
  by rewrite decide_True by lia.
Qed.

(** With fuel for one iteration per detection right of the cursor, and one
    more to see the exit condition, the loop returns what [scan] describes. *)
Lemma removeDuplicates_loop_scan rest : ∀ kept dup fuel,
  (length rest < fuel)%nat →
  removeDuplicates_loop fuel (ScanState (kept ++ rest) (Z.of_nat (length kept)) dup)
  = Returned (kept ++ scan dup rest).
Proof.
  induction rest as [|d rest IH]; intros kept dup fuel Hfuel.
  - destruct fuel as [|fuel]; [simpl in Hfuel; lia|].
    cbn [scan removeDuplicates_loop]. rewrite !app_nil_r.
    by rewrite removeDuplicates_iteration_end.
  - destruct fuel as [|fuel]; [simpl in Hfuel; lia|].
    cbn [length] in Hfuel.
    cbn [removeDuplicates_loop scan]. rewrite removeDuplicates_iteration_at.
    cbn zeta. destruct (decide _); [apply IH; lia|].
    destruct dup; [apply IH; lia|].
    specialize (IH (kept ++ [d]) false fuel).
    rewrite length_app, <- !app_assoc in IH. cbn [length app] in IH.
    rewrite <- IH by lia. do 2 f_equal. lia.
Qed.

Lemma removeDuplicates_scan detections :
  removeDuplicates detections
  = Returned (scan false (zarray_sort idComparison detections)).
Proof.
  unfold removeDuplicates.
  apply (removeDuplicates_loop_scan _ [] false).
  unfold scan_measure, zarray_size. cbn [detections_ count]. lia.
Qed.

(** ** Termination of the scan *)

(** An iteration that goes round again either took one detection out of the
    array, or moved the cursor one place on; either way the measure went
    down and stayed non-negative. *)
Lemma removeDuplicates_iteration_measure s s' :
  removeDuplicates_iteration s = Continue_ s' →
  ((zarray_size (detections_ s') = zarray_size (detections_ s) - 1
    ∧ count s' = count s)
   ∨ (detections_ s' = detections_ s ∧ count s' = count s + 1))%Z
  ∧ (0 ≤ scan_measure s' < scan_measure s)%Z.
Proof.
  unfold removeDuplicates_iteration, scan_measure.
  destruct s as [za c dup]. cbn [detections_ count duplicate_detected].
  case_decide as Hexit; [done|].
  unfold zarray_get at 1. case_decide as Hc; [|done].
  destruct (za !! Z.to_nat c) as [d|] eqn:Hd; [|done]. cbn zeta.
  destruct (if decide (c < zarray_size za - 1)%Z
            then detection_id <$> zarray_get za (c + 1) else Some (-1)%Z)
    as [id_next|]; [|done].
  destruct (_ || _).
  - unfold zarray_remove_index. case_decide as Hrange; [|done].
    intros [= <-]. cbn [detections_ count].
    assert (Hlen : zarray_size (delete (Z.to_nat c) za) = (zarray_size za - 1)%Z).
    { unfold zarray_size in *. rewrite length_delete by eauto. lia. }
    rewrite Hlen. split; [left; done|lia].
  - intros [= <-]. cbn [detections_ count]. split; [right; done|lia].
Qed.

Lemma removeDuplicates_loop_returns s fuel :
  (0 ≤ count s ≤ zarray_size (detections_ s))%Z →
  (Z.to_nat (scan_measure s) < fuel)%nat →
  ∃ out, removeDuplicates_loop fuel s = Returned out.
Proof.
  destruct s as [za c dup]. unfold scan_measure, zarray_size.
  cbn [detections_ count]. intros Hc Hfuel.
  assert (Hlen : length (take (Z.to_nat c) za) = Z.to_nat c)
    by (rewrite length_take; lia).
  exists (take (Z.to_nat c) za ++ scan dup (drop (Z.to_nat c) za)).
  rewrite <- (removeDuplicates_loop_scan _ _ dup fuel).
  - rewrite take_drop, Hlen. do 2 f_equal. lia.
  - rewrite length_drop. lia.
Qed.

(** C10: [removeDuplicates] returns on every finite detection array. Each
    iteration of its [while (true)] loop that does not return removes one
    detection or advances the cursor, so that 2 * (array size) - cursor goes
    down and stays non-negative; from every state with the cursor inside the
    array, fuel above that measure is enough for the loop to reach its exit. *)
Theorem removeDuplicates_terminates (detections : list apriltag_detection_t) :
  (∃ out, removeDuplicates detections = Returned out)
  ∧ (∀ s s', removeDuplicates_iteration s = Continue_ s' →
       ((zarray_size (detections_ s') = zarray_size (detections_ s) - 1
         ∧ count s' = count s)
        ∨ (detections_ s' = detections_ s ∧ count s' = count s + 1))%Z
       ∧ (0 ≤ scan_measure s' < scan_measure s)%Z)
  ∧ (∀ s fuel,
       (0 ≤ count s ≤ zarray_size (detections_ s))%Z →
       (Z.to_nat (scan_measure s) < fuel)%nat →
       ∃ out, removeDuplicates_loop fuel s = Returned out).
Proof.
  split; [|split].
  - rewrite removeDuplicates_scan. eauto.
  - apply removeDuplicates_iteration_measure.
  - apply removeDuplicates_loop_returns.
Qed.

(** ** Duplicate removal *)

(** The scan lets through an array in which no id is borne twice and none is
    the -1 that stands for "no next detection". *)
Lemma scan_distinct (rest : list apriltag_detection_t) :
  NoDup (detection_id <$> rest) →
  Forall (λ d, detection_id d ≠ (-1)%Z) rest →
  scan false rest = rest.
Proof.
  induction rest as [|d rest' IH]; [done|].
  rewrite fmap_cons. intros [Hd Hnd]%NoDup_cons [Hd' Hall]%Forall_cons.
  cbn [scan]. rewrite decide_False.
  - f_equal. by apply IH.
  - destruct rest' as [|d' rest'']; [done|].
    intros Heq. apply Hd. rewrite Heq, fmap_cons. by left.
Qed.

(** C1: where the sort leaves the two detections of one id apart, with a
    detection of another id between them, [removeDuplicates] returns all
    three. The scan takes two detections for copies only when they are
    neighbours, and the comparison that the sort is given reads no id of a
    detection, so nothing brings the copies together. *)
Theorem removeDuplicates_keeps_copies_apart
    (detections : list apriltag_detection_t) (a b c : apriltag_detection_t) :
  detection_id a = detection_id c →
  detection_id b ≠ detection_id a →
  detection_id c ≠ (-1)%Z →
  zarray_sort idComparison detections = [a; b; c] →
  removeDuplicates detections = Returned [a; b; c].
Proof.
  intros Hac Hb Hc Hsort. rewrite removeDuplicates_scan, Hsort. cbn [scan].
  rewrite !decide_False by congruence. done.
Qed.

(** C2, amended: when the ids of the detections are pairwise distinct and
    none of them is -1, [removeDuplicates] returns the array as the sort
    left it; with a sort that rearranges the array, that is a rearrangement
    of the detections, in which no id is borne twice. *)
Theorem removeDuplicates_distinct_ids (detections : list apriltag_detection_t) :
  zarray_sort idComparison detections ≡ₚ detections →
  NoDup (detection_id <$> detections) →
  Forall (λ d, detection_id d ≠ (-1)%Z) detections →
  ∃ out,
    removeDuplicates detections = Returned out
    ∧ out = zarray_sort idComparison detections
    ∧ out ≡ₚ detections
    ∧ NoDup (detection_id <$> out).
Proof.
  intros Hperm Hnd Hall. rewrite removeDuplicates_scan.
  assert (NoDup (detection_id <$> zarray_sort idComparison detections)) as Hnd'
    by (by rewrite Hperm).
  assert (Forall (λ d, detection_id d ≠ (-1)%Z)
            (zarray_sort idComparison detections)) as Hall'
    by (by rewrite Hperm).
  rewrite scan_distinct by done. eauto.
Qed.

(** C9: a second run of [removeDuplicates] can remove what the first let
    through. Of three detections of which two bear the same id, the first
    run returns all three when the sort leaves the two apart; run on that
    result, the sort sees another array and may bring the two together, and
    then the second run returns the third detection alone. *)
Theorem removeDuplicates_twice_differs (a b c : apriltag_detection_t) :
  detection_id a = detection_id c →
  detection_id b ≠ detection_id a →
  detection_id a ≠ (-1)%Z →
  detection_id b ≠ (-1)%Z →
  zarray_sort idComparison [a; b; c] = [c; b; a] →
  zarray_sort idComparison [c; b; a] = [a; c; b] →
  removeDuplicates [a; b; c] = Returned [c; b; a]
  ∧ (out ← removeDuplicates [a; b; c]; removeDuplicates out) = Returned [b]
  ∧ (out ← removeDuplicates [a; b; c]; removeDuplicates out)
    ≠ removeDuplicates [a; b; c].
Proof.
  intros Hac Hb Ha Hb' Hfirst Hsecond.
  assert (removeDuplicates [a; b; c] = Returned [c; b; a]) as Hone.
  { rewrite removeDuplicates_scan, Hfirst. cbn [scan].
    rewrite !decide_False by congruence. done. }
  assert ((out ← removeDuplicates [a; b; c]; removeDuplicates out) = Returned [b])
    as Htwo.
  { rewrite Hone. cbn [mbind outcome_bind].
    rewrite removeDuplicates_scan, Hsecond. cbn [scan].
    rewrite decide_True by done. rewrite !decide_False by congruence. done. }
  split; [done|]. split; [done|]. rewrite Htwo, Hone. by intros [=].
Qed.

(** ** Correspondences *)

(** The laws of arithmetic that the statements on coordinates rely on; they
    are those of the real numbers that [double] stands for. *)
Hypothesis F_ring : ring_theory F0 F1 Fadd Fmul Fsub Fopp eq.
Add Ring F_ring_laws : F_ring.

Lemma row_times_transform (a0 a1 a2 a3 x y z : F) :
  row_times (a0, a1, a2, a3) (x, y, z, 1)%F = (a0 * x + a1 * y + a2 * z + a3)%F.
Proof using F_ring. unfold row_times. ring. Qed.

Lemma Matx34d_times_transform (T : Matx44d) (x y z : F) :
  Matx34d_times (get_minor_3_4 T) (x, y, z, 1)%F = apply_transform T x y z.
Proof using F_ring.
  destruct T as [[[[[[r00 r01] r02] t0] [[[r10 r11] r12] t1]] [[[r20 r21] r22] t2]] r3].
  unfold Matx34d_times, get_minor_3_4, apply_transform.
  by rewrite !row_times_transform.
Qed.

Lemma apply_transform_eye (x y z : F) :
  apply_transform Matx44d_eye x y z = mkPoint3d x y z.
Proof using F_ring. unfold apply_transform, Matx44d_eye. f_equal; ring. Qed.

Lemma addObjectPoints_app (s : F) (T_oi : Matx44d) (objectPoints : list Point3d) :
  addObjectPoints s T_oi objectPoints = objectPoints ++ addObjectPoints s T_oi [].
Proof. unfold addObjectPoints, push_back. by rewrite <- !app_assoc. Qed.

Lemma addImagePoints_app detection (imagePoints : list Point2d) :
  addImagePoints detection imagePoints = imagePoints ++ addImagePoints detection [].
Proof.
  unfold addImagePoints, push_back. cbn [zip zip_with foldl].
  repeat destruct (homography_project _ _ _). by rewrite <- !app_assoc.
Qed.

Lemma addImagePoints_length detection : length (addImagePoints detection []) = 4%nat.
Proof.
  unfold addImagePoints, push_back. cbn [zip zip_with foldl].
  by repeat destruct (homography_project _ _ _).
Qed.

(** C4: whatever [s] and the offset transform, [addObjectPoints] appends
    exactly four points, the corners (-s,-s,0), (s,-s,0), (s,s,0), (-s,s,0) of
    the square in this order, each taken through the rotation and translation
    of the offset; called with [s = size/2] and the identity offset it appends
    exactly (-size/2,-size/2,0), (size/2,-size/2,0), (size/2,size/2,0),
    (-size/2,size/2,0). *)
Theorem addObjectPoints_corners (s size : F) (T_oi : Matx44d)
    (objectPoints : list Point3d) :
  addObjectPoints s T_oi objectPoints
  = objectPoints ++ [apply_transform T_oi (- s) (- s) 0;
                     apply_transform T_oi s (- s) 0;
                     apply_transform T_oi s s 0;
                     apply_transform T_oi (- s) s 0]%F
  ∧ addObjectPoints (size / F_of_int 2)%F Matx44d_eye objectPoints
    = objectPoints ++ [mkPoint3d (- (size / F_of_int 2)) (- (size / F_of_int 2)) 0;
                       mkPoint3d (size / F_of_int 2) (- (size / F_of_int 2)) 0;
                       mkPoint3d (size / F_of_int 2) (size / F_of_int 2) 0;
                       mkPoint3d (- (size / F_of_int 2)) (size / F_of_int 2) 0]%F.
Proof using F_ring.
  assert (Hgen : ∀ s' T, addObjectPoints s' T objectPoints
            = objectPoints ++ [apply_transform T (- s') (- s') 0;
                               apply_transform T s' (- s') 0;
                               apply_transform T s' s' 0;
                               apply_transform T (- s') s' 0]%F).
  { intros s' T. rewrite addObjectPoints_app. f_equal.
    unfold addObjectPoints, push_back. cbn [app].
    by rewrite !Matx34d_times_transform. }
  split; [apply Hgen|]. rewrite Hgen. by rewrite !apply_transform_eye.
Qed.

(** C5: [addImagePoints] appends exactly four points, the images under the
    detection's homography of the tag coordinates (-1,1), (1,1), (1,-1),
    (-1,-1) in this order. They are the corners of the unit square in the
    winding of [addObjectPoints], with the sign of y flipped: the i-th image
    point is the image of the corner whose multiple by [s] is the i-th object
    point. *)
Theorem addImagePoints_corners detection (s : F) (imagePoints : list Point2d) :
  addImagePoints detection imagePoints
  = imagePoints ++ [image_point detection (- 1) 1;
                    image_point detection 1 1;
                    image_point detection 1 (- 1);
                    image_point detection (- 1) (- 1)]%F
  ∧ addImagePoints detection []
    = (λ '(x, y), image_point detection x (- y)%F) <$> winding
  ∧ addObjectPoints s Matx44d_eye []
    = (λ '(x, y), mkPoint3d (x * s) (y * s) 0)%F <$> winding.
Proof using F_ring.
  assert (Himg : addImagePoints detection []
            = [image_point detection (- 1) 1; image_point detection 1 1;
               image_point detection 1 (- 1); image_point detection (- 1) (- 1)]%F).
  { unfold addImagePoints, push_back, image_point. cbn [zip zip_with foldl].
    by repeat destruct (homography_project _ _ _). }
  split; [by rewrite addImagePoints_app, Himg|]. split.
  - rewrite Himg. unfold winding. cbn [fmap list_fmap].
    by replace (- - 1)%F with 1%F by ring.
  - unfold addObjectPoints, push_back, winding. cbn [app fmap list_fmap].
    rewrite !Matx34d_times_transform, !apply_transform_eye.
    repeat f_equal; ring.
Qed.

(** ** The detection pipeline: accumulating the bundles' points *)

Lemma appended_app {A} (o : option (list A)) (l1 l2 : list A) :
  appended (appended o l1) l2 = appended o (l1 ++ l2).
Proof.
  destruct l1 as [|a1 l1], l2 as [|a2 l2]; cbn; rewrite ?app_nil_r; try done.
  by rewrite <- app_assoc.
Qed.

Lemma appended_cons {A} (o : option (list A)) (l : list A) :
  l ≠ [] → appended o l = Some (default [] o ++ l).
Proof. by destruct l. Qed.

Lemma appended_None {A} (l : list A) :
  appended None l = match l with [] => None | _ => Some l end.
Proof. by destruct l. Qed.

Lemma bundle_member_indexed bundle tagID :
  bundle_indexed bundle → is_member bundle tagID →
  is_Some (bundle_member bundle tagID).
Proof.
  intros Hidx [idx Hid]. unfold bundle_member. rewrite Hid. cbn.
  by apply (Hidx tagID idx).
Qed.

Lemma member_object_points_length bundle detection :
  bundle_indexed bundle → is_member bundle (detection_id detection) →
  length (member_object_points bundle detection) = 4%nat.
Proof.
  intros Hidx Hm. unfold member_object_points.
  by destruct (bundle_member_indexed _ _ Hidx Hm) as [m ->].
Qed.

Lemma member_image_points_length detection :
  length (member_image_points detection) = 4%nat.
Proof. apply addImagePoints_length. Qed.

Lemma collect_bundle_points_spec detection bundle flag
    (O : gmap string (list Point3d)) (I : gmap string (list Point2d)) :
  bundle_indexed bundle →
  ∃ flag' O' I',
    collect_bundle_points detection (flag, O, I) bundle = Returned (flag', O', I')
    ∧ (∀ n, O' !! n
            = appended (O !! n)
                (if decide (name_ bundle = n
                            ∧ is_member bundle (detection_id detection))
                 then member_object_points bundle detection else []))
    ∧ (∀ n, I' !! n
            = appended (I !! n)
                (if decide (name_ bundle = n
                            ∧ is_member bundle (detection_id detection))
                 then member_image_points detection else [])).
Proof.
  intros Hidx. unfold collect_bundle_points.
  destruct (decide (is_Some (id2idx_ bundle !! detection_id detection))) as [Hm|Hm].
  - pose proof (member_object_points_length _ _ Hidx Hm) as Hlen.
    pose proof (member_image_points_length detection) as Hlen'.
    unfold member_object_points in *. unfold memberSize, memberT_oi.
    destruct (bundle_member_indexed _ _ Hidx Hm) as [m Hmem].
    rewrite Hmem in *. cbn [fmap option_fmap option_map asserted mbind outcome_bind].
    eexists _, _, _. split; [done|]. split; intros n.
    + destruct (decide (name_ bundle = n)) as [<-|Hne].
      * rewrite lookup_insert_eq, decide_True by done.
        rewrite addObjectPoints_app, appended_cons; [done|].
        intros Hnil. by rewrite Hnil in Hlen.
      * rewrite lookup_insert_ne, decide_False
          by (first [done | intros [? _]; done]).
        done.
    + destruct (decide (name_ bundle = n)) as [<-|Hne].
      * rewrite lookup_insert_eq, decide_True by done.
        rewrite addImagePoints_app, appended_cons; [done|].
        intros Hnil. unfold member_image_points in Hlen', Hnil.
        by rewrite Hnil in Hlen'.
      * rewrite lookup_insert_ne, decide_False
          by (first [done | intros [? _]; done]).
        done.
  - eexists _, _, _. split; [done|].
    split; intros n; by rewrite decide_False by (intros [_ ?]; done).
Qed.

Lemma collect_all_bundle_points_spec detection bundles : ∀ flag
    (O : gmap string (list Point3d)) (I : gmap string (list Point2d)),
  Forall bundle_indexed bundles →
  ∃ flag' O' I',
    for_each (collect_bundle_points detection) (flag, O, I) bundles
    = Returned (flag', O', I')
    ∧ (∀ n, O' !! n = appended (O !! n) (contributed_object_points bundles n detection))
    ∧ (∀ n, I' !! n = appended (I !! n) (contributed_image_points bundles n detection)).
Proof.
  induction bundles as [|bundle bundles IH]; intros flag O I Hidx.
  - eexists _, _, _. by split.
  - apply Forall_cons in Hidx as [Hb Hidx].
    destruct (collect_bundle_points_spec detection bundle flag O I Hb)
      as (flag1 & O1 & I1 & Hrun & HO1 & HI1).
    destruct (IH flag1 O1 I1 Hidx) as (flag2 & O2 & I2 & Hrun2 & HO2 & HI2).
    exists flag2, O2, I2. cbn [for_each]. rewrite Hrun. cbn [mbind outcome_bind].
    split; [done|]. unfold contributed_object_points, contributed_image_points.
    split; intros n; rewrite bind_cons, <- appended_app.
    + by rewrite <- HO1, HO2.
    + by rewrite <- HI1, HI2.
Qed.

Lemma process_detection_spec this fx fy cx cy (header : Header) st detection :
  Forall bundle_indexed (tag_bundle_descriptions_ this) →
  ∃ st',
    process_detection this fx fy cx cy header st detection = Returned st'
    ∧ tag_detection_array st'
      = tag_detection_array st ++ standalone_detection this fx fy cx cy header detection
    ∧ detection_names st' = detection_names st ++ standalone_name this detection
    ∧ (∀ n, bundleObjectPoints st' !! n
            = appended (bundleObjectPoints st !! n)
                (contributed_object_points (tag_bundle_descriptions_ this) n detection))
    ∧ (∀ n, bundleImagePoints st' !! n
            = appended (bundleImagePoints st !! n)
                (contributed_image_points (tag_bundle_descriptions_ this) n detection)).
Proof.
  intros Hidx. unfold process_detection.
  destruct (collect_all_bundle_points_spec detection _ false
              (bundleObjectPoints st) (bundleImagePoints st) Hidx)
    as (flag & O & I & -> & HO & HI).
  cbn [mbind outcome_bind]. unfold findStandaloneTagDescription,
    standalone_detection, standalone_name.
  destruct (standalone_tag_descriptions_ this !! detection_id detection) as [desc|];
    eexists; (split; [done|]); cbn [tag_detection_array detection_names
      bundleObjectPoints bundleImagePoints]; rewrite ?app_nil_r; done.
Qed.

Lemma process_all_detections_spec this fx fy cx cy (header : Header) detections :
  ∀ st,
  Forall bundle_indexed (tag_bundle_descriptions_ this) →
  ∃ st',
    for_each (process_detection this fx fy cx cy header) st detections = Returned st'
    ∧ tag_detection_array st'
      = tag_detection_array st
        ++ (detections ≫= standalone_detection this fx fy cx cy header)
    ∧ detection_names st' = detection_names st ++ (detections ≫= standalone_name this)
    ∧ (∀ n, bundleObjectPoints st' !! n
            = appended (bundleObjectPoints st !! n)
                (pooled_object_points (tag_bundle_descriptions_ this) n detections))
    ∧ (∀ n, bundleImagePoints st' !! n
            = appended (bundleImagePoints st !! n)
                (pooled_image_points (tag_bundle_descriptions_ this) n detections)).
Proof.
  induction detections as [|detection detections IH]; intros st Hidx.
  - exists st. cbn. by rewrite !app_nil_r.
  - destruct (process_detection_spec this fx fy cx cy header st detection Hidx)
      as (st1 & Hrun & Harr & Hnames & HO & HI).
    destruct (IH st1 Hidx) as (st2 & Hrun2 & Harr2 & Hnames2 & HO2 & HI2).
    exists st2. cbn [for_each]. rewrite Hrun. cbn [mbind outcome_bind].
    split; [done|]. unfold pooled_object_points, pooled_image_points.
    rewrite Harr2, Harr, Hnames2, Hnames, !bind_cons, <- !app_assoc.
    do 2 (split; [done|]).
    split; intros n; rewrite bind_cons, <- appended_app.
    + by rewrite <- HO, HO2.
    + by rewrite <- HI, HI2.
Qed.

(** ** The detection pipeline: estimating the bundles *)

Lemma estimate_bundles_spec fx fy cx cy (header : Header) bundles : ∀ st,
  (∀ n, bundleObjectPoints st !! n ≠ Some []) →
  tag_detection_array (foldl (estimate_bundle fx fy cx cy header) st bundles)
  = tag_detection_array st
    ++ (bundle ← bundles;
        bundle_detection fx fy cx cy header
          (at_key (bundleObjectPoints st) (name_ bundle))
          (at_key (bundleImagePoints st) (name_ bundle)) bundle)
  ∧ bundleObjectPoints (foldl (estimate_bundle fx fy cx cy header) st bundles)
    = bundleObjectPoints st
  ∧ bundleImagePoints (foldl (estimate_bundle fx fy cx cy header) st bundles)
    = bundleImagePoints st.
Proof.
  induction bundles as [|bundle bundles IH]; intros st Hne.
  - cbn. by rewrite app_nil_r.
  - cbn [foldl]. rewrite bind_cons.
    set (st1 := estimate_bundle fx fy cx cy header st bundle).
    assert (Hst1 : tag_detection_array st1
              = tag_detection_array st
                ++ bundle_detection fx fy cx cy header
                     (at_key (bundleObjectPoints st) (name_ bundle))
                     (at_key (bundleImagePoints st) (name_ bundle)) bundle
              ∧ bundleObjectPoints st1 = bundleObjectPoints st
              ∧ bundleImagePoints st1 = bundleImagePoints st).
    { unfold st1, estimate_bundle, bundle_detection, at_key.
      specialize (Hne (name_ bundle)).
      destruct (bundleObjectPoints st !! name_ bundle) as [[|p pts]|]; cbn;
        rewrite ?app_nil_r; done. }
    destruct Hst1 as (Harr & HO & HI).
    destruct (IH st1) as (Harr' & HO' & HI'); [by rewrite HO|].
    rewrite Harr', HO', HI', Harr, HO, HI, <- app_assoc. done.
Qed.

(** What a frame comes to: the entries of the standalone tags in the order
    of the detections, then those of the bundles under whose name points
    were pooled, in the order of the configuration. *)
Lemma detect_frame_spec this fx fy cx cy (header : Header) detections :
  Forall bundle_indexed (tag_bundle_descriptions_ this) →
  ∃ st,
    detect_frame this fx fy cx cy header detections = Returned st
    ∧ tag_detection_array st
      = (detections ≫= standalone_detection this fx fy cx cy header)
        ++ (bundle ← tag_bundle_descriptions_ this;
            bundle_detection fx fy cx cy header
              (pooled_object_points (tag_bundle_descriptions_ this)
                 (name_ bundle) detections)
              (pooled_image_points (tag_bundle_descriptions_ this)
                 (name_ bundle) detections) bundle)
    ∧ (∀ n, at_key (bundleObjectPoints st) n
            = pooled_object_points (tag_bundle_descriptions_ this) n detections)
    ∧ (∀ n, at_key (bundleImagePoints st) n
            = pooled_image_points (tag_bundle_descriptions_ this) n detections).
Proof.
  intros Hidx. unfold detect_frame.
  destruct (process_all_detections_spec this fx fy cx cy header detections
              (mkFrameState [] [] ∅ ∅) Hidx)
    as (st & -> & Harr & _ & HO & HI).
  cbn [mbind outcome_bind]. eexists. split; [done|].
  cbn [tag_detection_array bundleObjectPoints bundleImagePoints] in Harr, HO, HI.
  assert (HOk : ∀ n, at_key (bundleObjectPoints st) n
            = pooled_object_points (tag_bundle_descriptions_ this) n detections).
  { intros n. unfold at_key. rewrite HO, lookup_empty, appended_None.
    by destruct (pooled_object_points _ _ _). }
  assert (HIk : ∀ n, at_key (bundleImagePoints st) n
            = pooled_image_points (tag_bundle_descriptions_ this) n detections).
  { intros n. unfold at_key. rewrite HI, lookup_empty, appended_None.
    by destruct (pooled_image_points _ _ _). }
  destruct (estimate_bundles_spec fx fy cx cy header
              (tag_bundle_descriptions_ this) st) as (Harr' & HO' & HI').
  { intros n. rewrite HO, lookup_empty, appended_None.
    by destruct (pooled_object_points _ _ _). }
  rewrite Harr', HO', HI', Harr. cbn [app].
  split; [|done]. f_equal. apply list_bind_ext; [|done].
  intros bundle. by rewrite HOk, HIk.
Qed.

(** With its bundles indexed, [detectTags] returns a detection array. *)
Lemma detectTags_returns this detections fx fy cx cy (header : Header) :
  Forall bundle_indexed (tag_bundle_descriptions_ this) →
  ∃ survivors st,
    removeDuplicates detections = Returned survivors
    ∧ detect_frame this fx fy cx cy header survivors = Returned st
    ∧ detectTags this detections fx fy cx cy header
      = Returned (mkAprilTagDetectionArray header (tag_detection_array st)).
Proof.
  intros Hidx. unfold detectTags. rewrite removeDuplicates_scan.
  cbn [mbind outcome_bind].
  destruct (detect_frame_spec this fx fy cx cy header
              (scan false (zarray_sort idComparison detections)) Hidx)
    as (st & Hrun & _).
  exists (scan false (zarray_sort idComparison detections)), st.
  rewrite Hrun. done.
Qed.

(** ** Bundles of distinct names *)








Lemma contributed_points_length bundles n detection :
  Forall bundle_indexed bundles →
  length (contributed_object_points bundles n detection)
  = length (contributed_image_points bundles n detection).
Proof.
  unfold contributed_object_points, contributed_image_points.
  induction 1 as [|bundle bundles Hidx _ IH]; [done|].
  rewrite !bind_cons, !length_app, IH. f_equal.
  case_decide as Hm; [|done]. destruct Hm as [_ Hm].
  by rewrite member_object_points_length, member_image_points_length.
Qed.

Lemma pooled_points_length bundles n detections :
  Forall bundle_indexed bundles →
  length (pooled_object_points bundles n detections)
  = length (pooled_image_points bundles n detections).
Proof.
  intros Hidx. unfold pooled_object_points, pooled_image_points.
  induction detections as [|detection detections IH]; [done|].
  by rewrite !bind_cons, !length_app, IH, contributed_points_length.
Qed.

(** ** Detections that nothing describes *)

Lemma collect_bundle_points_not_member detection bundle acc :
  ¬ is_member bundle (detection_id detection) →
  collect_bundle_points detection acc bundle = Returned acc.
Proof.
  intros Hb. unfold collect_bundle_points. destruct acc as [[flag O] I].
  by rewrite decide_False by done.
Qed.

Lemma collect_bundle_points_none detection bundles : ∀ acc,
  Forall (λ bundle, ¬ is_member bundle (detection_id detection)) bundles →
  for_each (collect_bundle_points detection) acc bundles = Returned acc.
Proof.
  induction bundles as [|bundle bundles IH]; intros acc Hnone; [done|].
  apply Forall_cons in Hnone as [Hb Hnone].
  cbn [for_each]. rewrite collect_bundle_points_not_member by done.
  cbn [mbind outcome_bind]. by apply IH.
Qed.

Lemma for_each_app {A B} (body : B → A → outcome B) (l1 l2 : list A) : ∀ b,
  for_each body b (l1 ++ l2) = (b' ← for_each body b l1; for_each body b' l2).
Proof.
  induction l1 as [|a l1 IH]; intros b; [done|].
  cbn [app for_each]. destruct (body b a); cbn [mbind outcome_bind]; [apply IH|done..].
Qed.

Lemma process_detection_unrecognized this fx fy cx cy (header : Header) st detection :
  standalone_tag_descriptions_ this !! detection_id detection = None →
  Forall (λ bundle, ¬ is_member bundle (detection_id detection))
    (tag_bundle_descriptions_ this) →
  process_detection this fx fy cx cy header st detection = Returned st.
Proof.
  intros Hstandalone Hnone. unfold process_detection.
  rewrite collect_bundle_points_none by done. cbn [mbind outcome_bind].
  unfold findStandaloneTagDescription. rewrite Hstandalone. by destruct st.
Qed.

(** C8: a detection whose id has no standalone description and is in no
    bundle leaves the state of the frame as it was (no point under any key,
    no entry in the array), and the frame's result is that of the frame
    without it; [detectTags] returns a detection array for every frame. *)
Theorem unrecognized_detection_is_skipped this fx fy cx cy (header : Header)
    (st : frame_state) (detection : apriltag_detection_t)
    (survivors1 survivors2 detections : list apriltag_detection_t) :
  standalone_tag_descriptions_ this !! detection_id detection = None →
  Forall (λ bundle, ¬ is_member bundle (detection_id detection))
    (tag_bundle_descriptions_ this) →
  process_detection this fx fy cx cy header st detection = Returned st
  ∧ detect_frame this fx fy cx cy header (survivors1 ++ detection :: survivors2)
    = detect_frame this fx fy cx cy header (survivors1 ++ survivors2)
  ∧ (Forall bundle_indexed (tag_bundle_descriptions_ this) →
     ∃ array, detectTags this detections fx fy cx cy header = Returned array).
Proof.
  intros Hstandalone Hnone. split; [|split].
  - by apply process_detection_unrecognized.
  - unfold detect_frame. rewrite !for_each_app. cbn [for_each].
    destruct (for_each _ _ survivors1) as [st1| |]; cbn [mbind outcome_bind]; [|done..].
    by rewrite process_detection_unrecognized.
  - intros Hidx.
    destruct (detectTags_returns this detections fx fy cx cy header Hidx)
      as (survivors & st' & _ & _ & ->). eauto.
Qed.


(** ** Loading the bundle descriptions *)

Lemma bind_no_fuel {A B} (m : outcome A) (k : A → outcome B) :
  m ≠ OutOfFuel → (∀ a, k a ≠ OutOfFuel) → m ≫= k ≠ OutOfFuel.
Proof. destruct m; cbn; [auto|done..]. Qed.

Lemma for_each_no_fuel {A B} (body : B → A → outcome B) (l : list A) : ∀ b,
  (∀ b a, body b a ≠ OutOfFuel) → for_each body b l ≠ OutOfFuel.
Proof.
  induction l as [|a l IH]; intros b Hbody; [done|].
  cbn [for_each]. apply bind_no_fuel; auto.
Qed.

Lemma xmlRpcGetDoubleWithDefault_no_fuel xmlValue field defaultValue :
  xmlRpcGetDoubleWithDefault xmlValue field defaultValue ≠ OutOfFuel.
Proof.
  unfold xmlRpcGetDoubleWithDefault.
  destruct (hasMember _ _); [|done]. by destruct (struct_member _ _).
Qed.

Lemma parse_member_tag_no_fuel this bundle_i tag :
  parse_member_tag this bundle_i tag ≠ OutOfFuel.
Proof.
  unfold parse_member_tag. destruct tag; try done.
  destruct (struct_member _ "id"); try done.
  destruct (struct_member _ "size"); try done.
  apply bind_no_fuel.
  { unfold ROS_ASSERT, ROS_ASSERT_ENABLED. destruct (findStandaloneTagDescription _ _ _); [|done].
    by case_bool_decide. }
  intros _. repeat (apply bind_no_fuel;
                    [apply xmlRpcGetDoubleWithDefault_no_fuel|intros ?]).
  by destruct (Quaterniond_toRotationMatrix _) as [[[[? ?] ?] [[? ?] ?]] [[? ?] ?]].
Qed.

Lemma parse_bundle_no_fuel this i bundle_description :
  parse_bundle this i bundle_description ≠ OutOfFuel.
Proof.
  unfold parse_bundle. destruct bundle_description; try done.
  apply bind_no_fuel.
  { unfold parse_bundle_name.
    destruct (hasMember _ _); [|done]. by destruct (struct_member _ _). }
  intros bundleName. destruct (struct_member _ "layout"); try done.
  apply for_each_no_fuel, parse_member_tag_no_fuel.
Qed.

(** A member tag is loaded as if no standalone tag were declared, unless its
    size differs from that of the standalone description of its id. *)
Lemma parse_member_tag_check this bundle_i tag :
  parse_member_tag this bundle_i tag
  = if decide (Exists (size_mismatch this) (declared_member tag))
    then AssertFailed
    else parse_member_tag (without_standalone_tags this) bundle_i tag.
Proof.
  unfold parse_member_tag, declared_member.
  destruct tag; try (by rewrite decide_False by (by intros ?%Exists_nil)).
  destruct (struct_member _ "id") as [| |id| | | | | |];
    try (by rewrite decide_False by (by intros ?%Exists_nil)).
  destruct (struct_member _ "size") as [| | |size| | | | |];
    try (by rewrite decide_False by (by intros ?%Exists_nil)).
  unfold findStandaloneTagDescription, without_standalone_tags at 1.
  cbn [standalone_tag_descriptions_]. rewrite lookup_empty.
  destruct (standalone_tag_descriptions_ this !! id) as [desc|] eqn:Hdesc.
  - unfold ROS_ASSERT, ROS_ASSERT_ENABLED. case_bool_decide as Hsize.
    + rewrite decide_False; [done|].
      intros [(d & Hd & Hne) | []%Exists_nil]%Exists_cons.
      cbn in Hd, Hne. by simplify_eq.
    + rewrite decide_True; [done|]. apply Exists_cons. left. by exists desc.
  - rewrite decide_False; [done|].
    intros [(d & Hd & Hne) | []%Exists_nil]%Exists_cons.
    cbn in Hd. by simplify_eq.
Qed.

Lemma parse_member_tags_check this member_tags : ∀ bundle_i,
  (Exists (size_mismatch this) (member_tags ≫= declared_member) →
   for_each (parse_member_tag this) bundle_i member_tags = AssertFailed)
  ∧ (¬ Exists (size_mismatch this) (member_tags ≫= declared_member) →
     for_each (parse_member_tag this) bundle_i member_tags
     = for_each (parse_member_tag (without_standalone_tags this)) bundle_i member_tags).
Proof.
  induction member_tags as [|tag member_tags IH]; intros bundle_i.
  { split; [by intros ?%Exists_nil|done]. }
  rewrite bind_cons, Exists_app. cbn [for_each].
  rewrite parse_member_tag_check. split.
  - intros Hex. case_decide as Htag; [done|].
    destruct Hex as [?|Hex]; [done|].
    destruct (parse_member_tag _ bundle_i tag) as [bundle'| |] eqn:Hparse;
      cbn [mbind outcome_bind]; [by apply IH|done|].
    by apply parse_member_tag_no_fuel in Hparse.
  - intros Hnone. rewrite decide_False by (intros ?; apply Hnone; by left).
    destruct (parse_member_tag _ bundle_i tag) as [bundle'| |];
      cbn [mbind outcome_bind]; [|done..].
    apply IH. intros ?. apply Hnone. by right.
Qed.

Lemma parse_bundle_check this i bundle_description :
  (Exists (size_mismatch this) (declared_layout bundle_description) →
   parse_bundle this i bundle_description = AssertFailed)
  ∧ (¬ Exists (size_mismatch this) (declared_layout bundle_description) →
     parse_bundle this i bundle_description
     = parse_bundle (without_standalone_tags this) i bundle_description).
Proof.
  unfold parse_bundle, declared_layout.
  destruct bundle_description as [| | | | | | | |m]; try done.
  destruct (parse_bundle_name i (TypeStruct m)) as [bundleName| |] eqn:Hname;
    cbn [mbind outcome_bind]; try done.
  - destruct (struct_member (TypeStruct m) "layout") as [| | | | | | |tags|];
      try (split; [by intros ?%Exists_nil|done]).
    apply parse_member_tags_check.
  - unfold parse_bundle_name in Hname. split; [|done].
    by destruct (hasMember _ _); [destruct (struct_member _ _)|].
Qed.

Lemma parse_bundles_check this tag_bundles : ∀ i descriptions,
  (Exists (size_mismatch this) (tag_bundles ≫= declared_layout) →
   parse_bundles this i descriptions tag_bundles = AssertFailed)
  ∧ (¬ Exists (size_mismatch this) (tag_bundles ≫= declared_layout) →
     parse_bundles this i descriptions tag_bundles
     = parse_bundles (without_standalone_tags this) i descriptions tag_bundles).
Proof.
  induction tag_bundles as [|b tag_bundles IH]; intros i descriptions.
  { split; [by intros ?%Exists_nil|done]. }
  rewrite bind_cons, Exists_app. cbn [parse_bundles].
  destruct (parse_bundle_check this i b) as [Hfail Hsame]. split.
  - intros [Hex|Hex]; [by rewrite Hfail|].
    destruct (parse_bundle this i b) as [bundle_i| |] eqn:Hparse;
      cbn [mbind outcome_bind]; [by apply IH|done|].
    by apply parse_bundle_no_fuel in Hparse.
  - intros Hnone. rewrite Hsame by (intros ?; apply Hnone; by left).
    destruct (parse_bundle (without_standalone_tags this) i b) as [bundle_i| |];
      cbn [mbind outcome_bind]; [|done..].
    apply IH. intros ?. apply Hnone. by right.
Qed.

Lemma parseTagBundles_check this tag_bundles :
  (Exists (size_mismatch this) (declared_members tag_bundles) →
   parseTagBundles this tag_bundles = AssertFailed)
  ∧ (¬ Exists (size_mismatch this) (declared_members tag_bundles) →
     parseTagBundles this tag_bundles
     = parseTagBundles (without_standalone_tags this) tag_bundles).
Proof.
  unfold parseTagBundles, declared_members.
  destruct tag_bundles; try (split; [by intros ?%Exists_nil|done]).
  apply parse_bundles_check.
Qed.

(** *** What a loaded bundle holds *)

Lemma bind_Returned {A B} (m : outcome A) (k : A → outcome B) (b : B) :
  m ≫= k = Returned b ↔ ∃ a, m = Returned a ∧ k a = Returned b.
Proof.
  destruct m; cbn; split; try done; try (by intros (? & [=] & _)).
  - eauto.
  - by intros (? & [= <-] & ?).
Qed.

Lemma parse_member_tag_Returned this bundle_i tag bundle' :
  parse_member_tag this bundle_i tag = Returned bundle' →
  ∃ id size T_mj,
    bundle' = addMemberTag id size T_mj bundle_i
    ∧ declared_member tag = [(id, size)].
Proof.
  unfold parse_member_tag, declared_member.
  destruct tag; try done.
  destruct (struct_member _ "id") as [| |id| | | | | |]; try done.
  destruct (struct_member _ "size") as [| | |size| | | | |]; try done.
  intros Hrun. repeat (apply bind_Returned in Hrun as (? & _ & Hrun)).
  destruct (Quaterniond_toRotationMatrix _) as [[[[? ?] ?] [[? ?] ?]] [[? ?] ?]].
  injection Hrun as <-. eauto.
Qed.

Lemma addMemberTag_indexed id size T_oi bundle :
  bundle_indexed bundle → bundle_indexed (addMemberTag id size T_oi bundle).
Proof.
  unfold bundle_indexed, addMemberTag, push_back. cbn [tags_ id2idx_].
  intros Hidx. apply map_Forall_insert_2.
  - rewrite list_lookup_middle by done. eauto.
  - intros id' idx Hid'. destruct (Hidx id' idx Hid') as [m Hm].
    exists m. by apply lookup_app_l_Some.
Qed.

Lemma addMemberTag_is_member id size T_oi bundle tagID :
  is_member (addMemberTag id size T_oi bundle) tagID
  ↔ tagID = id ∨ is_member bundle tagID.
Proof.
  unfold is_member, addMemberTag. cbn [id2idx_].
  destruct (decide (id = tagID)) as [->|Hne].
  - rewrite lookup_insert_eq. split; [by left|eauto].
  - rewrite lookup_insert_ne by done. split; [by right|]. by intros [->|?].
Qed.

Lemma parse_member_tags_Returned this member_tags : ∀ bundle_i bundle',
  for_each (parse_member_tag this) bundle_i member_tags = Returned bundle' →
  (bundle_indexed bundle_i → bundle_indexed bundle')
  ∧ (∀ tagID, is_member bundle' tagID
              ↔ is_member bundle_i tagID
                ∨ tagID ∈ (member_tags ≫= declared_member).*1).
Proof.
  induction member_tags as [|tag member_tags IH]; intros bundle_i bundle' Hrun.
  { injection Hrun as <-. split; [done|]. intros tagID. cbn.
    split; [by left|]. intros [?|[]%elem_of_nil]. done. }
  cbn [for_each] in Hrun. apply bind_Returned in Hrun as (bundle1 & Htag & Hrun).
  apply parse_member_tag_Returned in Htag as (id & size & T_mj & -> & Hdecl).
  destruct (IH _ _ Hrun) as [Hidx Hmem]. split.
  - intros Hi. by apply Hidx, addMemberTag_indexed.
  - intros tagID. rewrite Hmem, addMemberTag_is_member, bind_cons, Hdecl.
    cbn [app fmap list_fmap fst]. rewrite elem_of_cons.
    split; [intros [[?|?]|?]|intros [?|[?|?]]]; eauto.
Qed.

Lemma parse_bundle_Returned this i bundle_description bundle :
  parse_bundle this i bundle_description = Returned bundle →
  bundle_indexed bundle
  ∧ (∀ tagID, is_member bundle tagID
              ↔ tagID ∈ (declared_layout bundle_description).*1).
Proof.
  unfold parse_bundle, declared_layout. destruct bundle_description; try done.
  intros (bundleName & _ & Hrun)%bind_Returned.
  destruct (struct_member _ "layout") as [| | | | | | |tags|]; try done.
  destruct (parse_member_tags_Returned _ _ _ _ Hrun) as [Hidx Hmem]. split.
  - apply Hidx. unfold bundle_indexed. cbn. apply map_Forall_empty.
  - intros tagID. rewrite Hmem. unfold is_member. cbn [id2idx_].
    rewrite lookup_empty. split; [|by right]. intros [[? [=]]|?]. done.
Qed.

(** The bundles of a configuration are loaded one by one: the k-th loaded
    bundle is what the k-th declared bundle gives at the index k. *)
Lemma parse_bundles_Returned this tag_bundles : ∀ i descriptions loaded,
  parse_bundles this i descriptions tag_bundles = Returned loaded
  ↔ ∃ loaded', loaded = descriptions ++ loaded'
      ∧ length loaded' = length tag_bundles
      ∧ ∀ k bundle_description bundle,
          tag_bundles !! k = Some bundle_description →
          loaded' !! k = Some bundle →
          parse_bundle this (i + Z.of_nat k) bundle_description = Returned bundle.
Proof.
  induction tag_bundles as [|b tag_bundles IH]; intros i descriptions loaded.
  { cbn [parse_bundles]. split.
    - intros [= <-]. exists []. by rewrite app_nil_r.
    - intros (loaded' & -> & Hlen & _). destruct loaded'; [|done].
      by rewrite app_nil_r. }
  cbn [parse_bundles]. rewrite bind_Returned. split.
  - intros (bundle_i & Hb & Hrun). apply IH in Hrun as (loaded' & -> & Hlen & Hk).
    exists (bundle_i :: loaded'). unfold push_back. rewrite <- app_assoc.
    split; [done|]. split; [cbn; by rewrite Hlen|].
    intros [|k] bd bundle; cbn [lookup list_lookup].
    + intros [= <-] [= <-]. by rewrite Z.add_0_r.
    + intros Hbd Hbundle. rewrite <- (Hk k bd bundle Hbd Hbundle). f_equal. lia.
  - intros (loaded' & -> & Hlen & Hk).
    destruct loaded' as [|bundle_i loaded']; [done|].
    exists bundle_i. split.
    + rewrite <- (Hk 0%nat b bundle_i eq_refl eq_refl). f_equal. lia.
    + apply IH. exists loaded'. unfold push_back. rewrite <- app_assoc.
      split; [done|]. split; [cbn in Hlen; lia|].
      intros k bd bundle Hbd Hbundle.
      rewrite <- (Hk (S k) bd bundle Hbd Hbundle). f_equal. lia.
Qed.

Lemma parseTagBundles_indexed this tag_bundles descriptions :
  parseTagBundles this tag_bundles = Returned descriptions →
  Forall bundle_indexed descriptions.
Proof.
  unfold parseTagBundles. destruct tag_bundles as [| | | | | | |a|]; try done.
  intros (loaded' & -> & Hlen & Hk)%parse_bundles_Returned. cbn [app].
  apply Forall_lookup. intros k bundle Hbundle.
  destruct (lookup_lt_is_Some_2 a k) as [bd Hbd];
    [rewrite <- Hlen; by eapply lookup_lt_Some|].
  by destruct (parse_bundle_Returned _ _ _ _ (Hk k bd bundle Hbd Hbundle)).
Qed.

Lemma TagDetector_constructor_stopped pnh family_ standalone tag_bundles :
  match pnh !! "standalone_tags" with
  | None => standalone = ∅
  | Some standalone_tags =>
    parseStandaloneTags standalone_tags = Returned standalone
  end →
  pnh !! "tag_bundles" = Some tag_bundles →
  parseTagBundles (mkTagDetector standalone []) tag_bundles = AssertFailed →
  TagDetector_constructor pnh family_ = assertion_failed.
Proof.
  intros Hs Hv Hfail. unfold TagDetector_constructor. rewrite Hv.
  destruct (pnh !! "standalone_tags") as [sv|].
  - rewrite Hs. cbn [mbind outcome_bind]. by rewrite Hfail.
  - subst standalone. cbn [mbind outcome_bind]. by rewrite Hfail.
Qed.

(** C6: a member of a bundle declared with another size than the standalone
    description of its id stops the load, and the process with it. With the
    assertions of the build enabled, [parseTagBundles] ends in the failed
    assertion of its size check, and so does the constructor that called
    it: the handler that the constructor keeps for a failed load of the
    bundles is not entered, and no detector is built. *)
Theorem size_mismatch_stops_the_process this tag_bundles :
  Exists (size_mismatch this) (declared_members tag_bundles) →
  parseTagBundles this tag_bundles = AssertFailed
  ∧ ∀ pnh family_,
      match pnh !! "standalone_tags" with
      | None => standalone_tag_descriptions_ this = ∅
      | Some standalone_tags =>
        parseStandaloneTags standalone_tags
        = Returned (standalone_tag_descriptions_ this)
      end →
      pnh !! "tag_bundles" = Some tag_bundles →
      TagDetector_constructor pnh family_ = assertion_failed.
Proof.
  intros Hmis.
  destruct (parseTagBundles_check this tag_bundles) as [Hfail _].
  split; [by apply Hfail|].
  intros pnh family_ Hs Hv.
  eapply TagDetector_constructor_stopped; [exact Hs|exact Hv|].
  destruct (parseTagBundles_check
              (mkTagDetector (standalone_tag_descriptions_ this) [])
              tag_bundles) as [Hfail' _].
  apply Hfail'. eapply Exists_impl; [exact Hmis|].
  intros member Hmember. exact Hmember.
Qed.

(** C7: a surviving detection whose id is a member of several bundles adds
    its four object points and its four image points, at the same place, to
    the points pooled under the name of every bundle that contains it, and the
    entry of each such bundle is solved from the points pooled under its name.
    Loading rejects no such configuration: the bundles are loaded one by one,
    each from its own declaration, and a loaded bundle has as members the ids
    that its layout declares. *)
Theorem shared_member_feeds_every_bundle this fx fy cx cy (header : Header)
    (survivors1 survivors2 : list apriltag_detection_t)
    (detection : apriltag_detection_t) :
  Forall bundle_indexed (tag_bundle_descriptions_ this) →
  (∃ st,
     detect_frame this fx fy cx cy header (survivors1 ++ detection :: survivors2)
     = Returned st
     ∧ ∀ bundle,
         bundle ∈ tag_bundle_descriptions_ this →
         is_member bundle (detection_id detection) →
         (∃ pre post pre' post',
            at_key (bundleObjectPoints st) (name_ bundle)
            = pre ++ member_object_points bundle detection ++ post
            ∧ at_key (bundleImagePoints st) (name_ bundle)
              = pre' ++ member_image_points detection ++ post'
            ∧ length pre = length pre')
         ∧ length (member_object_points bundle detection) = 4%nat
         ∧ length (member_image_points detection) = 4%nat
         ∧ solved_detection fx fy cx cy header
             (at_key (bundleObjectPoints st) (name_ bundle))
             (at_key (bundleImagePoints st) (name_ bundle))
             (bundleIds bundle) (bundleSizes bundle)
           ∈ tag_detection_array st)
  ∧ (∀ loader tag_bundles loaded,
       parseTagBundles loader (TypeArray tag_bundles) = Returned loaded
       ↔ length loaded = length tag_bundles
         ∧ ∀ k bundle_description bundle,
             tag_bundles !! k = Some bundle_description →
             loaded !! k = Some bundle →
             parse_bundle loader (Z.of_nat k) bundle_description = Returned bundle)
  ∧ (∀ loader i bundle_description bundle,
       parse_bundle loader i bundle_description = Returned bundle →
       ∀ tagID, is_member bundle tagID
                ↔ tagID ∈ (declared_layout bundle_description).*1).
Proof.
  intros Hidx. split; [|split].
  - destruct (detect_frame_spec this fx fy cx cy header
                (survivors1 ++ detection :: survivors2) Hidx)
      as (st & Hrun & Harr & HO & HI).
    exists st. split; [done|]. intros bundle Hin Hm.
    pose proof Hidx as Hidx'. rewrite Forall_forall in Hidx'.
    pose proof (member_object_points_length bundle detection (Hidx' _ Hin) Hm) as Hlen.
    apply list_elem_of_split in Hin as (bundles1 & bundles2 & Hsplit).
    assert (Hidx1 : Forall bundle_indexed bundles1).
    { rewrite Hsplit in Hidx. by apply Forall_app in Hidx as [? _]. }
    assert (HOsplit : pooled_object_points (tag_bundle_descriptions_ this)
                        (name_ bundle) (survivors1 ++ detection :: survivors2)
              = (pooled_object_points (tag_bundle_descriptions_ this)
                   (name_ bundle) survivors1
                 ++ contributed_object_points bundles1 (name_ bundle) detection)
                ++ member_object_points bundle detection
                ++ (contributed_object_points bundles2 (name_ bundle) detection
                    ++ pooled_object_points (tag_bundle_descriptions_ this)
                         (name_ bundle) survivors2)).
    { unfold pooled_object_points. rewrite bind_app, bind_cons.
      unfold contributed_object_points at 2.
      rewrite Hsplit at 2. rewrite bind_app, bind_cons, decide_True by done.
      by rewrite <- !app_assoc. }
    assert (HIsplit : pooled_image_points (tag_bundle_descriptions_ this)
                        (name_ bundle) (survivors1 ++ detection :: survivors2)
              = (pooled_image_points (tag_bundle_descriptions_ this)
                   (name_ bundle) survivors1
                 ++ contributed_image_points bundles1 (name_ bundle) detection)
                ++ member_image_points detection
                ++ (contributed_image_points bundles2 (name_ bundle) detection
                    ++ pooled_image_points (tag_bundle_descriptions_ this)
                         (name_ bundle) survivors2)).
    { unfold pooled_image_points. rewrite bind_app, bind_cons.
      unfold contributed_image_points at 2.
      rewrite Hsplit at 2. rewrite bind_app, bind_cons, decide_True by done.
      by rewrite <- !app_assoc. }
    split; [|split; [done|split; [apply member_image_points_length|]]].
    + eexists _, _, _, _. rewrite HO, HI. split; [exact HOsplit|].
      split; [exact HIsplit|].
      by rewrite !length_app, pooled_points_length, contributed_points_length.
    + rewrite Harr, HO, HI. apply elem_of_app. right.
      apply list_elem_of_bind. exists bundle. split;
        [|rewrite Hsplit; apply elem_of_app; right; left].
      unfold bundle_detection.
      destruct (pooled_object_points _ _ _) as [|p pts]; [|by left].
      symmetry in HOsplit. apply app_eq_nil in HOsplit as [_ Hnil].
      apply app_eq_nil in Hnil as [Hnil _]. by rewrite Hnil in Hlen.
  - intros loader tag_bundles loaded. unfold parseTagBundles.
    rewrite parse_bundles_Returned. cbn [app]. split.
    + intros (loaded' & -> & Hlen & Hk). split; [done|].
      intros k bd bundle Hbd Hbundle. by rewrite <- (Hk k bd bundle Hbd Hbundle).
    + intros [Hlen Hk]. exists loaded. do 2 (split; [done|]).
      intros k bd bundle Hbd Hbundle. by rewrite <- (Hk k bd bundle Hbd Hbundle).
  - intros loader i bd bundle Hrun.
    by destruct (parse_bundle_Returned _ _ _ _ Hrun).
Qed.

(** ** The pipeline, in full *)

(** X2: whatever the names of the bundles, the detection array holds the
    entries of the standalone tags in the order of the surviving detections,
    then, in the order of the configuration, an entry for each bundle under
    whose name points were pooled, solved from all the points pooled under
    that name. *)
Theorem detectTags_entries_in_order this fx fy cx cy (header : Header)
    (detections : list apriltag_detection_t) :
  Forall bundle_indexed (tag_bundle_descriptions_ this) →
  ∃ survivors,
    removeDuplicates detections = Returned survivors
    ∧ detectTags this detections fx fy cx cy header
      = Returned (mkAprilTagDetectionArray header
          ((survivors ≫= standalone_detection this fx fy cx cy header)
           ++ (bundle ← tag_bundle_descriptions_ this;
               bundle_detection fx fy cx cy header
                 (pooled_object_points (tag_bundle_descriptions_ this)
                    (name_ bundle) survivors)
                 (pooled_image_points (tag_bundle_descriptions_ this)
                    (name_ bundle) survivors) bundle))).
Proof.
  intros Hidx.
  destruct (detectTags_returns this detections fx fy cx cy header Hidx)
    as (survivors & st & Hrd & Hframe & ->).
  exists survivors. split; [done|].
  destruct (detect_frame_spec this fx fy cx cy header survivors Hidx)
    as (st' & Hframe' & Harr & _).
  rewrite Hframe in Hframe'. injection Hframe' as <-. by rewrite Harr.
Qed.

(** * Further properties of the code *)

(** ** The scan, whatever the sort *)

Lemma scan_with_neighbours (rest : list apriltag_detection_t) : ∀ prev dup,
  (∀ d rest', rest = d :: rest' →
     dup = bool_decide (prev = Some (detection_id d))) →
  scan dup rest
  = (λ t, t.1.2)
    <$> filter differs_from_neighbours
          (zip (zip (prev :: (Some ∘ detection_id <$> rest)) rest)
               (tail (detection_id <$> rest) ++ [(-1)%Z])).
Proof.
  induction rest as [|d rest' IH]; intros prev dup Hdup; [done|].
  specialize (Hdup d rest' eq_refl). subst dup.
  destruct rest' as [|d' rest''].
  - cbn [scan fmap list_fmap tail zip_with app].
    case_decide as Hnext.
    + rewrite filter_cons_False; [done|].
      unfold differs_from_neighbours. cbn. intros [_ ?]. done.
    + case_bool_decide as Hprev.
      * rewrite filter_cons_False; [done|].
        unfold differs_from_neighbours. cbn. intros [? _]. done.
      * rewrite filter_cons_True; [done|].
        unfold differs_from_neighbours. cbn. split; congruence.
  - pose proof (IH (Some (detection_id d)) true) as IHt.
    pose proof (IH (Some (detection_id d)) false) as IHf.
    change (scan (bool_decide (prev = Some (detection_id d))) (d :: d' :: rest''))
      with (if decide (detection_id d = detection_id d')
            then scan true (d' :: rest'')
            else if bool_decide (prev = Some (detection_id d))
                 then scan false (d' :: rest'')
                 else d :: scan false (d' :: rest'')).
    change (zip (zip (prev :: (Some ∘ detection_id <$> d :: d' :: rest''))
                   (d :: d' :: rest''))
              (tail (detection_id <$> d :: d' :: rest'') ++ [(-1)%Z]))
      with ((prev, d, detection_id d')
            :: zip (zip (Some (detection_id d)
                         :: (Some ∘ detection_id <$> d' :: rest''))
                      (d' :: rest''))
                 (tail (detection_id <$> d' :: rest'') ++ [(-1)%Z])).
    case_decide as Hnext.
    + rewrite filter_cons_False
        by (unfold differs_from_neighbours; cbn; intros [_ ?]; done).
      apply IHt. intros ? ? [= <- <-].
      rewrite bool_decide_eq_true_2; [done|]. by rewrite Hnext.
    + assert (scan false (d' :: rest'')
              = (λ t, t.1.2)
                <$> filter differs_from_neighbours
                      (zip (zip (Some (detection_id d)
                                 :: (Some ∘ detection_id <$> d' :: rest''))
                              (d' :: rest''))
                         (tail (detection_id <$> d' :: rest'') ++ [(-1)%Z])))
        as Hrest.
      { apply IHf. intros ? ? [= <- <-].
        rewrite bool_decide_eq_false_2; [done|]. intros [= ?]. done. }
      clear IHt IHf. case_bool_decide as Hprev.
      * rewrite filter_cons_False
          by (unfold differs_from_neighbours; cbn; intros [? _]; done).
        apply Hrest.
      * rewrite filter_cons_True
          by (unfold differs_from_neighbours; cbn; split; congruence).
        cbn [fmap list_fmap]. f_equal. apply Hrest.
Qed.

(** X4: whatever order [zarray_sort] leaves the array in, [removeDuplicates]
    returns, and returns exactly the detections of that array whose id
    differs from the id of the detection before and from the id of the
    detection after, -1 standing for the id after the last; so it returns a
    sublist of the array, and the array itself when no two neighbours share
    an id and the last id is not -1. *)
Theorem removeDuplicates_neighbours (detections : list apriltag_detection_t) :
  let za := zarray_sort idComparison detections in
  removeDuplicates detections
  = Returned ((λ t, t.1.2) <$> filter differs_from_neighbours (with_neighbours za))
  ∧ (∃ out, removeDuplicates detections = Returned out ∧ out `sublist_of` za)
  ∧ (Forall differs_from_neighbours (with_neighbours za) →
     removeDuplicates detections = Returned za).
Proof.
  intros za. rewrite removeDuplicates_scan. fold za.
  assert ((λ t : option Z * apriltag_detection_t * Z, t.1.2) <$> with_neighbours za
          = za) as Hza.
  { unfold with_neighbours.
    change (λ t : option Z * apriltag_detection_t * Z, t.1.2) with
      (snd ∘ (fst : option Z * apriltag_detection_t * Z → _)).
    rewrite list_fmap_compose, fst_zip.
    - apply snd_zip. cbn. rewrite length_fmap. lia.
    - rewrite length_zip_with, length_app.
      etrans; [apply Nat.le_min_r|].
      destruct za; cbn [fmap list_fmap tail length]; rewrite ?length_fmap; lia. }
  assert (scan false za
          = (λ t, t.1.2) <$> filter differs_from_neighbours (with_neighbours za))
    as Hscan.
  { apply scan_with_neighbours. intros d rest' _.
    by rewrite bool_decide_eq_false_2. }
  rewrite Hscan. split; [done|]. split.
  - eexists. split; [done|]. rewrite <- Hza at 2.
    apply fmap_sublist, sublist_filter.
  - intros Hall. by rewrite filter_all, Hza.
Qed.

(** ** Loading the standalone descriptions *)

Lemma parse_standalone_tag_Returned descriptions tag_description descriptions' :
  parse_standalone_tag descriptions tag_description = Returned descriptions' →
  ∃ description,
    declares tag_description description
    ∧ descriptions'
      = std_map_insert (standalone_id description) description descriptions.
Proof.
  unfold parse_standalone_tag, declares.
  destruct tag_description as [| | | | | | | |m]; try done.
  destruct (struct_member _ "id") as [| |id| | | | | |] eqn:Hid; try done.
  destruct (struct_member _ "size") as [| | |size| | | | |] eqn:Hsize; try done.
  intros (frame_name & Hname & [= <-])%bind_Returned.
  exists (mkStandaloneTagDescription id size frame_name).
  cbn [standalone_id standalone_size standalone_frame_name].
  repeat split; try done.
  unfold parse_frame_name in Hname.
  destruct (hasMember _ _).
  - destruct (struct_member _ "name"); try done. by injection Hname as ->.
  - by injection Hname as <-.
Qed.

Lemma parse_standalone_tag_readable descriptions tag_description :
  (readable_standalone_tag tag_description →
   ∃ descriptions',
     parse_standalone_tag descriptions tag_description = Returned descriptions')
  ∧ (¬ readable_standalone_tag tag_description →
     parse_standalone_tag descriptions tag_description = AssertFailed).
Proof.
  unfold parse_standalone_tag, readable_standalone_tag, parse_frame_name.
  destruct tag_description as [| | | | | | | |m]; try (by split).
  destruct (struct_member _ "id") as [| |id| | | | | |]; try (by split).
  destruct (struct_member _ "size") as [| | |size| | | | |]; try (by split).
  destruct (hasMember _ _); [|split; [by eauto|done]].
  destruct (struct_member _ "name"); cbn; try (by split).
  split; [by eauto|done].
Qed.

(** The descriptions after the loop: an id that was there keeps its
    description; an id that was not has the description declared by the
    first tag of its id, if there is one. *)
Lemma parse_standalone_tags_lookup a : ∀ descriptions descriptions',
  for_each parse_standalone_tag descriptions a = Returned descriptions' →
  ∀ id,
    match descriptions !! id with
    | Some description => descriptions' !! id = Some description
    | None =>
      (Forall (λ tag, declared_id tag ≠ Some id) a ∧ descriptions' !! id = None)
      ∨ ∃ k tag description,
          a !! k = Some tag
          ∧ declares tag description
          ∧ standalone_id description = id
          ∧ (∀ j tag', (j < k)%nat → a !! j = Some tag' →
                        declared_id tag' ≠ Some id)
          ∧ descriptions' !! id = Some description
    end.
Proof.
  induction a as [|tag a IH]; intros descriptions descriptions' Hrun id.
  { injection Hrun as <-. destruct (descriptions !! id); [done|]. by left. }
  cbn [for_each] in Hrun. apply bind_Returned in Hrun as (m1 & Htag & Hrun).
  apply parse_standalone_tag_Returned in Htag as (description & Hdecl & ->).
  specialize (IH _ _ Hrun id). unfold std_map_insert in IH.
  assert (declared_id tag = Some (standalone_id description)) as Hdid.
  { unfold declared_id. by destruct Hdecl as [-> _]. }
  destruct (descriptions !! id) as [d|] eqn:Hid.
  - destruct (descriptions !! standalone_id description) eqn:Hsid;
      [by rewrite Hid in IH|].
    destruct (decide (standalone_id description = id)) as [Heq|Hne].
    + rewrite Heq in Hsid. congruence.
    + by rewrite lookup_insert_ne, Hid in IH.
  - destruct (decide (standalone_id description = id)) as [Heq|Hne].
    + subst id. rewrite Hid, lookup_insert_eq in IH. right.
      exists 0%nat, tag, description.
      refine (conj eq_refl (conj Hdecl (conj eq_refl (conj _ IH)))).
      intros; lia.
    + assert ((match descriptions !! standalone_id description with
               | Some _ => descriptions
               | None => <[standalone_id description:=description]> descriptions
               end) !! id = None) as Hstill.
      { destruct (descriptions !! standalone_id description); [done|].
        by rewrite lookup_insert_ne. }
      rewrite Hstill in IH.
      destruct IH as [[Hnone Hlook]|(k & tag' & d & Hk & Hd & Hdid' & Hfirst & Hlook)].
      * left. split; [|done]. apply Forall_cons. split; [|done].
        rewrite Hdid. congruence.
      * right. exists (S k), tag', d.
        refine (conj Hk (conj Hd (conj Hdid' (conj _ Hlook)))).
        intros [|j] tag'' Hj; cbn.
        -- intros [= <-]. rewrite Hdid. congruence.
        -- apply Hfirst. lia.
Qed.

(** X5: of several standalone tags that declare the same id,
    [parseStandaloneTags] keeps the first and reports no error. After a load
    that returns, [findStandaloneTagDescription] finds for an id what the
    first tag of this id declares (its size, and its name or "tag_id"), and
    finds nothing for an id that no tag declares. *)
Theorem parseStandaloneTags_first_declaration standalone_tags descriptions
    (bundles : list TagBundleDescription) (printWarning : bool) :
  parseStandaloneTags standalone_tags = Returned descriptions →
  ∃ a,
    standalone_tags = TypeArray a
    ∧ ∀ id,
        (Forall (λ tag, declared_id tag ≠ Some id) a →
         findStandaloneTagDescription (mkTagDetector descriptions bundles)
           id printWarning = None)
        ∧ (∀ k tag,
             a !! k = Some tag →
             declared_id tag = Some id →
             (∀ j tag', (j < k)%nat → a !! j = Some tag' →
                        declared_id tag' ≠ Some id) →
             ∃ description,
               findStandaloneTagDescription (mkTagDetector descriptions bundles)
                 id printWarning = Some description
               ∧ declares tag description).
Proof.
  unfold parseStandaloneTags, findStandaloneTagDescription.
  cbn [standalone_tag_descriptions_].
  destruct standalone_tags as [| | | | | | |a|]; try done.
  intros Hrun. exists a. split; [done|]. intros id.
  pose proof (parse_standalone_tags_lookup _ _ _ Hrun id) as Hlook.
  rewrite lookup_empty in Hlook.
  destruct Hlook as [[Hnone Hlook]|(k & tag & d & Hk & Hd & Hdid & Hfirst & Hlook)].
  - split; [done|]. intros k tag Hk Hid _.
    rewrite Forall_lookup in Hnone. by destruct (Hnone k tag Hk).
  - split.
    + intros Hnone. rewrite Forall_lookup in Hnone.
      destruct (Hnone k tag Hk). unfold declared_id.
      destruct Hd as [-> _]. by rewrite Hdid.
    + intros k' tag' Hk' Hid' Hfirst'.
      assert (declared_id tag = Some id) as Hid.
      { unfold declared_id. destruct Hd as [-> _]. by rewrite Hdid. }
      destruct (Nat.lt_trichotomy k k') as [Hlt|[->|Hgt]].
      * by destruct (Hfirst' k tag Hlt Hk).
      * rewrite Hk in Hk'. injection Hk' as <-. eauto.
      * by destruct (Hfirst k' tag' Hgt Hk').
Qed.

(** X6: in a build with assertions enabled, [parseStandaloneTags] returns
    exactly for an array whose entries are all readable (a struct with an
    [int] id, a [double] size and, if named, a string name); on every other
    value one of its assertions fails, which stops the process. It asks
    nothing else of an entry, so a repeated id or a size that is not
    positive does not stop it. The ids it then describes are those the
    entries declare. *)
Theorem parseStandaloneTags_readable standalone_tags :
  ((∃ descriptions, parseStandaloneTags standalone_tags = Returned descriptions)
   ↔ ∃ a, standalone_tags = TypeArray a
          ∧ Forall (λ tag, readable_standalone_tag tag) a)
  ∧ (parseStandaloneTags standalone_tags = AssertFailed
     ↔ ¬ ∃ a, standalone_tags = TypeArray a
              ∧ Forall (λ tag, readable_standalone_tag tag) a)
  ∧ (∀ a descriptions,
       parseStandaloneTags (TypeArray a) = Returned descriptions →
       ∀ id, is_Some (descriptions !! id) ↔ Some id ∈ declared_id <$> a).
Proof.
  assert (∀ a descriptions,
            (Forall (λ tag, readable_standalone_tag tag) a →
             ∃ descriptions',
               for_each parse_standalone_tag descriptions a = Returned descriptions')
            ∧ (¬ Forall (λ tag, readable_standalone_tag tag) a →
               for_each parse_standalone_tag descriptions a = AssertFailed))
    as Hloop.
  { induction a as [|tag a IH]; intros descriptions.
    { split; [by eauto|]. intros []. constructor. }
    cbn [for_each].
    destruct (parse_standalone_tag_readable descriptions tag) as [Hok Hfail].
    split.
    - intros [Htag Ha]%Forall_cons. destruct (Hok Htag) as [m1 ->].
      cbn [mbind outcome_bind]. by apply IH.
    - intros Hnot. destruct (decide (readable_standalone_tag tag)) as [Htag|Htag].
      + destruct (Hok Htag) as [m1 ->]. cbn [mbind outcome_bind].
        apply IH. intros Ha. apply Hnot. by constructor.
      + by rewrite Hfail. }
  split; [|split].
  - split.
    + intros [descriptions Hrun]. unfold parseStandaloneTags in Hrun.
      destruct standalone_tags as [| | | | | | |a|]; try done.
      exists a. split; [done|].
      destruct (decide (Forall (λ tag, readable_standalone_tag tag) a)) as [|Hnot];
        [done|].
      destruct (Hloop a ∅) as [_ Hfail]. by rewrite Hfail in Hrun.
    + intros (a & -> & Ha). by apply Hloop.
  - split.
    + intros Hrun (a & -> & Ha). destruct (Hloop a ∅) as [Hok _].
      destruct (Hok Ha) as [m Hm]. unfold parseStandaloneTags in Hrun.
      by rewrite Hm in Hrun.
    + intros Hnot. unfold parseStandaloneTags.
      destruct standalone_tags as [| | | | | | |a|]; try done.
      apply Hloop. intros Ha. apply Hnot. eauto.
  - intros a descriptions Hrun id. unfold parseStandaloneTags in Hrun.
    pose proof (parse_standalone_tags_lookup _ _ _ Hrun id) as Hlook.
    rewrite lookup_empty in Hlook. rewrite list_elem_of_fmap.
    destruct Hlook as [[Hnone ->]|(k & tag & d & Hk & Hd & Hdid & _ & ->)].
    + split; [by intros [? [=]]|]. intros (tag & Hid & Hin).
      rewrite Forall_forall in Hnone. by destruct (Hnone tag Hin).
    + split; [|by eauto]. intros _. exists tag. split.
      * unfold declared_id. destruct Hd as [-> _]. by rewrite Hdid.
      * by eapply list_elem_of_lookup_2.
Qed.

(** ** What a loaded bundle lists *)

Lemma parse_member_tag_member this bundle_i tag bundle' :
  parse_member_tag this bundle_i tag = Returned bundle' →
  ∃ member,
    tags_ bundle' = tags_ bundle_i ++ [member]
    ∧ name_ bundle' = name_ bundle_i
    ∧ declared_member tag = [(member_id member, member_size member)]
    ∧ size_agrees this member.
Proof.
  intros Hrun. pose proof Hrun as Hcheck.
  rewrite parse_member_tag_check in Hcheck.
  case_decide as Hmis; [done|]. clear Hcheck.
  apply parse_member_tag_Returned in Hrun as (id & size & T_mj & -> & Hdecl).
  exists (mkTagPoseDescription id size T_mj).
  split; [done|]. split; [done|]. split; [done|].
  intros description Hdesc. cbn [member_id member_size] in *.
  destruct (decide (size = standalone_size description)) as [|Hne]; [done|].
  destruct Hmis. rewrite Hdecl. apply Exists_cons. left. by exists description.
Qed.

Lemma parse_member_tags_members this member_tags : ∀ bundle_i bundle',
  for_each (parse_member_tag this) bundle_i member_tags = Returned bundle' →
  name_ bundle' = name_ bundle_i
  ∧ ∃ members,
      tags_ bundle' = tags_ bundle_i ++ members
      ∧ length members = length member_tags
      ∧ (λ member, (member_id member, member_size member)) <$> members
        = member_tags ≫= declared_member
      ∧ Forall (size_agrees this) members.
Proof.
  induction member_tags as [|tag member_tags IH]; intros bundle_i bundle' Hrun.
  { injection Hrun as <-. split; [done|]. exists []. by rewrite app_nil_r. }
  cbn [for_each] in Hrun. apply bind_Returned in Hrun as (bundle1 & Htag & Hrun).
  apply parse_member_tag_member in Htag as (member & Htags & Hname & Hdecl & Hsize).
  destruct (IH _ _ Hrun) as (Hname' & members & Htags' & Hlen & Hpairs & Hsizes).
  split; [congruence|]. exists (member :: members).
  rewrite Htags', Htags, <- app_assoc. split; [done|].
  split; [cbn; by rewrite Hlen|]. split.
  - by rewrite bind_cons, Hdecl, fmap_cons, Hpairs.
  - by constructor.
Qed.

Lemma parse_bundle_members this i bundle_description bundle :
  parse_bundle this i bundle_description = Returned bundle →
  parse_bundle_name i bundle_description = Returned (name_ bundle)
  ∧ (∃ member_tags,
       struct_member bundle_description "layout" = TypeArray member_tags
       ∧ length (tags_ bundle) = length member_tags)
  ∧ (λ member, (member_id member, member_size member)) <$> tags_ bundle
    = declared_layout bundle_description
  ∧ Forall (size_agrees this) (tags_ bundle).
Proof.
  unfold parse_bundle, declared_layout. destruct bundle_description; try done.
  intros (bundleName & Hname & Hrun)%bind_Returned.
  destruct (struct_member _ "layout") as [| | | | | | |member_tags|]; try done.
  apply parse_member_tags_members in Hrun
    as (Hname' & members & Htags & Hlen & Hpairs & Hsizes).
  cbn [name_ tags_ app] in Hname', Htags. rewrite Hname', Htags.
  split; [done|]. split; [by eauto|]. by split.
Qed.

Lemma parseTagBundles_members this tag_bundles descriptions :
  parseTagBundles this tag_bundles = Returned descriptions →
  ∃ a,
    tag_bundles = TypeArray a
    ∧ length descriptions = length a
    ∧ ∀ k bundle_description bundle,
        a !! k = Some bundle_description →
        descriptions !! k = Some bundle →
        parse_bundle this (Z.of_nat k) bundle_description = Returned bundle.
Proof.
  unfold parseTagBundles. destruct tag_bundles as [| | | | | | |a|]; try done.
  intros (loaded' & -> & Hlen & Hk)%parse_bundles_Returned. cbn [app].
  exists a. split; [done|]. split; [done|]. intros k bd bundle Hbd Hbundle.
  by rewrite <- (Hk k bd bundle Hbd Hbundle).
Qed.

Lemma parseTagBundles_sizes_agree this tag_bundles descriptions :
  parseTagBundles this tag_bundles = Returned descriptions →
  Forall (λ bundle, Forall (size_agrees this) (tags_ bundle)) descriptions.
Proof.
  intros (a & -> & Hlen & Hk)%parseTagBundles_members.
  apply Forall_lookup. intros k bundle Hbundle.
  destruct (lookup_lt_is_Some_2 a k) as [bd Hbd];
    [rewrite <- Hlen; by eapply lookup_lt_Some|].
  by destruct (parse_bundle_members _ _ _ _ (Hk k bd bundle Hbd Hbundle))
    as (_ & _ & _ & ?).
Qed.

Lemma parseStandaloneTags_no_fuel standalone_tags :
  parseStandaloneTags standalone_tags ≠ OutOfFuel.
Proof.
  unfold parseStandaloneTags. destruct standalone_tags; try done.
  apply for_each_no_fuel. intros descriptions tag.
  unfold parse_standalone_tag. destruct tag; try done.
  destruct (struct_member _ "id"); try done.
  destruct (struct_member _ "size"); try done.
  apply bind_no_fuel; [|done]. unfold parse_frame_name.
  destruct (hasMember _ _); [|done]. by destruct (struct_member _ _).
Qed.

Lemma parseTagBundles_no_fuel this tag_bundles :
  parseTagBundles this tag_bundles ≠ OutOfFuel.
Proof.
  unfold parseTagBundles. destruct tag_bundles as [| | | | | | |a|]; try done.
  generalize 0%Z (@nil TagBundleDescription).
  induction a as [|b a IH]; intros i descriptions; [done|].
  cbn [parse_bundles]. apply bind_no_fuel; [apply parse_bundle_no_fuel|].
  intros bundle_i. apply IH.
Qed.

(** ** Construction *)

Lemma TagDetector_constructor_cases pnh family_ :
  TagDetector_constructor pnh family_ = assertion_failed
  ∧ ((∃ standalone_tags,
        pnh !! "standalone_tags" = Some standalone_tags
        ∧ parseStandaloneTags standalone_tags = AssertFailed)
     ∨ ∃ standalone tag_bundles,
         match pnh !! "standalone_tags" with
         | None => standalone = ∅
         | Some standalone_tags =>
           parseStandaloneTags standalone_tags = Returned standalone
         end
         ∧ pnh !! "tag_bundles" = Some tag_bundles
         ∧ parseTagBundles (mkTagDetector standalone []) tag_bundles
           = AssertFailed)
  ∨ ∃ this,
      loaded_sections pnh this
      ∧ ((∃ tf_ camera_tf_frame_,
            TagDetector_constructor pnh family_
            = Constructed this tf_ camera_tf_frame_
            ∧ family_ ∈ tag_families)
         ∨ (TagDetector_constructor pnh family_ = exit 1
            ∧ family_ ∉ tag_families)).
Proof.
  unfold TagDetector_constructor, loaded_sections.
  assert (∀ standalone,
            match pnh !! "standalone_tags" with
            | None => Returned ∅
            | Some v => parseStandaloneTags v
            end = Returned standalone →
            match pnh !! "standalone_tags" with
            | None => standalone = ∅
            | Some v => parseStandaloneTags v = Returned standalone
            end) as Hstandalone.
  { intros standalone. destruct (pnh !! "standalone_tags"); [done|].
    by intros [= <-]. }
  destruct (match pnh !! "standalone_tags" with
            | None => Returned ∅
            | Some v => parseStandaloneTags v
            end) as [standalone| |] eqn:Hs; cbn [mbind outcome_bind].
  - specialize (Hstandalone standalone eq_refl).
    destruct (pnh !! "tag_bundles") as [v|] eqn:Hv; cbn [mbind outcome_bind].
    + destruct (parseTagBundles (mkTagDetector standalone []) v)
        as [bundles| |] eqn:Hb; cbn [mbind outcome_bind].
      * right. exists (mkTagDetector standalone bundles).
        cbn [standalone_tag_descriptions_ tag_bundle_descriptions_].
        split; [done|]. unfold tag_families. rewrite !not_elem_of_cons.
        repeat case_decide; subst;
          try (left; eexists _, _; split; [done|];
               repeat (first [by left|right])).
        right. split; [done|]. repeat split; try done. apply not_elem_of_nil.
      * left. split; [done|]. right. by exists standalone, v.
      * by apply parseTagBundles_no_fuel in Hb.
    + right. exists (mkTagDetector standalone []).
      cbn [standalone_tag_descriptions_ tag_bundle_descriptions_].
      split; [done|]. unfold tag_families. rewrite !not_elem_of_cons.
      repeat case_decide; subst;
        try (left; eexists _, _; split; [done|];
             repeat (first [by left|right])).
      right. split; [done|]. repeat split; try done. apply not_elem_of_nil.
  - left. split; [done|]. left.
    destruct (pnh !! "standalone_tags") as [v|]; [eauto|done].
  - destruct (pnh !! "standalone_tags") as [v|]; [|done].
    by apply parseStandaloneTags_no_fuel in Hs.
Qed.

Lemma TagDetector_constructor_Constructed pnh family_ this tf_ camera_tf_frame_ :
  TagDetector_constructor pnh family_ = Constructed this tf_ camera_tf_frame_ →
  loaded_sections pnh this ∧ family_ ∈ tag_families.
Proof.
  intros Hctor.
  destruct (TagDetector_constructor_cases pnh family_)
    as [[Hfail _]|(this' & Hloaded & [(tf' & cam' & Hbuilt & Hfam)|[Hexit _]])];
    rewrite Hctor in *; try done.
  by injection Hbuilt as -> _ _.
Qed.

(** X7: in a build with assertions enabled, in every detector that the
    constructor builds, whatever the parameters, each bundle's reverse index
    leads into its member list and each member of a bundle has the size of
    the standalone description of its id, if there is one; and [detectTags]
    of such a detector returns a detection array for every frame. *)
Theorem TagDetector_constructor_invariant pnh family_ this tf_ camera_tf_frame_ :
  TagDetector_constructor pnh family_ = Constructed this tf_ camera_tf_frame_ →
  Forall bundle_indexed (tag_bundle_descriptions_ this)
  ∧ sizes_agree this
  ∧ ∀ detections fx fy cx cy (header : Header),
      ∃ array, detectTags this detections fx fy cx cy header = Returned array.
Proof.
  intros [[_ Hbundles] _]%TagDetector_constructor_Constructed.
  assert (Forall bundle_indexed (tag_bundle_descriptions_ this)) as Hidx.
  { destruct (pnh !! "tag_bundles") as [v|].
    - by eapply parseTagBundles_indexed.
    - rewrite Hbundles. constructor. }
  split; [done|]. split.
  - unfold sizes_agree. destruct (pnh !! "tag_bundles") as [v|].
    + apply parseTagBundles_sizes_agree in Hbundles.
      eapply Forall_impl; [exact Hbundles|]. intros bundle Hbundle.
      eapply Forall_impl; [exact Hbundle|]. intros member Hmember.
      exact Hmember.
    + rewrite Hbundles. constructor.
  - intros detections fx fy cx cy header.
    destruct (detectTags_returns this detections fx fy cx cy header Hidx)
      as (survivors & st & _ & _ & ->). eauto.
Qed.

(** X8: in a build with assertions the constructor ends in one of three
    ways, whatever the parameters. It is stopped by a failed assertion
    exactly when a section that is set fails to load, the bundles being
    loaded against the standalone descriptions just loaded: no handler takes
    the failure, and no section is left empty for it. Otherwise it leaves
    the process, with status 1, exactly when the family is none of the five
    it knows; and the detector it builds otherwise holds what the loaders
    returned for the sections that are set, and nothing for those that are
    not. *)
Theorem TagDetector_constructor_sections pnh family_ :
  (TagDetector_constructor pnh family_ = assertion_failed
   ↔ (∃ standalone_tags,
        pnh !! "standalone_tags" = Some standalone_tags
        ∧ parseStandaloneTags standalone_tags = AssertFailed)
     ∨ ∃ standalone tag_bundles,
         match pnh !! "standalone_tags" with
         | None => standalone = ∅
         | Some standalone_tags =>
           parseStandaloneTags standalone_tags = Returned standalone
         end
         ∧ pnh !! "tag_bundles" = Some tag_bundles
         ∧ parseTagBundles (mkTagDetector standalone []) tag_bundles
           = AssertFailed)
  ∧ (∀ status,
       TagDetector_constructor pnh family_ = exit status
       ↔ status = 1%Z
         ∧ (family_ ∉ tag_families)
         ∧ TagDetector_constructor pnh family_ ≠ assertion_failed)
  ∧ (∀ this tf_ camera_tf_frame_,
       TagDetector_constructor pnh family_
       = Constructed this tf_ camera_tf_frame_ →
       loaded_sections pnh this ∧ family_ ∈ tag_families).
Proof.
  pose proof (TagDetector_constructor_cases pnh family_) as Hcases.
  split; [|split].
  - split.
    + intros Hstop.
      destruct Hcases
        as [[_ Hwhy]|(this & _ & [(tf_ & cam & Hbuilt & _)|[Hexit _]])];
        [done|by rewrite Hstop in Hbuilt|by rewrite Hstop in Hexit].
    + intros [(sv & Hsv & Hfail)|(standalone & v & Hs & Hv & Hfail)].
      * unfold TagDetector_constructor. by rewrite Hsv, Hfail.
      * by eapply TagDetector_constructor_stopped.
  - intros status. split.
    + intros Hexit.
      destruct Hcases
        as [[Hstop _]|(this & _ & [(tf_ & cam & Hbuilt & _)|[Hexit' Hfam]])];
        [by rewrite Hexit in Hstop|by rewrite Hexit in Hbuilt|].
      rewrite Hexit in Hexit'. injection Hexit' as ->.
      split; [done|]. split; [done|]. by rewrite Hexit.
    + intros (-> & Hfam & Hrun).
      by destruct Hcases
        as [[Hstop _]|(this & _ & [(tf_ & cam & _ & Hin)|[Hexit' _]])].
  - intros this tf_ cam Hbuilt. by eapply TagDetector_constructor_Constructed.
Qed.

(** ** Drawing the detections *)

Lemma is_part_of_bundle_Exists tagID bundles :
  is_part_of_bundle tagID bundles = true
  ↔ Exists (λ bundle, is_member bundle tagID) bundles.
Proof.
  induction bundles as [|bundle bundles IH]; cbn [is_part_of_bundle].
  { split; [done|]. by intros ?%Exists_nil. }
  rewrite Exists_cons. unfold is_member at 1. case_decide as Hin.
  - split; [by left|done].
  - rewrite IH. split; [by right|]. by intros [?|?].
Qed.

Lemma draw_detection_app det image :
  draw_detection det image = image ++ draw_detection det []
  ∧ length (draw_detection det []) = 5%nat.
Proof.
  unfold draw_detection, push_back.
  destruct (getTextSize _ _ _ _) as [textsize_width textsize_height].
  by rewrite <- !app_assoc.
Qed.

Lemma drawDetections_iteration_described this image det :
  drawDetections_iteration this image det
  = if decide (described this det) then image ++ draw_detection det [] else image.
Proof.
  unfold drawDetections_iteration, described, findStandaloneTagDescription.
  destruct (is_part_of_bundle _ _) eqn:Hpart; cbn [negb andb].
  - apply is_part_of_bundle_Exists in Hpart.
    rewrite decide_True by (by right). apply draw_detection_app.
  - assert (¬ Exists (λ bundle, is_member bundle (detection_id det))
                (tag_bundle_descriptions_ this)) as Hnone.
    { rewrite <- is_part_of_bundle_Exists. by rewrite Hpart. }
    case_bool_decide as Hstandalone; cbn [negb].
    + rewrite decide_True by (by left). apply draw_detection_app.
    + rewrite decide_False; [done|]. by intros [?|?].
Qed.

(** X9: [drawDetections] adds to the image, in the order of the detections,
    the five drawing calls (four edges and the id) of each detection that the
    configuration describes, as a standalone tag or as a member of a bundle,
    and nothing for any other detection; what was drawn before stays. *)
Theorem drawDetections_described this detections image :
  drawDetections this detections image
  = image ++ (filter (described this) detections ≫= λ det, draw_detection det [])
  ∧ length (drawDetections this detections image)
    = (length image + 5 * length (filter (described this) detections))%nat
  ∧ (Forall (λ det, ¬ described this det) detections →
     drawDetections this detections image = image).
Proof.
  assert (∀ image,
            drawDetections this detections image
            = image ++ (filter (described this) detections
                        ≫= λ det, draw_detection det [])) as Hdraw.
  { unfold drawDetections. induction detections as [|det detections IH];
      intros image'; cbn [foldl].
    { by rewrite app_nil_r. }
    rewrite IH, drawDetections_iteration_described.
    case_decide as Hdet.
    - by rewrite filter_cons_True, bind_cons, app_assoc.
    - by rewrite filter_cons_False. }
  split; [done|]. split.
  - rewrite Hdraw, length_app. f_equal. clear Hdraw.
    induction (filter (described this) detections) as [|det l IH]; [done|].
    rewrite bind_cons, length_app, IH.
    destruct (draw_detection_app det []) as [_ ->]. cbn [length]. lia.
  - intros Hnone. by rewrite Hdraw, filter_none, app_nil_r.
Qed.

Lemma appended_changes {A} (o : option (list A)) (l : list A) :
  l ≠ [] → appended o l ≠ o.
Proof.
  destruct l as [|a l]; [done|]. intros _. unfold appended.
  destruct o as [x|]; [|done]. cbn. intros [= Heq].
  apply (f_equal length) in Heq. rewrite length_app in Heq. cbn in Heq. lia.
Qed.

(** X10: for a detector whose bundles are indexed, a detection is drawn by
    [drawDetections] exactly when it counts in [detectTags]: the detections
    that leave the image as it was are those that leave the detection array,
    the names and the points gathered for the bundles as they were, and
    those are the detections that the configuration does not describe. *)
Theorem drawn_iff_processed this fx fy cx cy (header : Header) st det image :
  Forall bundle_indexed (tag_bundle_descriptions_ this) →
  (drawDetections_iteration this image det = image
   ↔ process_detection this fx fy cx cy header st det = Returned st)
  ∧ (drawDetections_iteration this image det = image ↔ ¬ described this det).
Proof.
  intros Hidx.
  assert (drawDetections_iteration this image det = image ↔ ¬ described this det)
    as Hdrawn.
  { rewrite drawDetections_iteration_described. case_decide as Hdet.
    - split; [|done]. intros Heq. apply (f_equal length) in Heq.
      rewrite length_app in Heq. destruct (draw_detection_app det []) as [_ Hlen].
      rewrite Hlen in Heq. lia.
    - done. }
  split; [|done]. rewrite Hdrawn. split.
  - intros Hnot. apply process_detection_unrecognized.
    + destruct (standalone_tag_descriptions_ this !! detection_id det) eqn:Hs;
        [|done].
      destruct Hnot. left. unfold is_Some. rewrite Hs. eauto.
    + apply Forall_forall. intros bundle Hin Hmem. apply Hnot. right.
      apply Exists_exists. eauto.
  - intros Hsame [Hstandalone|Hbundle].
    + destruct (process_detection_spec this fx fy cx cy header st det Hidx)
        as (st' & Hrun & Harr & _).
      rewrite Hsame in Hrun. injection Hrun as <-.
      unfold standalone_detection in Harr.
      destruct Hstandalone as [description Hdesc]. rewrite Hdesc in Harr.
      apply (f_equal length) in Harr. rewrite length_app in Harr.
      cbn in Harr. lia.
    + apply Exists_exists in Hbundle as (bundle & Hin & Hmem).
      destruct (process_detection_spec this fx fy cx cy header st det Hidx)
        as (st' & Hrun & _ & _ & _ & Himg).
      rewrite Hsame in Hrun. injection Hrun as <-.
      specialize (Himg (name_ bundle)). symmetry in Himg.
      apply appended_changes in Himg; [done|].
      intros Hnil.
      assert (∃ point, point ∈ member_image_points det) as [point Hpoint].
      { unfold member_image_points, addImagePoints, push_back. cbn.
        repeat destruct (homography_project _ _ _). eexists. by left. }
      assert (point ∈ contributed_image_points (tag_bundle_descriptions_ this)
                        (name_ bundle) det) as Hcontra.
      { unfold contributed_image_points. apply list_elem_of_bind.
        exists bundle. split; [|done]. by rewrite decide_True. }
      rewrite Hnil in Hcontra. by apply elem_of_nil in Hcontra.
Qed.

(** ** Broadcasting the transforms *)

Lemma estimate_bundles_names fx fy cx cy (header : Header) bundles : ∀ st,
  (∀ n, bundleObjectPoints st !! n ≠ Some []) →
  detection_names (foldl (estimate_bundle fx fy cx cy header) st bundles)
  = detection_names st
    ++ (bundle ← bundles;
        bundle_frame_name (at_key (bundleObjectPoints st) (name_ bundle)) bundle).
Proof.
  induction bundles as [|bundle bundles IH]; intros st Hne.
  - cbn. by rewrite app_nil_r.
  - cbn [foldl]. rewrite bind_cons.
    set (st1 := estimate_bundle fx fy cx cy header st bundle).
    assert (Hst1 : detection_names st1
              = detection_names st
                ++ bundle_frame_name
                     (at_key (bundleObjectPoints st) (name_ bundle)) bundle
              ∧ bundleObjectPoints st1 = bundleObjectPoints st).
    { unfold st1, estimate_bundle, bundle_frame_name, at_key.
      specialize (Hne (name_ bundle)).
      destruct (bundleObjectPoints st !! name_ bundle) as [[|p pts]|]; cbn;
        rewrite ?app_nil_r; done. }
    destruct Hst1 as (Hnames & HO).
    rewrite IH by (by rewrite HO). rewrite Hnames, HO, <- app_assoc. done.
Qed.

Lemma standalone_names_length this fx fy cx cy (header : Header) detections :
  length (detections ≫= standalone_name this)
  = length (detections ≫= standalone_detection this fx fy cx cy header).
Proof.
  induction detections as [|d detections IH]; [done|].
  rewrite !bind_cons, !length_app, IH. f_equal.
  unfold standalone_name, standalone_detection.
  by destruct (standalone_tag_descriptions_ this !! detection_id d).
Qed.

Lemma bundle_names_length fx fy cx cy (header : Header)
    (O : TagBundleDescription → list Point3d)
    (I : TagBundleDescription → list Point2d) (bundles : list TagBundleDescription) :
  length (bundle ← bundles; bundle_frame_name (O bundle) bundle)
  = length (bundle ← bundles;
            bundle_detection fx fy cx cy header (O bundle) (I bundle) bundle).
Proof.
  induction bundles as [|bundle bundles IH]; [done|].
  rewrite !bind_cons, !length_app, IH. f_equal.
  unfold bundle_frame_name, bundle_detection. by destruct (O bundle).
Qed.

Lemma detect_frame_names this fx fy cx cy (header : Header) detections :
  Forall bundle_indexed (tag_bundle_descriptions_ this) →
  ∃ st,
    detect_frame this fx fy cx cy header detections = Returned st
    ∧ detection_names st
      = (detections ≫= standalone_name this)
        ++ (bundle ← tag_bundle_descriptions_ this;
            bundle_frame_name
              (pooled_object_points (tag_bundle_descriptions_ this)
                 (name_ bundle) detections) bundle)
    ∧ length (detection_names st) = length (tag_detection_array st).
Proof.
  intros Hidx.
  destruct (detect_frame_spec this fx fy cx cy header detections Hidx)
    as (st & Hrun & Harr & _).
  exists st. split; [done|].
  unfold detect_frame in Hrun.
  destruct (process_all_detections_spec this fx fy cx cy header detections
              (mkFrameState [] [] ∅ ∅) Hidx)
    as (st0 & Hrun0 & _ & Hnames & HO & _).
  rewrite Hrun0 in Hrun. cbn [mbind outcome_bind] in Hrun.
  injection Hrun as <-.
  cbn [detection_names bundleObjectPoints app] in Hnames, HO.
  assert (∀ n, at_key (bundleObjectPoints st0) n
               = pooled_object_points (tag_bundle_descriptions_ this) n detections)
    as HOk.
  { intros n. unfold at_key. rewrite HO, lookup_empty, appended_None.
    by destruct (pooled_object_points _ _ _). }
  assert (detection_names
            (foldl (estimate_bundle fx fy cx cy header) st0
               (tag_bundle_descriptions_ this))
          = (detections ≫= standalone_name this)
            ++ (bundle ← tag_bundle_descriptions_ this;
                bundle_frame_name
                  (pooled_object_points (tag_bundle_descriptions_ this)
                     (name_ bundle) detections) bundle)) as Hfinal.
  { rewrite estimate_bundles_names.
    - rewrite Hnames. f_equal. apply list_bind_ext; [|done].
      intros bundle. by rewrite HOk.
    - intros n. rewrite HO, lookup_empty, appended_None.
      by destruct (pooled_object_points _ _ _). }
  split; [done|]. rewrite Hfinal, Harr, !length_app. f_equal.
  - apply standalone_names_length.
  - apply bundle_names_length.
Qed.

Lemma sendTransforms_loop camera_tf_frame_ (st : frame_state) : ∀ n k sent,
  (k + n ≤ length (tag_detection_array st))%nat →
  (k + n ≤ length (detection_names st))%nat →
  for_each
    (λ sent i,
       tag_detection ← asserted (tag_detection_array st !! i);
       name ← asserted (detection_names st !! i);
       Returned (push_back sent
                   (mkStampedTransform (msg_pose tag_detection)
                      camera_tf_frame_ name)))
    sent (seq k n)
  = Returned
      (sent ++ zip_with (λ tag_detection name,
                           mkStampedTransform (msg_pose tag_detection)
                             camera_tf_frame_ name)
                 (take n (drop k (tag_detection_array st)))
                 (take n (drop k (detection_names st)))).
Proof.
  induction n as [|n IH]; intros k sent Harr Hnames.
  { cbn. by rewrite app_nil_r. }
  cbn [seq for_each].
  destruct (lookup_lt_is_Some_2 (tag_detection_array st) k) as [e He]; [lia|].
  destruct (lookup_lt_is_Some_2 (detection_names st) k) as [name Hname]; [lia|].
  rewrite He, Hname. cbn [asserted mbind outcome_bind].
  rewrite IH by lia.
  rewrite (drop_S _ _ _ He), (drop_S _ _ _ Hname). cbn [take zip_with].
  unfold push_back. by rewrite <- app_assoc.
Qed.

Lemma sendTransforms_short camera_tf_frame_ (st : frame_state) : ∀ n k sent,
  (k ≤ length (detection_names st))%nat →
  (length (detection_names st) < k + n)%nat →
  (k + n ≤ length (tag_detection_array st))%nat →
  for_each
    (λ sent i,
       tag_detection ← asserted (tag_detection_array st !! i);
       name ← asserted (detection_names st !! i);
       Returned (push_back sent
                   (mkStampedTransform (msg_pose tag_detection)
                      camera_tf_frame_ name)))
    sent (seq k n)
  = AssertFailed.
Proof.
  induction n as [|n IH]; intros k sent Hk Hshort Harr; [lia|].
  cbn [seq for_each].
  destruct (lookup_lt_is_Some_2 (tag_detection_array st) k) as [e He]; [lia|].
  rewrite He. cbn [asserted mbind outcome_bind].
  destruct (detection_names st !! k) as [name|] eqn:Hname.
  - cbn [asserted mbind outcome_bind]. apply lookup_lt_Some in Hname.
    apply IH; lia.
  - done.
Qed.

(** X11: the loop that broadcasts the transforms reads [detection_names] at
    the index of each entry of the detection array, and fails when the names
    are fewer than the entries. In [detectTags] they never are: for a
    detector whose bundles are indexed, with [publish_tf_] set one transform
    is sent per entry of the returned array, in order and with its pose,
    from the frame of the camera to the frame named after the standalone tag
    or the bundle of the entry; without [publish_tf_] none is sent. *)
Theorem detectTags_transforms_named this camera_tf_frame_ detections fx fy cx cy
    (header : Header) :
  Forall bundle_indexed (tag_bundle_descriptions_ this) →
  (∀ st, (length (detection_names st) < length (tag_detection_array st))%nat →
         sendTransforms camera_tf_frame_ st = AssertFailed)
  ∧ ∃ survivors array sent,
      removeDuplicates detections = Returned survivors
      ∧ detectTags this detections fx fy cx cy header = Returned array
      ∧ detectTags_transforms this false camera_tf_frame_ detections
          fx fy cx cy header = Returned []
      ∧ detectTags_transforms this true camera_tf_frame_ detections
          fx fy cx cy header = Returned sent
      ∧ transform_pose <$> sent = msg_pose <$> msg_detections array
      ∧ Forall (λ t, transform_frame_id t = camera_tf_frame_) sent
      ∧ transform_child_frame_id <$> sent
        = (survivors ≫= standalone_name this)
          ++ (bundle ← tag_bundle_descriptions_ this;
              bundle_frame_name
                (pooled_object_points (tag_bundle_descriptions_ this)
                   (name_ bundle) survivors) bundle).
Proof.
  intros Hidx. split.
  { intros st Hshort. unfold sendTransforms.
    apply sendTransforms_short; lia. }
  destruct (detectTags_returns this detections fx fy cx cy header Hidx)
    as (survivors & st & Hrd & Hframe & Hdetect).
  destruct (detect_frame_names this fx fy cx cy header survivors Hidx)
    as (st' & Hframe' & Hnames & Hlen).
  rewrite Hframe in Hframe'. injection Hframe' as <-.
  exists survivors, (mkAprilTagDetectionArray header (tag_detection_array st)).
  eexists. split; [done|]. split; [done|].
  unfold detectTags_transforms. rewrite Hrd. cbn [mbind outcome_bind].
  rewrite Hframe. cbn [mbind outcome_bind]. split; [done|].
  unfold sendTransforms. rewrite sendTransforms_loop by lia.
  rewrite !drop_0, firstn_all, <- Hlen, firstn_all. cbn [app msg_detections].
  split; [done|].
  assert (∀ (entries : list AprilTagDetection) (names : list string),
            length names = length entries →
            transform_pose
              <$> zip_with (λ tag_detection name,
                              mkStampedTransform (msg_pose tag_detection)
                                camera_tf_frame_ name) entries names
            = msg_pose <$> entries
            ∧ Forall (λ t, transform_frame_id t = camera_tf_frame_)
                (zip_with (λ tag_detection name,
                             mkStampedTransform (msg_pose tag_detection)
                               camera_tf_frame_ name) entries names)
            ∧ transform_child_frame_id
                <$> zip_with (λ tag_detection name,
                                mkStampedTransform (msg_pose tag_detection)
                                  camera_tf_frame_ name) entries names
              = names) as Hzip.
  { induction entries as [|e entries IH]; intros [|name names] Hl; try done.
    destruct (IH names) as (Hp & Hf & Hn); [by injection Hl|].
    cbn [zip_with fmap list_fmap]. split; [|split].
    - cbn. f_equal. apply Hp.
    - constructor; [done|]. apply Hf.
    - cbn. f_equal. apply Hn. }
  destruct (Hzip (tag_detection_array st) (detection_names st) Hlen)
    as (Hp & Hf & Hn).
  split; [done|]. split; [done|]. by rewrite Hn.
Qed.

(** ** The geometry of the correspondences *)

(** X13: whatever the size and the transform, the four object points of a
    tag are centred on the translation of the transform: the two corners of
    either diagonal add up to twice the translation. The last row of the
    transform plays no part, and with the opposite size the same four points
    come out starting from the opposite corner. *)
Theorem addObjectPoints_centred (s : F) (T_oi : Matx44d) :
  ∃ c0 c1 c2 c3,
    addObjectPoints s T_oi [] = [c0; c1; c2; c3]
    ∧ Point3d_plus c0 c2 = Point3d_plus (translation T_oi) (translation T_oi)
    ∧ Point3d_plus c1 c3 = Point3d_plus (translation T_oi) (translation T_oi)
    ∧ addObjectPoints (- s)%F T_oi [] = [c2; c3; c0; c1]
    ∧ ∀ T' objectPoints,
        get_minor_3_4 T' = get_minor_3_4 T_oi →
        addObjectPoints s T' objectPoints
        = objectPoints ++ [c0; c1; c2; c3].
Proof using F_ring.
  eexists _, _, _, _. split; [done|].
  destruct T_oi
    as [[[[[[r00 r01] r02] t0] [[[r10 r11] r12] t1]] [[[r20 r21] r22] t2]] r3].
  split; [|split; [|split]].
  - unfold Point3d_plus, translation, get_minor_3_4, Matx34d_times, row_times.
    cbn [Point3d_x Point3d_y Point3d_z]. f_equal; ring.
  - unfold Point3d_plus, translation, get_minor_3_4, Matx34d_times, row_times.
    cbn [Point3d_x Point3d_y Point3d_z]. f_equal; ring.
  - unfold addObjectPoints, push_back, get_minor_3_4, Matx34d_times, row_times.
    cbn [app]. repeat f_equal; ring.
  - intros T' objectPoints HT'. rewrite addObjectPoints_app. f_equal.
    unfold addObjectPoints. by rewrite HT'.
Qed.

(** X14: the pose of an entry is what the solver found, unchanged: its
    position is the translation that [cv::solvePnP] returns for the
    correspondences, the camera matrix built of [fx], [fy], [cx], [cy] and
    no distortion, and its orientation is the quaternion of the rotation
    that [cv::Rodrigues] makes of the solver's rotation vector. The
    transform in between has the rotation as its upper left block and
    (0, 0, 0, 1) as its last row. *)
Theorem pose_of_solvePnP (objectPoints : list Point3d)
    (imagePoints : list Point2d) (fx fy cx cy : F) (header : Header) :
  let cameraMatrix : Matx33d := ((fx, 0, cx), (0, fy, cy), (0, 0, 1))%F in
  let solved := solvePnP objectPoints imagePoints cameraMatrix (0, 0, 0, 0)%F in
  let transform := getRelativeTransform objectPoints imagePoints fx fy cx cy in
  makeTagPose transform (Quaterniond_of_rotation (block_3_3 transform)) header
  = mkPose header
      (mkPoint3d (solved.2.1.1) (solved.2.1.2) (solved.2.2))
      (Quaterniond_of_rotation (Rodrigues solved.1))
  ∧ block_3_3 transform = Rodrigues solved.1
  ∧ translation transform = mkPoint3d (solved.2.1.1) (solved.2.1.2) (solved.2.2)
  ∧ transform.2 = (0, 0, 0, 1)%F.
Proof.
  intros cameraMatrix solved transform.
  unfold transform, getRelativeTransform. fold cameraMatrix. fold solved.
  destruct solved as [rvec [[t0 t1] t2]]. cbn [fst snd].
  destruct (Rodrigues rvec)
    as [[[[R00 R01] R02] [[R10 R11] R12]] [[R20 R21] R22]].
  cbn [block_3_3 makeTagPose translation snd].
  split; [|done]. by destruct (Quaterniond_of_rotation _).
Qed.

(** ** What the loaded bundles are called and list *)

Lemma length_bind_declared_member (member_tags : list XmlRpcValue) :
  (length (member_tags ≫= declared_member) ≤ length member_tags)%nat.
Proof.
  induction member_tags as [|tag member_tags IH]; [done|].
  rewrite bind_cons, length_app. unfold declared_member at 1.
  destruct (struct_member tag "id"); cbn [length]; try lia.
  destruct (struct_member tag "size"); cbn [length]; lia.
Qed.

(** X15: after a load that returns, the bundles are those declared, in
    order; the k-th bundle is called by the "name" of its declaration, or
    "bundle_k" for want of one, and lists in [bundleIds] and [bundleSizes]
    the ids and sizes of the members of its "layout", in order, each of
    which has an [int] id and a [double] size. *)
Theorem parseTagBundles_lists_layout this tag_bundles descriptions :
  parseTagBundles this tag_bundles = Returned descriptions →
  ∃ a,
    tag_bundles = TypeArray a
    ∧ length descriptions = length a
    ∧ ∀ k bundle_description bundle,
        a !! k = Some bundle_description →
        descriptions !! k = Some bundle →
        (if hasMember bundle_description "name"
         then struct_member bundle_description "name" = TypeString (name_ bundle)
         else name_ bundle = "bundle_" +:+ pretty (Z.of_nat k))
        ∧ ∃ member_tags,
            struct_member bundle_description "layout" = TypeArray member_tags
            ∧ Forall2 (λ tag id, struct_member tag "id" = TypeInt id)
                member_tags (bundleIds bundle)
            ∧ Forall2 (λ tag size, struct_member tag "size" = TypeDouble size)
                member_tags (bundleSizes bundle).
Proof.
  intros (a & -> & Hlen & Hk)%parseTagBundles_members.
  exists a. split; [done|]. split; [done|].
  intros k bd bundle Hbd Hbundle.
  destruct (parse_bundle_members _ _ _ _ (Hk k bd bundle Hbd Hbundle))
    as (Hname & (member_tags & Hlayout & Hlength) & Hpairs & _).
  split.
  - unfold parse_bundle_name in Hname. destruct (hasMember bd "name").
    + destruct (struct_member bd "name"); try done. by injection Hname as ->.
    + by injection Hname as <-.
  - exists member_tags. split; [done|].
    unfold declared_layout in Hpairs. rewrite Hlayout in Hpairs.
    unfold bundleIds, bundleSizes. clear Hlayout Hname Hk Hbundle Hbd.
    revert Hlength Hpairs. generalize (tags_ bundle). clear bundle.
    induction member_tags as [|tag member_tags IH]; intros [|member members];
      try done.
    intros [= Hlength]. rewrite bind_cons, fmap_cons.
    unfold declared_member at 1.
    destruct (struct_member tag "id") as [| |id| | | | | |] eqn:Hid;
      try (cbn [app]; intros Hpairs; apply (f_equal length) in Hpairs;
           cbn [length] in Hpairs; rewrite length_fmap in Hpairs;
           pose proof (length_bind_declared_member member_tags); lia).
    destruct (struct_member tag "size") as [| | |size| | | | |] eqn:Hsize;
      try (cbn [app]; intros Hpairs; apply (f_equal length) in Hpairs;
           cbn [length] in Hpairs; rewrite length_fmap in Hpairs;
           pose proof (length_bind_declared_member member_tags); lia).
    cbn [app]. intros [= <- <- Hpairs]. destruct (IH members Hlength Hpairs).
    rewrite !fmap_cons. by split; constructor.
Qed.

(** X16: when no bundle of the configuration is given a name, the loaded
    bundles are called "bundle_0", "bundle_1", ... and so have pairwise
    distinct names. *)
Theorem unnamed_bundles_distinct_names this a descriptions :
  parseTagBundles this (TypeArray a) = Returned descriptions →
  Forall (λ bundle_description, hasMember bundle_description "name" = false) a →
  (∀ k bundle, descriptions !! k = Some bundle →
               name_ bundle = "bundle_" +:+ pretty (Z.of_nat k))
  ∧ NoDup (name_ <$> descriptions).
Proof.
  intros (a' & [= <-] & Hlen & Hk)%parseTagBundles_members Hunnamed.
  assert (∀ k bundle, descriptions !! k = Some bundle →
                      name_ bundle = "bundle_" +:+ pretty (Z.of_nat k)) as Hnames.
  { intros k bundle Hbundle.
    destruct (lookup_lt_is_Some_2 a k) as [bd Hbd];
      [rewrite <- Hlen; by eapply lookup_lt_Some|].
    destruct (parse_bundle_members _ _ _ _ (Hk k bd bundle Hbd Hbundle))
      as (Hname & _).
    unfold parse_bundle_name in Hname.
    rewrite Forall_lookup in Hunnamed. rewrite (Hunnamed k bd Hbd) in Hname.
    by injection Hname as <-. }
  split; [done|]. apply NoDup_alt. intros i j name Hi Hj.
  apply list_lookup_fmap_Some in Hi as (bi & -> & Hi).
  apply list_lookup_fmap_Some in Hj as (bj & Heq & Hj).
  rewrite (Hnames i bi Hi), (Hnames j bj Hj) in Heq.
  apply String.app_inj, pretty_Z_inj in Heq. lia.
Qed.

(** ** The pose of a member and the bundles that can be read *)

(** X18: a member tag is registered with the transform whose translation is
    its declared "x", "y", "z" (each 0 if absent), whose rotation is that of
    the normalised quaternion "qw", "qx", "qy", "qz" (1, 0, 0, 0 if absent)
    and whose last row is (0, 0, 0, 1); so the object points of the member,
    whatever its size, are centred on its declared position. *)
Theorem parse_member_tag_pose this bundle_i tag bundle' :
  parse_member_tag this bundle_i tag = Returned bundle' →
  ∃ member x y z qw qx qy qz,
    tags_ bundle' = tags_ bundle_i ++ [member]
    ∧ xmlRpcGetDoubleWithDefault tag "x" 0%F = Returned x
    ∧ xmlRpcGetDoubleWithDefault tag "y" 0%F = Returned y
    ∧ xmlRpcGetDoubleWithDefault tag "z" 0%F = Returned z
    ∧ xmlRpcGetDoubleWithDefault tag "qw" 1%F = Returned qw
    ∧ xmlRpcGetDoubleWithDefault tag "qx" 0%F = Returned qx
    ∧ xmlRpcGetDoubleWithDefault tag "qy" 0%F = Returned qy
    ∧ xmlRpcGetDoubleWithDefault tag "qz" 0%F = Returned qz
    ∧ translation (member_T_oi member) = mkPoint3d x y z
    ∧ block_3_3 (member_T_oi member)
      = Quaterniond_toRotationMatrix
          (Quaterniond_normalize (mkQuaterniond qw qx qy qz))
    ∧ (member_T_oi member).2 = (0, 0, 0, 1)%F
    ∧ ∀ s, ∃ c0 c1 c2 c3,
        addObjectPoints s (member_T_oi member) [] = [c0; c1; c2; c3]
        ∧ Point3d_plus c0 c2 = Point3d_plus (mkPoint3d x y z) (mkPoint3d x y z)
        ∧ Point3d_plus c1 c3 = Point3d_plus (mkPoint3d x y z) (mkPoint3d x y z).
Proof using F_ring.
  unfold parse_member_tag. destruct tag as [| | | | | | | |m]; try done.
  destruct (struct_member _ "id") as [| |id| | | | | |]; try done.
  destruct (struct_member _ "size") as [| | |size| | | | |]; try done.
  intros Hrun. apply bind_Returned in Hrun as (checked & _ & Hrun).
  apply bind_Returned in Hrun as (x & Hx & Hrun).
  apply bind_Returned in Hrun as (y & Hy & Hrun).
  apply bind_Returned in Hrun as (z & Hz & Hrun).
  apply bind_Returned in Hrun as (qw & Hqw & Hrun).
  apply bind_Returned in Hrun as (qx & Hqx & Hrun).
  apply bind_Returned in Hrun as (qy & Hqy & Hrun).
  apply bind_Returned in Hrun as (qz & Hqz & Hrun).
  destruct (Quaterniond_toRotationMatrix _)
    as [[[[R00 R01] R02] [[R10 R11] R12]] [[R20 R21] R22]] eqn:HR.
  injection Hrun as <-.
  eexists _, x, y, z, qw, qx, qy, qz. split; [done|].
  repeat (split; [done|]).
  cbn [member_T_oi translation block_3_3 snd].
  repeat (split; [done|]). intros s. eexists _, _, _, _. split; [done|].
  unfold Point3d_plus, get_minor_3_4, Matx34d_times, row_times.
  cbn [Point3d_x Point3d_y Point3d_z]. split; f_equal; ring.
Qed.

Lemma xmlRpcGetDoubleWithDefault_readable tag field defaultValue :
  (readable_number tag field →
   ∃ x, xmlRpcGetDoubleWithDefault tag field defaultValue = Returned x)
  ∧ (¬ readable_number tag field →
     xmlRpcGetDoubleWithDefault tag field defaultValue = AssertFailed).
Proof.
  unfold readable_number, xmlRpcGetDoubleWithDefault.
  destruct (hasMember tag field); [|split; [by eauto|done]].
  destruct (struct_member tag field); cbn; split; try done; by eauto.
Qed.

Lemma bind_readable {B} tag field defaultValue (k : F → outcome B) (rest : bool) :
  (∀ x, (rest → ∃ b, k x = Returned b) ∧ (¬ rest → k x = AssertFailed)) →
  (readable_number tag field && rest →
   ∃ b, xmlRpcGetDoubleWithDefault tag field defaultValue ≫= k = Returned b)
  ∧ (¬ (readable_number tag field && rest) →
     xmlRpcGetDoubleWithDefault tag field defaultValue ≫= k = AssertFailed).
Proof.
  intros Hk.
  destruct (xmlRpcGetDoubleWithDefault_readable tag field defaultValue)
    as [Hok Hfail].
  destruct (readable_number tag field); cbn [andb].
  - destruct Hok as [x ->]; [done|]. cbn [mbind outcome_bind]. apply Hk.
  - rewrite Hfail by (intros Hf; exact Hf). split; [intros []|done].
Qed.

Lemma parse_member_tag_readable this bundle_i tag :
  (readable_member_tag tag →
   ∃ bundle',
     parse_member_tag (without_standalone_tags this) bundle_i tag
     = Returned bundle')
  ∧ (¬ readable_member_tag tag →
     parse_member_tag (without_standalone_tags this) bundle_i tag = AssertFailed).
Proof.
  unfold parse_member_tag, readable_member_tag.
  destruct tag as [| | | | | | | |m]; try (by split).
  destruct (struct_member _ "id") as [| |id| | | | | |]; try (by split).
  destruct (struct_member _ "size") as [| | |size| | | | |]; try (by split).
  unfold findStandaloneTagDescription, without_standalone_tags.
  cbn [standalone_tag_descriptions_]. rewrite lookup_empty.
  cbn [mbind outcome_bind]. unfold pose_fields. cbn [forallb].
  repeat (apply bind_readable; intros ?).
  destruct (Quaterniond_toRotationMatrix _)
    as [[[[R00 R01] R02] [[R10 R11] R12]] [[R20 R21] R22]].
  split; [by eauto|done].
Qed.

Lemma for_each_readable {A B} (body : B → A → outcome B) (readable : A → bool)
    (l : list A) :
  (∀ b a, (readable a → ∃ b', body b a = Returned b')
          ∧ (¬ readable a → body b a = AssertFailed)) →
  ∀ b,
    (Forall (λ a, readable a) l → ∃ b', for_each body b l = Returned b')
    ∧ (¬ Forall (λ a, readable a) l → for_each body b l = AssertFailed).
Proof.
  intros Hbody. induction l as [|a l IH]; intros b.
  { split; [by eauto|]. intros []. constructor. }
  cbn [for_each]. destruct (Hbody b a) as [Hok Hfail]. split.
  - intros [Ha Hl]%Forall_cons. destruct (Hok Ha) as [b1 ->].
    cbn [mbind outcome_bind]. by apply IH.
  - intros Hnot. destruct (decide (readable a)) as [Ha|Ha].
    + destruct (Hok Ha) as [b1 ->]. cbn [mbind outcome_bind].
      apply IH. intros Hl. apply Hnot. by constructor.
    + by rewrite Hfail.
Qed.

Lemma parse_bundle_readable this i bundle_description :
  (readable_bundle bundle_description →
   ∃ bundle,
     parse_bundle (without_standalone_tags this) i bundle_description
     = Returned bundle)
  ∧ (¬ readable_bundle bundle_description →
     parse_bundle (without_standalone_tags this) i bundle_description
     = AssertFailed).
Proof.
  unfold parse_bundle, readable_bundle, parse_bundle_name.
  destruct bundle_description as [| | | | | | | |m]; try (by split).
  assert (∀ bundle_i,
            match struct_member (TypeStruct m) "layout" with
            | TypeArray member_tags =>
              for_each (parse_member_tag (without_standalone_tags this))
                bundle_i member_tags
            | _ => AssertFailed
            end
            = (if match struct_member (TypeStruct m) "layout" with
                  | TypeArray member_tags => forallb readable_member_tag member_tags
                  | _ => false
                  end
               then match struct_member (TypeStruct m) "layout" with
                    | TypeArray member_tags =>
                      for_each (parse_member_tag (without_standalone_tags this))
                        bundle_i member_tags
                    | _ => AssertFailed
                    end
               else AssertFailed)
            ∧ (match struct_member (TypeStruct m) "layout" with
               | TypeArray member_tags => forallb readable_member_tag member_tags
               | _ => false
               end = true →
               ∃ bundle,
                 match struct_member (TypeStruct m) "layout" with
                 | TypeArray member_tags =>
                   for_each (parse_member_tag (without_standalone_tags this))
                     bundle_i member_tags
                 | _ => AssertFailed
                 end = Returned bundle)) as Hlayout.
  { intros bundle_i.
    destruct (struct_member (TypeStruct m) "layout") as [| | | | | | |tags|];
      try (by split).
    destruct (for_each_readable (parse_member_tag (without_standalone_tags this))
                readable_member_tag tags
                (λ b a, parse_member_tag_readable this b a) bundle_i)
      as [Hok Hfail].
    destruct (forallb readable_member_tag tags) eqn:Hall.
    - split; [done|]. intros _. apply Hok.
      apply Forall_forall. intros tag Hin.
      rewrite forallb_forall in Hall. apply Is_true_true, Hall.
      by apply list_elem_of_In.
    - split; [|done]. apply Hfail. intros Hforall.
      assert (forallb readable_member_tag tags = true); [|congruence].
      apply forallb_forall. intros tag Hin%list_elem_of_In.
      rewrite Forall_forall in Hforall. by apply Is_true_true, Hforall. }
  destruct (hasMember (TypeStruct m) "name").
  - destruct (struct_member (TypeStruct m) "name"); cbn [mbind outcome_bind andb];
      try (by split).
    destruct (Hlayout (mkTagBundleDescription s [] ∅)) as [-> Hok].
    destruct (match struct_member (TypeStruct m) "layout" with
              | TypeArray member_tags => forallb readable_member_tag member_tags
              | _ => false
              end); [|by split].
    split; [|done]. intros _. by apply Hok.
  - cbn [mbind outcome_bind andb].
    destruct (Hlayout (mkTagBundleDescription ("bundle_" +:+ pretty i) [] ∅))
      as [-> Hok].
    destruct (match struct_member (TypeStruct m) "layout" with
              | TypeArray member_tags => forallb readable_member_tag member_tags
              | _ => false
              end); [|by split].
    split; [|done]. intros _. by apply Hok.
Qed.

Lemma parse_bundles_readable this a : ∀ i descriptions,
  (Forall (λ bundle_description, readable_bundle bundle_description) a →
   ∃ loaded,
     parse_bundles (without_standalone_tags this) i descriptions a
     = Returned loaded)
  ∧ (¬ Forall (λ bundle_description, readable_bundle bundle_description) a →
     parse_bundles (without_standalone_tags this) i descriptions a
     = AssertFailed).
Proof.
  induction a as [|b a IH]; intros i descriptions.
  { split; [by eauto|]. intros []. constructor. }
  cbn [parse_bundles]. destruct (parse_bundle_readable this i b) as [Hok Hfail].
  split.
  - intros [Hb Ha]%Forall_cons. destruct (Hok Hb) as [bundle ->].
    cbn [mbind outcome_bind]. by apply IH.
  - intros Hnot. destruct (decide (readable_bundle b)) as [Hb|Hb].
    + destruct (Hok Hb) as [bundle ->]. cbn [mbind outcome_bind].
      apply IH. intros Ha. apply Hnot. by constructor.
    + by rewrite Hfail.
Qed.

(** X19: in a build with assertions enabled, [parseTagBundles] returns
    exactly for an array of readable bundles in which no member is declared
    with another size than the standalone description of its id; on every
    other value one of its assertions fails, which stops the process. A
    bundle is readable whatever the number of its members and whatever their
    ids, sizes and poses: a layout with no member, an id that occurs twice
    and a size that is not positive are all accepted. *)
Theorem parseTagBundles_readable this tag_bundles :
  ((∃ descriptions, parseTagBundles this tag_bundles = Returned descriptions)
   ↔ (∃ a, tag_bundles = TypeArray a
           ∧ Forall (λ bundle_description, readable_bundle bundle_description) a)
     ∧ ¬ Exists (size_mismatch this) (declared_members tag_bundles))
  ∧ (parseTagBundles this tag_bundles = AssertFailed
     ↔ ¬ ((∃ a, tag_bundles = TypeArray a
                ∧ Forall (λ bundle_description, readable_bundle bundle_description)
                    a)
          ∧ ¬ Exists (size_mismatch this) (declared_members tag_bundles))).
Proof.
  destruct (parseTagBundles_check this tag_bundles) as [Hmismatch Hsame].
  assert ((∃ descriptions,
             parseTagBundles (without_standalone_tags this) tag_bundles
             = Returned descriptions)
          ↔ ∃ a, tag_bundles = TypeArray a
                 ∧ Forall (λ bundle_description, readable_bundle bundle_description)
                     a) as Hreadable.
  { unfold parseTagBundles.
    destruct tag_bundles as [| | | | | | |a|];
      try (split; [by intros [? ?]|by intros (? & ? & _)]).
    destruct (parse_bundles_readable this a 0 []) as [Hok Hfail]. split.
    - intros [descriptions Hrun]. exists a. split; [done|].
      destruct (decide (Forall (λ bd, readable_bundle bd) a)) as [|Hnot]; [done|].
      by rewrite Hfail in Hrun.
    - intros (a' & [= <-] & Ha). by apply Hok. }
  assert ((∃ descriptions, parseTagBundles this tag_bundles = Returned descriptions)
          ↔ (∃ a, tag_bundles = TypeArray a
                  ∧ Forall (λ bundle_description,
                              readable_bundle bundle_description) a)
            ∧ ¬ Exists (size_mismatch this) (declared_members tag_bundles))
    as Hreturns.
  { split.
    - intros [descriptions Hrun].
      destruct (decide (Exists (size_mismatch this) (declared_members tag_bundles)))
        as [Hex|Hnone]; [by rewrite Hmismatch in Hrun|].
      split; [|done]. apply Hreadable. exists descriptions.
      by rewrite <- Hsame.
    - intros [Hread Hnone]. rewrite Hsame by done. by apply Hreadable. }
  split; [done|]. split.
  - intros Hfail Hgood. apply Hreturns in Hgood as [descriptions Hrun].
    by rewrite Hfail in Hrun.
  - intros Hbad.
    destruct (parseTagBundles this tag_bundles) as [descriptions| |] eqn:Hrun;
      [|done|by apply parseTagBundles_no_fuel in Hrun].
    destruct Hbad. apply Hreturns. eauto.
Qed.

(** ** Construction and destruction *)

(** X20: a detector that the constructor has built is destroyed with the
    function that matches the one its family was created with: the
    destructor frees the decoder, the array of detections and then the
    family, once, by the [destroy] of the family's own [create]. A family
    name for which the destructor would free no family never comes out of
    the constructor. *)
Theorem TagDetector_destructor_matches pnh family_ this tf_ camera_tf_frame_ :
  TagDetector_constructor pnh family_ = Constructed this tf_ camera_tf_frame_ →
  TagDetector_destructor family_
  = [apriltag_detector_destroy; zarray_destroy; destroys tf_]
  ∧ family_ ∈ tag_families.
Proof.
  unfold TagDetector_constructor, TagDetector_destructor, tag_families, push_back.
  destruct (_ ≫= _) as [built| |]; [|done..].
  intros Hctor. repeat case_decide; try done; simplify_eq; cbn [app destroys].
  - split; [done|]. by left.
  - split; [done|]. right. by left.
  - split; [done|]. do 2 right. by left.
  - split; [done|]. do 3 right. by left.
  - split; [done|]. do 4 right. by left.
Qed.

End TagDetector.

(** * A concrete detector

    The statements above hold for every scalar type, sort and solver. Here
    they are run on integers, with a homography applied with integer
    division and a solver that reports only how many points it was given.
    There are two sorts. The first is handed the detections themselves, so
    that the comparison reads the id of each and the array comes out in the
    order of the ids. The second is handed the slots of an array that lies
    in memory, as [qsort] does it. *)

Record sample_detection : Type := SampleDetection {
  sample_id : Z;
  sample_H : @Matx33d Z
}.

Definition sample_homography_project (H : @Matx33d Z) (x y : Z) : Z * Z :=
  let '((h00, h01, h02), (h10, h11, h12), (h20, h21, h22)) := H in
  let xx := (h00 * x + h01 * y + h02)%Z in
  let yy := (h10 * x + h11 * y + h12)%Z in
  let zz := (h20 * x + h21 * y + h22)%Z in
  ((xx / zz)%Z, (yy / zz)%Z).

(** The translation reported is (number of object points, number of image
    points, 0); the rotation is the identity. *)
Definition sample_solvePnP (objectPoints : list (@Point3d Z))
    (imagePoints : list (@Point2d Z)) (cameraMatrix : @Matx33d Z)
    (distCoeffs : @Vec4d Z) : @Vec3d Z * @Vec3d Z :=
  ((0, 0, 0)%Z, (Z.of_nat (length objectPoints), Z.of_nat (length imagePoints), 0%Z)).

Definition sample_Rodrigues (rvec : @Vec3d Z) : @Matx33d Z :=
  ((1, 0, 0), (0, 1, 0), (0, 0, 1))%Z.

Definition sample_Quaterniond_of_rotation (rot : @Matx33d Z) : @Quaterniond Z :=
  mkQuaterniond 1%Z 0%Z 0%Z 0%Z.

Definition sample_Quaterniond_toRotationMatrix (q : @Quaterniond Z) : @Matx33d Z :=
  ((1, 0, 0), (0, 1, 0), (0, 0, 1))%Z.

(** The first sort: no memory, and the comparison is handed the detections
    themselves. *)
Definition sample_cast_id (m : ()) (p : sample_detection) : Z := sample_id p.

Definition sample_zarray_sort
    (compar : () → sample_detection → sample_detection → Z)
    : list sample_detection → list sample_detection :=
  reference_sort (compar ()).

Definition sample_removeDuplicates
    : list sample_detection → outcome (list sample_detection) :=
  removeDuplicates sample_id sample_cast_id sample_zarray_sort.

(** A detection at its address. The array is a row of slots, each holding
    the address of a detection, and the comparison is handed two slots. Read
    as a detection, a slot shows as its [id] what lies behind its first
    word: here the address that the next slot holds, and 0 behind the last
    slot. The sort is the reference sort on the slots, which are then read
    for the detections they hold. *)
Record placed_detection : Type := Placed {
  placed_address : Z;
  placed : sample_detection
}.

Definition placed_id (detection : placed_detection) : Z :=
  sample_id (placed detection).

Definition slot_id (slots : list placed_detection) (slot : nat) : Z :=
  match slots !! S slot with
  | Some next => placed_address next
  | None => 0%Z
  end.

Definition slot_sort (compar : list placed_detection → nat → nat → Z)
    (za : list placed_detection) : list placed_detection :=
  omap (λ slot, za !! slot) (reference_sort (compar za) (seq 0 (length za))).

Definition placed_removeDuplicates
    : list placed_detection → outcome (list placed_detection) :=
  removeDuplicates placed_id slot_id slot_sort.

Definition sample_detect_frame (this : @TagDetector Z) (detections : list sample_detection)
    : outcome (@frame_state Z unit) :=
  detect_frame sample_id 0%Z 1%Z Z.add Z.mul Z.div Z.opp (λ i, i) sample_H
    sample_homography_project sample_solvePnP sample_Rodrigues
    sample_Quaterniond_of_rotation this 600%Z 600%Z 320%Z 240%Z () detections.

Definition sample_detectTags (this : @TagDetector Z) (detections : list sample_detection)
    : outcome (@AprilTagDetectionArray Z unit) :=
  detectTags sample_id sample_cast_id sample_zarray_sort 0%Z 1%Z Z.add Z.mul Z.div Z.opp (λ i, i)
    sample_H sample_homography_project sample_solvePnP sample_Rodrigues
    sample_Quaterniond_of_rotation this detections 600%Z 600%Z 320%Z 240%Z ().

Definition sample_parseTagBundles (this : @TagDetector Z)
    (tag_bundles : @XmlRpcValue Z) : outcome (list (@TagBundleDescription Z)) :=
  parseTagBundles 0%Z 1%Z (λ i, i) (λ q, q) sample_Quaterniond_toRotationMatrix
    this tag_bundles.

(** A detection of the tag [id] seen straight on, [scale] pixels to the unit,
    centred at ([u], [v]). *)
Definition seen (id scale u v : Z) : sample_detection :=
  SampleDetection id ((scale, 0, u), (0, scale, v), (0, 0, 1))%Z.

(** A member tag at the origin of its bundle, and one moved along x. *)
Definition sample_member (id size x : Z) : @TagPoseDescription Z :=
  mkTagPoseDescription id size
    ((1, 0, 0, x), (0, 1, 0, 0), (0, 0, 1, 0), (0, 0, 0, 1))%Z.

(** Two bundles that share the tag 2; the tag 5 stands alone, and the tag 3
    is described both as a member of a bundle and on its own. *)
Definition sample_bundle_B : @TagBundleDescription Z :=
  mkTagBundleDescription "B" [sample_member 1 4 0; sample_member 2 4 10]
    {[ 1%Z := 0%nat; 2%Z := 1%nat ]}.
Definition sample_bundle_C : @TagBundleDescription Z :=
  mkTagBundleDescription "C" [sample_member 2 4 0; sample_member 3 6 20]
    {[ 2%Z := 0%nat; 3%Z := 1%nat ]}.
Definition sample_detector : @TagDetector Z :=
  mkTagDetector
    ({[ 5%Z := mkStandaloneTagDescription 5%Z 8%Z "tag_5";
        3%Z := mkStandaloneTagDescription 3%Z 6%Z "tag_3" ]}
       : gmap Z (@StandaloneTagDescription Z))
    [sample_bundle_B; sample_bundle_C].

(** The same, while its bundles are still to be loaded; and a detector whose
    standalone description of the tag 3 gives it another size. *)
Definition sample_loader : @TagDetector Z :=
  mkTagDetector (standalone_tag_descriptions_ sample_detector) [].
Definition mismatched_loader : @TagDetector Z :=
  mkTagDetector
    ({[ 3%Z := mkStandaloneTagDescription 3%Z 7%Z "tag_3" ]}
       : gmap Z (@StandaloneTagDescription Z))
    [].

(** Two bundles given the same name, with one member each. *)
Definition namesake_1 : @TagBundleDescription Z :=
  mkTagBundleDescription "B" [sample_member 1 4 0] {[ 1%Z := 0%nat ]}.
Definition namesake_2 : @TagBundleDescription Z :=
  mkTagBundleDescription "B" [sample_member 2 4 0] {[ 2%Z := 0%nat ]}.
Definition namesake_detector : @TagDetector Z :=
  mkTagDetector ∅ [namesake_1; namesake_2].

(** The configuration that [sample_bundle_B] and [sample_bundle_C] are
    loaded from. *)
Definition sample_tag (id size x : Z) : @XmlRpcValue Z :=
  TypeStruct {[ "id" := TypeInt id; "size" := TypeDouble size; "x" := TypeInt x ]}.
Definition sample_tag_bundles : @XmlRpcValue Z :=
  TypeArray
    [TypeStruct {[ "name" := TypeString "B";
                   "layout" := TypeArray [sample_tag 1 4 0; sample_tag 2 4 10] ]};
     TypeStruct {[ "name" := TypeString "C";
                   "layout" := TypeArray [sample_tag 2 4 0; sample_tag 3 6 20] ]}].

(** The standalone tags that [sample_detector] is loaded from, and a list
    in which the tag 5 is declared twice. *)
Definition sample_standalone_tag (id size : Z) : @XmlRpcValue Z :=
  TypeStruct {[ "id" := TypeInt id; "size" := TypeDouble size ]}.
Definition sample_standalone_tags : @XmlRpcValue Z :=
  TypeArray [sample_standalone_tag 5 8; sample_standalone_tag 3 6].
Definition repeated_standalone_tags : @XmlRpcValue Z :=
  TypeArray
    [sample_standalone_tag 5 8;
     TypeStruct {[ "id" := TypeInt 5; "size" := TypeDouble 9%Z;
                   "name" := TypeString "other" ]}].
Definition repeated_standalone_descriptions : gmap Z (@StandaloneTagDescription Z) :=
  {[ 5%Z := mkStandaloneTagDescription 5%Z 8%Z "tag_5" ]}.

(** The parameters that [sample_detector] is built from, and parameters
    whose standalone tag 3 has another size than the member 3 of the bundle
    "C". *)
Definition sample_pnh : gmap string (@XmlRpcValue Z) :=
  {[ "standalone_tags" := sample_standalone_tags;
     "tag_bundles" := sample_tag_bundles;
     "camera_frame" := TypeString "usb_cam" ]}.
Definition mismatched_pnh : gmap string (@XmlRpcValue Z) :=
  {[ "standalone_tags" := TypeArray [sample_standalone_tag 3 7];
     "tag_bundles" := sample_tag_bundles ]}.

Definition sample_constructor (pnh : gmap string (@XmlRpcValue Z))
    (family_ : string) : @construction Z :=
  TagDetector_constructor 0%Z 1%Z (λ i, i) (λ q, q)
    sample_Quaterniond_toRotationMatrix pnh family_.

(** Two bundles that are given no name. *)
Definition unnamed_tag_bundles : list (@XmlRpcValue Z) :=
  [TypeStruct {[ "layout" := TypeArray [sample_tag 1 4 0] ]};
   TypeStruct {[ "layout" := TypeArray [sample_tag 2 4 0] ]}].
Definition unnamed_bundles : list (@TagBundleDescription Z) :=
  [mkTagBundleDescription "bundle_0" [sample_member 1 4 0] {[ 1%Z := 0%nat ]};
   mkTagBundleDescription "bundle_1" [sample_member 2 4 0] {[ 2%Z := 0%nat ]}].

(** The corners and the centre of a sample detection are the images of the
    corners and of the centre of its tag; a text is ten pixels high and ten
    pixels wide per character. *)
Definition sample_p (det : sample_detection) (i j : nat) : Z :=
  let '(x, y) :=
    match i with
    | 0%nat => (-1, 1)%Z
    | 1%nat => (1, 1)%Z
    | 2%nat => (1, -1)%Z
    | _ => (-1, -1)%Z
    end in
  let '(im_x, im_y) := sample_homography_project (sample_H det) x y in
  match j with 0%nat => im_x | _ => im_y end.
Definition sample_c (det : sample_detection) (j : nat) : Z :=
  let '(im_x, im_y) := sample_homography_project (sample_H det) 0 0 in
  match j with 0%nat => im_x | _ => im_y end.
Definition sample_getTextSize (text : string) (fontFace fontScale thickness : Z)
    : Z * Z :=
  ((10 * Z.of_nat (String.length text))%Z, 10%Z).

Definition sample_drawDetections (this : @TagDetector Z)
    (detections : list sample_detection) (image : list (@drawing Z))
    : list (@drawing Z) :=
  drawDetections sample_id Z.add Z.sub (λ i, i) sample_p sample_c (λ x, x)
    sample_getTextSize 0%Z this detections image.

Definition sample_detectTags_transforms (this : @TagDetector Z)
    (publish_tf_ : bool) (detections : list sample_detection)
    : outcome (list (@StampedTransform Z unit)) :=
  detectTags_transforms sample_id sample_cast_id sample_zarray_sort 0%Z 1%Z Z.add Z.mul Z.div Z.opp
    (λ i, i) sample_H sample_homography_project sample_solvePnP sample_Rodrigues
    sample_Quaterniond_of_rotation this publish_tf_ "usb_cam" detections
    600%Z 600%Z 320%Z 240%Z ().

(** ** The statements, at concrete inputs *)

Lemma removeDuplicates_terminates_witness :
  (∃ out, sample_removeDuplicates [seen 4 10 0 0; seen 4 10 5 5; seen 2 10 0 0]
          = Returned out)
  ∧ (0 ≤ scan_measure (ScanState [seen 4 10 5 5] 0 true)
       < scan_measure (ScanState [seen 4 10 0 0; seen 4 10 5 5] 0 false))%Z.
Proof.
  pose proof (removeDuplicates_terminates sample_id sample_cast_id sample_zarray_sort
                [seen 4 10 0 0; seen 4 10 5 5; seen 2 10 0 0])
    as (Hreturns & Hstep & _).
  split; [exact Hreturns|].
  by apply (Hstep (ScanState [seen 4 10 0 0; seen 4 10 5 5] 0 false)
                  (ScanState [seen 4 10 5 5] 0 true)).
Defined.

(** Three detections of the ids 7, 3 and 7, and of the ids 4, 2 and 4, each
    at an address below that of the one before it in the array. *)
Definition frame_7_3_7 : list placed_detection :=
  [Placed 30 (seen 7 10 0 0); Placed 20 (seen 3 10 50 50);
   Placed 10 (seen 7 10 5 5)].
Definition frame_4_2_4 : list placed_detection :=
  [Placed 30 (seen 4 10 0 0); Placed 20 (seen 2 10 50 50);
   Placed 10 (seen 4 10 5 5)].

Lemma removeDuplicates_keeps_copies_apart_witness :
  placed_id <$> frame_7_3_7 = [7; 3; 7]%Z
  ∧ ∃ out,
      placed_removeDuplicates frame_7_3_7 = Returned out
      ∧ placed_id <$> out = [7; 3; 7]%Z.
Proof.
  split; [reflexivity|]. eexists. split.
  - apply (removeDuplicates_keeps_copies_apart placed_id slot_id slot_sort
             frame_7_3_7 (Placed 10 (seen 7 10 5 5)) (Placed 20 (seen 3 10 50 50))
             (Placed 30 (seen 7 10 0 0)));
      [reflexivity|by vm_compute|by vm_compute|by vm_compute].
  - reflexivity.
Defined.

Lemma removeDuplicates_distinct_ids_witness :
  ∃ out,
    placed_removeDuplicates
      [Placed 30 (seen 4 10 0 0); Placed 20 (seen (-2) 10 50 50);
       Placed 10 (seen 9 10 5 5)]
    = Returned out
    ∧ placed_id <$> out = [9; -2; 4]%Z.
Proof.
  destruct (removeDuplicates_distinct_ids placed_id slot_id slot_sort
              [Placed 30 (seen 4 10 0 0); Placed 20 (seen (-2) 10 50 50);
               Placed 10 (seen 9 10 5 5)])
    as (out & Hout & -> & _);
    [exact (reverse_Permutation
              [Placed 30 (seen 4 10 0 0); Placed 20 (seen (-2) 10 50 50);
               Placed 10 (seen 9 10 5 5)])
    |compute_done|compute_done|].
  exists (slot_sort (idComparison slot_id)
            [Placed 30 (seen 4 10 0 0); Placed 20 (seen (-2) 10 50 50);
             Placed 10 (seen 9 10 5 5)]).
  split; [exact Hout|]. by vm_compute.
Defined.

(** C2 fails as stated on the single detection of id -1: the ids are
    pairwise distinct, and the detection is dropped. *)
Lemma removeDuplicates_distinct_ids_counterexample :
  NoDup (placed_id <$> [Placed 10 (seen (-1) 10 0 0)])
  ∧ placed_removeDuplicates [Placed 10 (seen (-1) 10 0 0)] = Returned []
  ∧ ¬ [] ≡ₚ [Placed 10 (seen (-1) 10 0 0)].
Proof.
  split; [apply NoDup_singleton|]. split; [by vm_compute|].
  intros Hperm. by apply Permutation_nil_l in Hperm.
Qed.

Lemma removeDuplicates_twice_differs_witness :
  placed_id <$> frame_4_2_4 = [4; 2; 4]%Z
  ∧ (∃ once,
       placed_removeDuplicates frame_4_2_4 = Returned once
       ∧ placed_id <$> once = [4; 2; 4]%Z)
  ∧ ∃ twice,
      (out ← placed_removeDuplicates frame_4_2_4; placed_removeDuplicates out)
      = Returned twice
      ∧ placed_id <$> twice = [2]%Z.
Proof.
  destruct (removeDuplicates_twice_differs placed_id slot_id slot_sort
              (Placed 30 (seen 4 10 0 0)) (Placed 20 (seen 2 10 50 50))
              (Placed 10 (seen 4 10 5 5)))
    as (Honce & Htwice & _);
    [reflexivity|by vm_compute|by vm_compute|by vm_compute|by vm_compute
    |by vm_compute|].
  split; [reflexivity|]. split; eexists; (split; [eassumption|reflexivity]).
Defined.

Lemma addObjectPoints_corners_witness :
  addObjectPoints 0%Z 1%Z Z.add Z.mul Z.opp 3%Z
    (member_T_oi (sample_member 2 6 10)) []
  = [mkPoint3d 7 (-3) 0; mkPoint3d 13 (-3) 0; mkPoint3d 13 3 0; mkPoint3d 7 3 0]%Z
  ∧ addObjectPoints 0%Z 1%Z Z.add Z.mul Z.opp (8 / 2)%Z (Matx44d_eye 0%Z 1%Z) []
    = [mkPoint3d (-4) (-4) 0; mkPoint3d 4 (-4) 0; mkPoint3d 4 4 0;
       mkPoint3d (-4) 4 0]%Z.
Proof.
  exact (addObjectPoints_corners 0%Z 1%Z Z.add Z.sub Z.mul Z.div Z.opp (λ i, i)
           InitialRing.Zth 3%Z 8%Z (member_T_oi (sample_member 2 6 10)) []).
Defined.

Lemma addImagePoints_corners_witness :
  addImagePoints 1%Z Z.opp sample_H sample_homography_project (seen 2 10 100 200) []
  = [mkPoint2d 90 210; mkPoint2d 110 210; mkPoint2d 110 190; mkPoint2d 90 190]%Z
  ∧ addImagePoints 1%Z Z.opp sample_H sample_homography_project (seen 2 10 100 200) []
    = (λ '(x, y),
         image_point sample_H sample_homography_project (seen 2 10 100 200) x (- y)%Z)
      <$> winding 1%Z Z.opp
  ∧ addObjectPoints 0%Z 1%Z Z.add Z.mul Z.opp 3%Z (Matx44d_eye 0%Z 1%Z) []
    = (λ '(x, y), mkPoint3d (x * 3) (y * 3) 0)%Z <$> winding 1%Z Z.opp.
Proof.
  exact (addImagePoints_corners 0%Z 1%Z Z.add Z.sub Z.mul Z.opp sample_H
           sample_homography_project InitialRing.Zth (seen 2 10 100 200) 3%Z []).
Defined.

(** The frame of the examples: the tags 2 and 3 of the bundles, the
    standalone tag 5, a tag 9 that nothing describes, and the tag 1 seen
    twice. *)
Definition sample_frame : list sample_detection :=
  [seen 3 10 300 100; seen 1 10 50 50; seen 9 10 400 400; seen 2 10 100 100;
   seen 5 10 200 200; seen 1 10 60 60].



Lemma shared_member_feeds_every_bundle_witness :
  ∃ st,
    sample_detect_frame sample_detector [seen 2 10 100 100; seen 5 10 200 200]
    = Returned st
    ∧ at_key (bundleObjectPoints st) "B"
      = member_object_points sample_id 0%Z 1%Z Z.add Z.mul Z.div Z.opp (λ i, i)
          sample_bundle_B (seen 2 10 100 100)
    ∧ at_key (bundleObjectPoints st) "C"
      = member_object_points sample_id 0%Z 1%Z Z.add Z.mul Z.div Z.opp (λ i, i)
          sample_bundle_C (seen 2 10 100 100)
    ∧ at_key (bundleImagePoints st) "B"
      = member_image_points 1%Z Z.opp sample_H sample_homography_project
          (seen 2 10 100 100)
    ∧ at_key (bundleImagePoints st) "C"
      = member_image_points 1%Z Z.opp sample_H sample_homography_project
          (seen 2 10 100 100)
    ∧ msg_id <$> tag_detection_array st = [[5]; [1; 2]; [2; 3]]%Z.
Proof.
  destruct (shared_member_feeds_every_bundle sample_id 0%Z 1%Z Z.add Z.mul Z.div
              Z.opp (λ i, i) sample_H sample_homography_project sample_solvePnP
              sample_Rodrigues sample_Quaterniond_of_rotation (λ q, q)
              sample_Quaterniond_toRotationMatrix sample_detector
              600%Z 600%Z 320%Z 240%Z () [] [seen 5 10 200 200] (seen 2 10 100 100))
    as ((st & Hrun & _) & _); [compute_done|].
  exists st. split; [exact Hrun|].
  vm_compute in Hrun. injection Hrun as <-. by vm_compute.
Defined.

Lemma unrecognized_detection_is_skipped_witness :
  sample_detect_frame sample_detector
    [seen 2 10 100 100; seen 9 10 400 400; seen 5 10 200 200]
  = sample_detect_frame sample_detector [seen 2 10 100 100; seen 5 10 200 200]
  ∧ ∃ array, sample_detectTags sample_detector sample_frame = Returned array.
Proof.
  destruct (unrecognized_detection_is_skipped sample_id sample_cast_id sample_zarray_sort 0%Z 1%Z Z.add
              Z.mul Z.div Z.opp (λ i, i) sample_H sample_homography_project
              sample_solvePnP sample_Rodrigues sample_Quaterniond_of_rotation
              sample_detector 600%Z 600%Z 320%Z 240%Z ()
              (mkFrameState [] [] ∅ ∅) (seen 9 10 400 400)
              [seen 2 10 100 100] [seen 5 10 200 200] sample_frame)
    as (_ & Hsame & Hreturns); [by vm_compute|compute_done|].
  split; [exact Hsame|apply Hreturns; compute_done].
Defined.

Lemma detectTags_entries_in_order_witness :
  ∃ survivors,
    sample_removeDuplicates [seen 1 10 50 50] = Returned survivors
    ∧ (λ array, msg_id <$> msg_detections array)
      <$> sample_detectTags namesake_detector [seen 1 10 50 50]
      = Returned [[1%Z]; [2%Z]].
Proof.
  destruct (detectTags_entries_in_order sample_id sample_cast_id sample_zarray_sort 0%Z 1%Z Z.add Z.mul
              Z.div Z.opp (λ i, i) sample_H sample_homography_project
              sample_solvePnP sample_Rodrigues sample_Quaterniond_of_rotation
              namesake_detector 600%Z 600%Z 320%Z 240%Z () [seen 1 10 50 50])
    as (survivors & Hsurvivors & Harray); [compute_done|].
  exists survivors. split; [exact Hsurvivors|].
  unfold sample_detectTags. rewrite Harray. clear Harray.
  vm_compute in Hsurvivors. injection Hsurvivors as <-. by vm_compute.
Defined.

Lemma size_mismatch_stops_the_process_witness :
  sample_parseTagBundles mismatched_loader sample_tag_bundles = AssertFailed
  ∧ sample_constructor mismatched_pnh "tag36h11" = assertion_failed.
Proof.
  destruct (size_mismatch_stops_the_process 0%Z 1%Z (λ i, i) (λ q, q)
              sample_Quaterniond_toRotationMatrix mismatched_loader
              sample_tag_bundles)
    as [Hload Hctor]; [compute_done|].
  split; [exact Hload|]. apply Hctor; by vm_compute.
Defined.

(** ** The further properties, at concrete inputs *)

Lemma removeDuplicates_neighbours_witness :
  removeDuplicates sample_id sample_cast_id (λ _ za, za)
    [seen 3 10 0 0; seen 5 10 0 0; seen 3 10 9 9]
  = Returned [seen 3 10 0 0; seen 5 10 0 0; seen 3 10 9 9]
  ∧ sample_removeDuplicates [seen 3 10 0 0; seen 5 10 0 0; seen 3 10 9 9]
    = Returned [seen 5 10 0 0].
Proof.
  destruct (removeDuplicates_neighbours sample_id sample_cast_id (λ _ za, za)
              [seen 3 10 0 0; seen 5 10 0 0; seen 3 10 9 9])
    as (_ & _ & Hkept).
  destruct (removeDuplicates_neighbours sample_id sample_cast_id sample_zarray_sort
              [seen 3 10 0 0; seen 5 10 0 0; seen 3 10 9 9])
    as (Hsorted & _ & _).
  split; [apply Hkept; compute_done|].
  unfold sample_removeDuplicates. rewrite Hsorted. by vm_compute.
Defined.

Lemma parseStandaloneTags_first_declaration_witness :
  ∃ a,
    repeated_standalone_tags = TypeArray a
    ∧ ∀ id,
        (Forall (λ tag, declared_id tag ≠ Some id) a →
         findStandaloneTagDescription
           (mkTagDetector repeated_standalone_descriptions []) id false = None)
        ∧ (∀ k tag,
             a !! k = Some tag →
             declared_id tag = Some id →
             (∀ j tag', (j < k)%nat → a !! j = Some tag' →
                        declared_id tag' ≠ Some id) →
             ∃ description,
               findStandaloneTagDescription
                 (mkTagDetector repeated_standalone_descriptions []) id false
               = Some description
               ∧ declares tag description).
Proof.
  apply (parseStandaloneTags_first_declaration repeated_standalone_tags
           repeated_standalone_descriptions [] false).
  by vm_compute.
Defined.

Lemma parseStandaloneTags_readable_witness :
  (∃ descriptions,
     parseStandaloneTags repeated_standalone_tags = Returned descriptions)
  ∧ parseStandaloneTags
      (TypeArray [TypeStruct {[ "id" := TypeInt 5; "size" := TypeInt 8 ]}]
         : @XmlRpcValue Z)
    = AssertFailed.
Proof.
  destruct (parseStandaloneTags_readable repeated_standalone_tags)
    as [[_ Hreturns] _].
  destruct (parseStandaloneTags_readable
              (TypeArray [TypeStruct {[ "id" := TypeInt 5; "size" := TypeInt 8 ]}]
                 : @XmlRpcValue Z))
    as (_ & [_ Hfails] & _).
  split.
  - apply Hreturns. eexists. split; [done|]. compute_done.
  - apply Hfails. intros (a & [= <-] & Ha). revert Ha. compute_done.
Defined.

Lemma TagDetector_constructor_invariant_witness :
  sample_constructor sample_pnh "tag36h11"
  = Constructed sample_detector tag36h11_create "usb_cam"
  ∧ Forall bundle_indexed (tag_bundle_descriptions_ sample_detector)
  ∧ sizes_agree sample_detector
  ∧ ∃ array, sample_detectTags sample_detector sample_frame = Returned array.
Proof.
  assert (sample_constructor sample_pnh "tag36h11"
          = Constructed sample_detector tag36h11_create "usb_cam") as Hctor
    by (by vm_compute).
  destruct (TagDetector_constructor_invariant sample_id sample_cast_id sample_zarray_sort 0%Z 1%Z
              Z.add Z.mul Z.div Z.opp (λ i, i) sample_H sample_homography_project
              sample_solvePnP sample_Rodrigues sample_Quaterniond_of_rotation
              (λ q, q) sample_Quaterniond_toRotationMatrix (Header := unit)
              sample_pnh "tag36h11" sample_detector tag36h11_create "usb_cam")
    as (Hidx & Hsizes & Hreturns); [exact Hctor|].
  split; [exact Hctor|]. split; [exact Hidx|]. split; [exact Hsizes|].
  exact (Hreturns sample_frame 600%Z 600%Z 320%Z 240%Z ()).
Defined.

Lemma TagDetector_constructor_sections_witness :
  sample_constructor sample_pnh "tag49h12" = exit 1
  ∧ sample_constructor mismatched_pnh "tag16h5" = assertion_failed
  ∧ loaded_sections 0%Z 1%Z (λ i, i) (λ q, q) sample_Quaterniond_toRotationMatrix
      sample_pnh sample_detector.
Proof.
  destruct (TagDetector_constructor_sections 0%Z 1%Z (λ i, i) (λ q, q)
              sample_Quaterniond_toRotationMatrix sample_pnh "tag49h12")
    as (_ & Hexit & _).
  destruct (TagDetector_constructor_sections 0%Z 1%Z (λ i, i) (λ q, q)
              sample_Quaterniond_toRotationMatrix mismatched_pnh "tag16h5")
    as ([_ Hstopped] & _).
  destruct (TagDetector_constructor_sections 0%Z 1%Z (λ i, i) (λ q, q)
              sample_Quaterniond_toRotationMatrix sample_pnh "tag36h11")
    as (_ & _ & Hbuilt).
  split; [|split].
  - apply Hexit. split; [done|]. split; [compute_done|by vm_compute].
  - apply Hstopped. right.
    exists (standalone_tag_descriptions_ mismatched_loader), sample_tag_bundles.
    split; [by vm_compute|]. split; by vm_compute.
  - by apply (Hbuilt sample_detector tag36h11_create "usb_cam").
Defined.

Lemma drawDetections_described_witness :
  length (sample_drawDetections sample_detector
            [seen 5 10 200 200; seen 9 10 400 400; seen 2 10 100 100] [])
  = 10%nat
  ∧ sample_drawDetections sample_detector [seen 9 10 400 400] [] = [].
Proof.
  destruct (drawDetections_described sample_id Z.add Z.sub (λ i, i) sample_p
              sample_c (λ x, x) sample_getTextSize 0%Z sample_detector
              [seen 5 10 200 200; seen 9 10 400 400; seen 2 10 100 100] [])
    as (_ & Hlength & _).
  destruct (drawDetections_described sample_id Z.add Z.sub (λ i, i) sample_p
              sample_c (λ x, x) sample_getTextSize 0%Z sample_detector
              [seen 9 10 400 400] [])
    as (_ & _ & Hnone).
  split.
  - unfold sample_drawDetections. rewrite Hlength. by vm_compute.
  - apply Hnone. compute_done.
Defined.

Lemma drawn_iff_processed_witness :
  (drawDetections_iteration sample_id Z.add Z.sub (λ i, i) sample_p sample_c
     (λ x, x) sample_getTextSize 0%Z sample_detector [] (seen 9 10 400 400) = []
   ↔ process_detection sample_id 0%Z 1%Z Z.add Z.mul Z.div Z.opp (λ i, i)
       sample_H sample_homography_project sample_solvePnP sample_Rodrigues
       sample_Quaterniond_of_rotation sample_detector 600%Z 600%Z 320%Z 240%Z ()
       (mkFrameState [] [] ∅ ∅) (seen 9 10 400 400)
     = Returned (mkFrameState [] [] ∅ ∅))
  ∧ (drawDetections_iteration sample_id Z.add Z.sub (λ i, i) sample_p sample_c
       (λ x, x) sample_getTextSize 0%Z sample_detector [] (seen 9 10 400 400) = []
     ↔ ¬ described sample_id sample_detector (seen 9 10 400 400)).
Proof.
  apply (drawn_iff_processed sample_id 0%Z 1%Z Z.add Z.sub Z.mul Z.div Z.opp
           (λ i, i) sample_H sample_homography_project sample_solvePnP
           sample_Rodrigues sample_Quaterniond_of_rotation sample_p sample_c
           (λ x, x) sample_getTextSize 0%Z sample_detector 600%Z 600%Z 320%Z
           240%Z () (mkFrameState [] [] ∅ ∅) (seen 9 10 400 400) []).
  compute_done.
Defined.

Lemma detectTags_transforms_named_witness :
  ∃ sent,
    sample_detectTags_transforms sample_detector true sample_frame = Returned sent
    ∧ transform_child_frame_id <$> sent = ["tag_3"; "tag_5"; "B"; "C"]
    ∧ sample_detectTags_transforms sample_detector false sample_frame
      = Returned [].
Proof.
  destruct (detectTags_transforms_named sample_id sample_cast_id sample_zarray_sort 0%Z 1%Z Z.add
              Z.mul Z.div Z.opp (λ i, i) sample_H sample_homography_project
              sample_solvePnP sample_Rodrigues sample_Quaterniond_of_rotation
              sample_detector "usb_cam" sample_frame 600%Z 600%Z 320%Z 240%Z ())
    as (_ & survivors & array & sent & Hsurvivors & _ & Hquiet & Hsent & _ & _
        & Hnames); [compute_done|].
  exists sent. split; [exact Hsent|]. split; [|exact Hquiet].
  rewrite Hnames. clear Hnames Hsent Hquiet.
  vm_compute in Hsurvivors. injection Hsurvivors as <-. by vm_compute.
Defined.

Lemma addObjectPoints_centred_witness :
  ∃ c0 c1 c2 c3,
    addObjectPoints 0%Z 1%Z Z.add Z.mul Z.opp 3%Z
      (member_T_oi (sample_member 2 6 10)) [] = [c0; c1; c2; c3]
    ∧ Point3d_plus Z.add c0 c2 = mkPoint3d 20%Z 0%Z 0%Z
    ∧ addObjectPoints 0%Z 1%Z Z.add Z.mul Z.opp (-3)%Z
        (member_T_oi (sample_member 2 6 10)) [] = [c2; c3; c0; c1].
Proof.
  destruct (addObjectPoints_centred 0%Z 1%Z Z.add Z.sub Z.mul Z.opp
              InitialRing.Zth 3%Z (member_T_oi (sample_member 2 6 10)))
    as (c0 & c1 & c2 & c3 & Hcorners & Hcentre & _ & Hopposite & _).
  exists c0, c1, c2, c3. split; [exact Hcorners|]. split; [|exact Hopposite].
  rewrite Hcentre. by vm_compute.
Defined.

Lemma parseTagBundles_lists_layout_witness :
  ∃ a,
    sample_tag_bundles = TypeArray a
    ∧ length [sample_bundle_B; sample_bundle_C] = length a
    ∧ ∀ k bundle_description bundle,
        a !! k = Some bundle_description →
        [sample_bundle_B; sample_bundle_C] !! k = Some bundle →
        (if hasMember bundle_description "name"
         then struct_member bundle_description "name" = TypeString (name_ bundle)
         else name_ bundle = "bundle_" +:+ pretty (Z.of_nat k))
        ∧ ∃ member_tags,
            struct_member bundle_description "layout" = TypeArray member_tags
            ∧ Forall2 (λ tag id, struct_member tag "id" = TypeInt id)
                member_tags (bundleIds bundle)
            ∧ Forall2 (λ tag size, struct_member tag "size" = TypeDouble size)
                member_tags (bundleSizes bundle).
Proof.
  apply (parseTagBundles_lists_layout 0%Z 1%Z (λ i, i) (λ q, q)
           sample_Quaterniond_toRotationMatrix sample_loader sample_tag_bundles
           [sample_bundle_B; sample_bundle_C]).
  by vm_compute.
Defined.

Lemma unnamed_bundles_distinct_names_witness :
  (∀ k bundle, unnamed_bundles !! k = Some bundle →
               name_ bundle = "bundle_" +:+ pretty (Z.of_nat k))
  ∧ NoDup (name_ <$> unnamed_bundles).
Proof.
  apply (unnamed_bundles_distinct_names 0%Z 1%Z (λ i, i) (λ q, q)
           sample_Quaterniond_toRotationMatrix sample_loader unnamed_tag_bundles
           unnamed_bundles).
  - by vm_compute.
  - compute_done.
Defined.

Lemma parse_member_tag_pose_witness :
  ∃ member,
    tags_ namesake_2 = [] ++ [member]
    ∧ translation (member_T_oi member) = mkPoint3d 0%Z 0%Z 0%Z
    ∧ (member_T_oi member).2 = (0, 0, 0, 1)%Z.
Proof.
  destruct (parse_member_tag_pose 0%Z 1%Z Z.add Z.sub Z.mul Z.opp (λ i, i)
              (λ q, q) sample_Quaterniond_toRotationMatrix InitialRing.Zth
              sample_loader (mkTagBundleDescription "B" [] ∅)
              (sample_tag 2 4 0) namesake_2)
    as (member & x & y & z & qw & qx & qy & qz & Htags & Hx & Hy & Hz & _ & _ & _
        & _ & Htranslation & _ & Hrow & _); [by vm_compute|].
  exists member. split; [exact Htags|]. split; [|exact Hrow].
  rewrite Htranslation. vm_compute in Hx, Hy, Hz.
  injection Hx as <-. injection Hy as <-. injection Hz as <-. reflexivity.
Defined.

Lemma parseTagBundles_readable_witness :
  (∃ descriptions,
     sample_parseTagBundles sample_loader
       (TypeArray [TypeStruct {[ "layout" := TypeArray [] ]}])
     = Returned descriptions)
  ∧ sample_parseTagBundles mismatched_loader sample_tag_bundles = AssertFailed.
Proof.
  destruct (parseTagBundles_readable 0%Z 1%Z (λ i, i) (λ q, q)
              sample_Quaterniond_toRotationMatrix sample_loader
              (TypeArray [TypeStruct {[ "layout" := TypeArray [] ]}]))
    as [[_ Hreturns] _].
  destruct (parseTagBundles_readable 0%Z 1%Z (λ i, i) (λ q, q)
              sample_Quaterniond_toRotationMatrix mismatched_loader
              sample_tag_bundles)
    as [_ [_ Hfails]].
  split.
  - apply Hreturns. split.
    + eexists. split; [done|]. compute_done.
    + compute_done.
  - apply Hfails. intros [_ Hnone]. apply Hnone. compute_done.
Defined.

Lemma TagDetector_destructor_matches_witness :
  TagDetector_destructor "tag36h11"
  = [apriltag_detector_destroy; zarray_destroy; tag36h11_destroy]
  ∧ "tag36h11" ∈ tag_families.
Proof.
  apply (TagDetector_destructor_matches 0%Z 1%Z (λ i, i) (λ q, q)
           sample_Quaterniond_toRotationMatrix sample_pnh "tag36h11"
           sample_detector tag36h11_create "usb_cam").
  by vm_compute.
Defined.

